(** * web-session-tracer: operation routing, classification and correlation

    A shallow embedding of the tracer's TypeScript sources:

    - [MutationLevel]   src/tracer/mutation-level.ts  (computeChangeLevel)
    - [Config]          src/config.ts                 (getConfig)
    - [Async]           the async/await discipline shared by the classes
    - [Storage]         src/storage.ts                (SessionStorage)
    - [NetworkTracker]  src/tracer/network-tracker.ts
    - [PageTracer]      src/tracer/page-tracer.ts
    - [InjectedScript]  src/tracer/injected-script.ts (the page-side script)
    - [SessionManager]  src/tracer/session-manager.ts (generateSessionId)

    JavaScript numbers that only ever hold counts are integers here
    ([N] for counters, [Z] for sizes and levels); a number read from
    the environment is a [Js.Number]; strings are [string];
    [null]/[undefined] is [None]. *)

From Stdlib Require Import List String Ascii ZArith NArith Lia Bool.
From Stdlib Require Import DecimalString DecimalN FinFun.
From Stdlib Require Import QArith Qround.
Import ListNotations.
Local Open Scope string_scope.
Local Open Scope Z_scope.

(** ** JavaScript string and array primitives used by the sources *)

Module Js.

(** [String.prototype.startsWith]. *)
Definition startsWith (s p : string) : bool := String.prefix p s.

(** [String.prototype.includes]: [sub] occurs somewhere in [s]. *)
Fixpoint includes (s sub : string) : bool :=
  String.prefix sub s
  || match s with
     | EmptyString => false
     | String _ rest => includes rest sub
     end.

(** [Set.prototype.has] on a set of strings given by its elements. *)
Definition has (set : list string) (x : string) : bool :=
  existsb (String.eqb x) set.

(** [arr.length] as a number. *)
Definition len {A} (l : list A) : Z := Z.of_nat (List.length l).

(** Truthiness of a [string | null | undefined] value. *)
Definition truthy (o : option string) : bool :=
  match o with
  | None => false
  | Some s => negb (String.eqb s "")
  end.

(** A [number]: [NaN], an infinity, or a finite value.  Every finite
    double is a rational, and nothing below depends on which rationals
    are doubles. *)
Inductive Number :=
| NaN
| NegInfinity
| Finite (q : Q)
| Infinity.

(** A number that holds an integer, such as a [size] or a literal. *)
Definition ofZ (z : Z) : Number := Finite (inject_Z z).

Definition isNaN (a : Number) : bool :=
  match a with NaN => true | _ => false end.

(** [a <= b]: false as soon as one side is [NaN]. *)
Definition le (a b : Number) : bool :=
  match a, b with
  | NaN, _ | _, NaN => false
  | NegInfinity, _ => true
  | _, Infinity => true
  | Finite x, Finite y => Qle_bool x y
  | Finite _, NegInfinity => false
  | Infinity, _ => false
  end.

(** [a >= b]. *)
Definition ge (a b : Number) : bool := le b a.

End Js.

(** ** src/tracer/mutation-level.ts *)

Module MutationLevel.

(** [RawDomChange] of src/types.ts. *)
Record RawDomChange := mkRaw {
  mutationType : string;
  targetPath : string;
  addedNodes : list string;
  removedNodes : list string;
  attributeName : option string;
  attributeValue : option string;
  oldValue : option string;
  characterData : option string
}.

(** [MutationLevel = 1 | 2 | 3], a number. *)
Definition MutationLevel := Z.

Definition VISIBLE_ATTRS : list string :=
  [ "class"; "style"; "hidden"; "disabled"; "value"; "checked";
    "selected"; "open"; "src"; "href"; "alt"; "title";
    "aria-expanded"; "aria-selected"; "aria-checked"; "aria-hidden";
    "aria-label"; "aria-disabled"; "aria-current" ].

Definition RESOURCE_NODES : list string :=
  [ "SCRIPT"; "LINK"; "META"; "STYLE"; "NOSCRIPT" ].

Definition isInHead (targetPath : string) : bool :=
  Js.includes targetPath "/head[" || String.eqb targetPath "".

Definition isNoiseNodes (nodes : list string) : bool :=
  (Js.len nodes >? 0)
  && forallb (fun n => Js.has RESOURCE_NODES n || String.eqb n "#comment")
             nodes.

Definition isTextOnlyNodes (nodes : list string) : bool :=
  (Js.len nodes >? 0) && forallb (fun n => String.eqb n "#text") nodes.

(** The two attribute tests of the level-3 block: [Some 3] when one of
    them returns, [None] when control falls through. *)
Definition attributeLevel (raw : RawDomChange) : option MutationLevel :=
  if String.eqb (mutationType raw) "attributes" then
    match attributeName raw with
    | Some name =>
        if Js.has VISIBLE_ATTRS name then Some 3
        else if Js.startsWith name "aria-" then Some 3
        else None
    | None => None
    end
  else None.

(** The childList block that follows it. *)
Definition childListLevel (raw : RawDomChange) (allNodes : list string)
  : option MutationLevel :=
  if String.eqb (mutationType raw) "childList" then
    if isTextOnlyNodes allNodes then Some 2
    else if existsb
              (fun n => negb (Js.has RESOURCE_NODES n)
                        && negb (String.eqb n "#comment")
                        && negb (String.eqb n "#text"))
              allNodes
         then Some 3
         else None
  else None.

Definition computeChangeLevel (raw : RawDomChange) : MutationLevel :=
  if isInHead (targetPath raw) then 1
  else
    let allNodes := (addedNodes raw ++ removedNodes raw)%list in
    if String.eqb (mutationType raw) "childList"
       && (Js.len allNodes >? 0)
       && isNoiseNodes allNodes
    then 1
    else
      match attributeLevel raw with
      | Some l => l
      | None =>
          match childListLevel raw allNodes with
          | Some l => l
          | None => 2
          end
      end.

(** The node names the classifier treats as resource noise. *)
Definition noise_name (n : string) : Prop :=
  In n RESOURCE_NODES \/ n = "#comment".

(** The attribute names the two disputed sentences speak about. *)
Definition class_style_aria (name : string) : Prop :=
  name = "class" \/ name = "style" \/ Js.startsWith name "aria-" = true.

End MutationLevel.

(** ** src/config.ts *)

Module Config.

(** [TracerConfig].  [fullSnapshotEnabled] is the name page-tracer.ts
    reads ([snapshotEnabled] in config.ts). *)
Record TracerConfig := mkConfig {
  chromeUrl : string;
  sessionDir : string;
  networkBufferSize : Js.Number;
  screenshotEnabled : bool;
  fullSnapshotEnabled : bool
}.

(** The value of [Number(process.env.NETWORK_BUFFER_SIZE ?? 1000)]. *)
Definition JsNumber := Js.Number.

(** The guard of [getConfig] on the buffer size:
    [Number.isNaN(raw) || raw <= 0 ? 1000 : raw]. *)
Definition bufferSizeOf (raw : JsNumber) : Js.Number :=
  if Js.isNaN raw || Js.le raw (Js.ofZ 0) then Js.ofZ 1000 else raw.

Definition getConfig (chrome dir : string) (raw : JsNumber)
           (screenshot snapshot : bool) : TracerConfig :=
  {| chromeUrl := chrome;
     sessionDir := dir;
     networkBufferSize := bufferSizeOf raw;
     screenshotEnabled := screenshot;
     fullSnapshotEnabled := snapshot |}.

End Config.

(** ** src/types.ts *)

Module Types.

Definition Headers := list (string * string).

Module SessionMetadata.
Record t := mk { sessionId : string; startTime : string;
                 chromeUrl : string }.
End SessionMetadata.

Module UserActionEvent.
Record t := mk {
  eventId : string; sessionId : string; frameUrl : string;
  timestamp : string;
  action : string; tagName : string; elementId : string;
  className : string; value : string; key : option string;
  screenshotBefore : option string; screenshotAfter : option string
}.
End UserActionEvent.

Module NavigationEvent.
Record t := mk {
  eventId : string; sessionId : string; frameUrl : string;
  timestamp : string;
  url : string; frameType : string
}.
End NavigationEvent.

(** [NavigationEvent | UserActionEvent], discriminated by [type]. *)
Inductive TracerEvent :=
| user_action (e : UserActionEvent.t)
| navigation (e : NavigationEvent.t).

Module DomChange.
Record t := mk {
  mutationType : string;
  targetPath : string;
  addedNodes : option (list string);
  removedNodes : option (list string);
  attributeName : option string;
  attributeValue : option (option string);
  oldValue : option (option string);
  characterData : option string;
  level : MutationLevel.MutationLevel
}.
End DomChange.

Module OpMutationRecord.
Record t := mk { timestamp : string;
                 maxLevel : MutationLevel.MutationLevel;
                 changes : list DomChange.t }.
End OpMutationRecord.

Module NetworkRequestEvent.
Record t := mk {
  eventId : string; sessionId : string; frameUrl : string;
  timestamp : string;
  requestId : string; url : string; method : string;
  headers : Headers; postData : option string
}.
End NetworkRequestEvent.

Module NetworkResponseEvent.
Record t := mk {
  eventId : string; sessionId : string; frameUrl : string;
  timestamp : string;
  requestId : string; url : string; status : Z; mimeType : string;
  headers : Headers
}.
End NetworkResponseEvent.

Module NetworkFinishedEvent.
Record t := mk {
  eventId : string; sessionId : string; frameUrl : string;
  timestamp : string;
  requestId : string; url : string; encodedDataLength : Z
}.
End NetworkFinishedEvent.

Inductive NetworkEvent :=
| network_request (e : NetworkRequestEvent.t)
| network_response (e : NetworkResponseEvent.t)
| network_finished (e : NetworkFinishedEvent.t).

Module InjectedEvent.
Record t := mk {
  type : string;
  frameType : option string;
  action : option string;
  tagName : option string;
  elementId : option string;
  className : option string;
  value : option string;
  key : option string;
  changes : option (list MutationLevel.RawDomChange)
}.
End InjectedEvent.

End Types.

(** ** State of the three classes, and the world a handler runs in *)

Module State.

(** Fields of [class SessionStorage]. *)
Module SessionStorage.
Record t := mk {
  sessionId : string;
  sessionDir : string;
  opCount : N;
  eventCount : N;
  initialized : bool
}.
End SessionStorage.

Module PendingRequest.
Record t := mk { url : string; frameId : string }.
End PendingRequest.

(** Fields of [class NetworkTracker].  [pendingRequests] is a JS [Map]:
    an association list in insertion order, oldest first. *)
Module NetworkTracker.
Record t := mk {
  bufferSize : Js.Number;
  pendingRequests : list (string * PendingRequest.t)
}.
End NetworkTracker.

(** Fields of [class PageTracer].  [cdpSession] is [true] while the
    field holds a session object and [false] when it is [null]. *)
Module PageTracer.
Record t := mk {
  config : Config.TracerConfig;
  networkTracker : NetworkTracker.t;
  cdpSession : bool;
  stopped : bool;
  currentOpDir : option string;
  currentMutationDir : option string
}.
End PageTracer.

(** What is handed to [fs.writeFile] / [fs.appendFile], before
    [JSON.stringify]. *)
Inductive Content :=
| CMetadata (m : Types.SessionMetadata.t)
| CEvent (e : Types.TracerEvent)
| CSnapshot (snapshot : string)
| CMutation (r : Types.OpMutationRecord.t)
| CNetwork (e : Types.NetworkEvent)
| CPng (pngData : string).

(** The operations a handler awaits: the promise is settled by the
    platform, in a later turn of the event loop. *)
Inductive Request :=
| FsMkdir (path : string)
| FsWriteFile (path : string) (c : Content)
| FsAppendFile (path : string) (c : Content)
| PageCall (method : string)
| PageScreenshot
| CdpSend (method : string)
| CdpDetach
| Sleep (ms : Z).

(** How the promise settles: fulfilled with a payload, or rejected. *)
Inductive Response :=
| Fulfilled (payload : string)
| Rejected.

Inductive Effect :=
| Issued (r : Request)
| ConsoleError (msg : string)
| ConsoleWarn (msg : string).

(** One tab's tracer, the session's storage it shares, and the trace of
    what has been handed to the platform so far (oldest first). *)
Record World := mkWorld {
  storage : SessionStorage.t;
  tracer : PageTracer.t;
  effects : list Effect
}.

(** What a synchronous stretch of code reads from the platform:
    [new Date().toISOString()], [generateEventId()] and
    [page.mainFrame().url()]. *)
Record Env := mkEnv {
  now : string;
  generatedEventId : string;
  mainFrameUrl : string
}.

Inductive Error :=
| NotInitialized
| IoError.

End State.

(** ** async functions

    An [async] function is a tree of synchronous actions on the world;
    at an [Await] it hands a request to the platform and yields.  A
    promise that is started and not awaited is a [Fork]. *)

Module Async.
Import State.

Inductive Prog (A : Type) : Type :=
| Ret (a : A)
| Throw (e : Error)
| Get (k : World -> Prog A)
| Put (w : World) (k : Prog A)
| Ask (k : Env -> Prog A)
| Await (r : Request) (k : Response -> Prog A)
| Fork (p : Prog unit) (k : Prog A).

Arguments Ret {A} a.
Arguments Throw {A} e.
Arguments Get {A} k.
Arguments Put {A} w k.
Arguments Ask {A} k.
Arguments Await {A} r k.
Arguments Fork {A} p k.

Fixpoint bind {A B : Type} (p : Prog A) (f : A -> Prog B) : Prog B :=
  match p with
  | Ret a => f a
  | Throw e => Throw e
  | Get k => Get (fun w => bind (k w) f)
  | Put w k => Put w (bind k f)
  | Ask k => Ask (fun e => bind (k e) f)
  | Await r k => Await r (fun x => bind (k x) f)
  | Fork p k => Fork p (bind k f)
  end.

(** [try { p } catch { h }], and [p.catch(h)] on a promise. *)
Fixpoint try_catch {A : Type} (p : Prog A) (h : Error -> Prog A) : Prog A :=
  match p with
  | Ret a => Ret a
  | Throw e => h e
  | Get k => Get (fun w => try_catch (k w) h)
  | Put w k => Put w (try_catch k h)
  | Ask k => Ask (fun e => try_catch (k e) h)
  | Await r k => Await r (fun x => try_catch (k x) h)
  | Fork p k => Fork p (try_catch k h)
  end.

Inductive Outcome (A : Type) : Type :=
| Done (a : A)
| Failed (e : Error)
| Suspended (r : Request) (k : Response -> Prog A).

Arguments Done {A} a.
Arguments Failed {A} e.
Arguments Suspended {A} r k.

(** One later turn of the event loop as a suspended function sees it:
    what other handlers did to the world while it was waiting, how its
    promise settled, and the platform values of the stretch it then
    runs. *)
Record Turn := mkTurn {
  meanwhile : World -> World;
  settled : Response;
  env : Env
}.

Definition issue (r : Request) (w : World) : World :=
  mkWorld (storage w) (tracer w) (effects w ++ [Issued r]).

(** Runs [p] from world [w].  Each [Await] issues its request and, when
    a turn is left, resumes with it; with no turn left the function
    stays suspended there.  A forked promise runs its first synchronous
    stretch and is then left to the platform. *)
Fixpoint drive {A : Type} (p : Prog A) (turns : list Turn) (e : Env)
         (w : World) : World * Outcome A :=
  match p with
  | Ret a => (w, Done a)
  | Throw err => (w, Failed err)
  | Get k => drive (k w) turns e w
  | Put w' k => drive k turns e w'
  | Ask k => drive (k e) turns e w
  | Await r k =>
      match turns with
      | [] => (issue r w, Suspended r k)
      | t :: rest =>
          drive (k (settled t)) rest (env t) (meanwhile t (issue r w))
      end
  | Fork p' k => drive k turns e (fst (drive p' [] e w))
  end.

(** [p] never waits on a timer. *)
Fixpoint neverSleeps {A : Type} (p : Prog A) : Prop :=
  match p with
  | Ret _ | Throw _ => True
  | Get k => forall w, neverSleeps (k w)
  | Put _ k => neverSleeps k
  | Ask k => forall e, neverSleeps (k e)
  | Await r k => (forall ms, r <> Sleep ms) /\ forall x, neverSleeps (k x)
  | Fork _ k => neverSleeps k
  end.

(** The synchronous stretch up to the first yield. *)
Definition run {A : Type} (p : Prog A) (e : Env) (w : World)
  : World * Outcome A :=
  drive p [] e w.

(** A turn in which no other handler ran. *)
Definition quiet (r : Response) (e : Env) : Turn := mkTurn (fun w => w) r e.

End Async.

Module AsyncNotations.
Notation "x <- p ;; q" := (Async.bind p (fun x => q))
  (at level 61, p at next level, right associativity).
Notation "p ;; q" := (Async.bind p (fun _ => q))
  (at level 61, right associativity).
End AsyncNotations.

(** ** node:path and string helpers of the platform

    [path.join] is the POSIX one (the tracer runs on Linux): the
    non-empty arguments are joined with a slash and the result is
    normalised, [.] and empty segments dropped and [..] resolved.
    [path.relative] is given for a target below the base directory, both
    normalised, which is how [writeOpScreenshot] calls it on a directory
    that [createOpDir] returned. *)

Module Path.

(** [s.split('/')]: the pieces of [s] between slashes. *)
Fixpoint split (s : string) : list string :=
  match s with
  | EmptyString => [EmptyString]
  | String c rest =>
      if Ascii.eqb c "/" then EmptyString :: split rest
      else match split rest with
           | piece :: pieces => String c piece :: pieces
           | [] => [String c EmptyString]
           end
  end.

(** One segment as [normalizeString] meets it; [res] holds the segments
    kept so far, the last one first. *)
Definition visit (allowAboveRoot : bool) (res : list string)
           (segment : string) : list string :=
  if String.eqb segment "" || String.eqb segment "." then res
  else if String.eqb segment ".." then
    match res with
    | last :: before =>
        if String.eqb last ".."
        then (if allowAboveRoot then ".." :: res else res)
        else before
    | [] => if allowAboveRoot then [".."] else []
    end
  else segment :: res.

(** The segments [normalizeString] keeps, the last one first. *)
Definition kept (path : string) (allowAboveRoot : bool) : list string :=
  fold_left (visit allowAboveRoot) (split path) [].

Definition normalizeString (path : string) (allowAboveRoot : bool)
  : string :=
  String.concat "/" (rev (kept path allowAboveRoot)).

Definition isAbsolute (path : string) : bool :=
  match path with
  | String c _ => Ascii.eqb c "/"
  | EmptyString => false
  end.

Fixpoint endsWithSlash (path : string) : bool :=
  match path with
  | EmptyString => false
  | String c EmptyString => Ascii.eqb c "/"
  | String _ rest => endsWithSlash rest
  end.

Definition normalize (path : string) : string :=
  if String.eqb path "" then "."
  else
    let trailingSeparator := endsWithSlash path in
    let p := normalizeString path (negb (isAbsolute path)) in
    if String.eqb p "" then
      if isAbsolute path then "/"
      else if trailingSeparator then "./" else "."
    else
      let p := if trailingSeparator then p ++ "/" else p in
      if isAbsolute path then "/" ++ p else p.

Definition join (segments : list string) : string :=
  let joined :=
    String.concat
      "/" (filter (fun arg => negb (String.eqb arg "")) segments) in
  if String.eqb joined "" then "." else normalize joined.

Fixpoint dropPrefix (p s : string) : option string :=
  match p, s with
  | EmptyString, _ => Some s
  | String a p', String b s' =>
      if Ascii.eqb a b then dropPrefix p' s' else None
  | String _ _, EmptyString => None
  end.

Definition relative (from to : string) : string :=
  match dropPrefix (from ++ "/") to with
  | Some rest => rest
  | None => to
  end.

End Path.

Module JsString.

(** [String(n)] for a non-negative integer. *)
Definition ofNumber (n : N) : string :=
  NilEmpty.string_of_uint (N.to_uint n).

Fixpoint repeat (c : ascii) (k : nat) : string :=
  match k with
  | O => EmptyString
  | S k' => String c (repeat c k')
  end.

(** [s.padStart(width, c)] for a one-character pad. *)
Definition padStart (s : string) (width : nat) (c : ascii) : string :=
  repeat c (width - String.length s) ++ s.

(** [s.replaceAll(a, b)] for one-character [a] and [b]. *)
Fixpoint replaceAll (s : string) (a b : ascii) : string :=
  match s with
  | EmptyString => EmptyString
  | String c rest =>
      String (if Ascii.eqb c a then b else c) (replaceAll rest a b)
  end.

Definition isDigit (c : ascii) : bool :=
  let n := nat_of_ascii c in (48 <=? n)%nat && (n <=? 57)%nat.

Fixpoint allDigits (s : string) : bool :=
  match s with
  | EmptyString => true
  | String c rest => isDigit c && allDigits rest
  end.

(** [/ev\d+$/.exec(s)?.[0]]: the leftmost suffix of [s] that is [ev]
    followed by one or more digits. *)
Fixpoint execEvDigits (s : string) : option string :=
  let here :=
    match s with
    | String "e" (String "v" (String d ds)) => isDigit d && allDigits ds
    | _ => false
    end in
  if here then Some s
  else match s with
       | EmptyString => None
       | String _ rest => execEvDigits rest
       end.

End JsString.

(** A JS [Map] with string keys: iteration follows insertion order, and
    [set] on a key already present keeps the key's position. *)

Module JsMap.
Section Ops.
Context {V : Type}.

Definition t := list (string * V).

Definition size (m : t) : Z := Js.len m.

Fixpoint get (m : t) (k : string) : option V :=
  match m with
  | [] => None
  | (k', v) :: rest => if String.eqb k' k then Some v else get rest k
  end.

Fixpoint set (m : t) (k : string) (v : V) : t :=
  match m with
  | [] => [(k, v)]
  | (k', v') :: rest =>
      if String.eqb k' k then (k', v) :: rest
      else (k', v') :: set rest k v
  end.

Definition delete (m : t) (k : string) : t :=
  filter (fun kv => negb (String.eqb (fst kv) k)) m.

(** [m.keys().next().value]. *)
Definition firstKey (m : t) : option string :=
  match m with
  | [] => None
  | (k, _) :: _ => Some k
  end.

Definition keys (m : t) : list string := map fst m.

End Ops.
Arguments t : clear implicits.
End JsMap.

(** ** src/storage.ts *)

Module Storage.
Import State Async AsyncNotations.
Import State.SessionStorage.

Definition setOpCount (n : N) (s : t) : t :=
  mk (sessionId s) (sessionDir s) n (eventCount s) (initialized s).
Definition setEventCount (n : N) (s : t) : t :=
  mk (sessionId s) (sessionDir s) (opCount s) n (initialized s).
Definition setInitialized (b : bool) (s : t) : t :=
  mk (sessionId s) (sessionDir s) (opCount s) (eventCount s) b.

(** [new SessionStorage(baseDir, sessionId)]. *)
Definition new (baseDir sessionId : string) : t :=
  mk sessionId (Path.join [baseDir; sessionId]) 0 0 false.

Definition getStorage : Prog t := Get (fun w => Ret (storage w)).

Definition modifyStorage (f : t -> t) : Prog unit :=
  Get (fun w => Put (mkWorld (f (storage w)) (tracer w) (effects w))
                    (Ret tt)).

(** [await] of a platform promise: a rejection is thrown at the
    [await]. *)
Definition await (r : Request) : Prog string :=
  Await r (fun x => match x with
                    | Fulfilled payload => Ret payload
                    | Rejected => Throw IoError
                    end).

Definition assertInitialized : Prog unit :=
  s <- getStorage ;;
  if negb (initialized s) then Throw NotInitialized else Ret tt.

Definition initialize (metadata : Types.SessionMetadata.t) : Prog unit :=
  s <- getStorage ;;
  await (FsMkdir (Path.join [sessionDir s; "ops"])) ;;
  await (FsWriteFile (Path.join [sessionDir s; "metadata.json"])
                     (CMetadata metadata)) ;;
  modifyStorage (setInitialized true).

Definition createOpDir (eventId frameType type : string) : Prog string :=
  assertInitialized ;;
  s <- getStorage ;;
  let evPart := match JsString.execEvDigits eventId with
                | Some m => m
                | None => eventId
                end in
  let dirName := evPart ++ "-" ++ frameType ++ "-" ++ type in
  let opDir := Path.join [sessionDir s; "ops"; dirName] in
  await (FsMkdir opDir) ;;
  modifyStorage (fun s => setOpCount (opCount s + 1) s) ;;
  Ret opDir.

Definition writeOpEvent (opDir : string) (event : Types.TracerEvent)
  : Prog unit :=
  assertInitialized ;;
  await (FsWriteFile (Path.join [opDir; "event.json"]) (CEvent event)) ;;
  Ret tt.

Definition writeOpSnapshot (opDir : string) (snapshot : string)
  : Prog unit :=
  assertInitialized ;;
  await (FsWriteFile (Path.join [opDir; "snapshot.json"])
                     (CSnapshot snapshot)) ;;
  Ret tt.

Definition appendOpMutation (opDir : string)
           (record : Types.OpMutationRecord.t) : Prog unit :=
  assertInitialized ;;
  await (FsAppendFile (Path.join [opDir; "mutations.jsonl"])
                      (CMutation record)) ;;
  Ret tt.

Definition appendOpNetwork (opDir : string) (event : Types.NetworkEvent)
  : Prog unit :=
  assertInitialized ;;
  await (FsAppendFile (Path.join [opDir; "network.jsonl"])
                      (CNetwork event)) ;;
  Ret tt.

Definition writeOpScreenshot (opDir phase pngData : string)
  : Prog string :=
  assertInitialized ;;
  s <- getStorage ;;
  let filename := phase ++ ".png" in
  await (FsWriteFile (Path.join [opDir; filename]) (CPng pngData)) ;;
  let rel := Path.relative (sessionDir s) (Path.join [opDir; filename]) in
  Ret (JsString.replaceAll rel "\" "/").

(** The identifier [nextEventId] renders for counter value [n]. *)
Definition eventIdOf (sessionId : string) (n : N) : string :=
  sessionId ++ "-ev" ++ JsString.padStart (JsString.ofNumber n) 6 "0".

(** [nextEventId()]: the new state and the identifier returned. *)
Definition nextEventId (s : t) : t * string :=
  let s' := setEventCount (eventCount s + 1) s in
  (s', eventIdOf (sessionId s') (eventCount s')).

Definition callNextEventId : Prog string :=
  Get (fun w =>
         let '(s', id) := nextEventId (storage w) in
         Put (mkWorld s' (tracer w) (effects w)) (Ret id)).

Definition opTotal (s : t) : N := opCount s.

(** The six writing methods, as calls. *)
Inductive WriteCall :=
| CallCreateOpDir (eventId frameType type : string)
| CallWriteOpEvent (opDir : string) (event : Types.TracerEvent)
| CallWriteOpSnapshot (opDir snapshot : string)
| CallAppendOpMutation (opDir : string) (record : Types.OpMutationRecord.t)
| CallAppendOpNetwork (opDir : string) (event : Types.NetworkEvent)
| CallWriteOpScreenshot (opDir phase pngData : string).

(** The method a call invokes; the returned value is dropped. *)
Definition invoke (c : WriteCall) : Prog unit :=
  match c with
  | CallCreateOpDir eventId frameType type =>
      createOpDir eventId frameType type ;; Ret tt
  | CallWriteOpEvent opDir event => writeOpEvent opDir event
  | CallWriteOpSnapshot opDir snapshot => writeOpSnapshot opDir snapshot
  | CallAppendOpMutation opDir record => appendOpMutation opDir record
  | CallAppendOpNetwork opDir event => appendOpNetwork opDir event
  | CallWriteOpScreenshot opDir phase pngData =>
      writeOpScreenshot opDir phase pngData ;; Ret tt
  end.

(** The identifiers a run of [nextEventId] calls hands out, one call
    per element of [callers] (the tab that asks), oldest first. *)
Fixpoint allocate {Tab : Type} (callers : list Tab) (s : t)
  : list (Tab * string) * t :=
  match callers with
  | [] => ([], s)
  | tab :: rest =>
      let '(s1, id) := nextEventId s in
      let '(ids, s2) := allocate rest s1 in
      ((tab, id) :: ids, s2)
  end.

(** The counter an identifier of session [sessionId] carries: the
    decimal number after the [-ev] that follows the session id. *)
Definition counterOf (sessionId id : string) : option N :=
  match Path.dropPrefix (sessionId ++ "-ev") id with
  | Some digits =>
      match digits with
      | EmptyString => None
      | _ => option_map N.of_uint (NilEmpty.uint_of_string digits)
      end
  | None => None
  end.

End Storage.

(** ** Frames of the CDP Network domain, as the listeners read them.
    [timestamp] is the frame's time as [isoFromCdpTimestamp] renders it. *)

Module Cdp.

Module Request.
Record t := mk { url : string; method : string;
                 headers : Types.Headers; postData : option string }.
End Request.

Module Response.
Record t := mk { url : string; status : Z; mimeType : string;
                 headers : Types.Headers }.
End Response.

Module RequestWillBeSent.
Record t := mk { requestId : string; frameId : option string;
                 timestamp : string; request : Request.t }.
End RequestWillBeSent.

Module ResponseReceived.
Record t := mk { requestId : string; frameId : option string;
                 timestamp : string; response : Response.t }.
End ResponseReceived.

Module LoadingFinished.
Record t := mk { requestId : string; timestamp : string;
                 encodedDataLength : Z }.
End LoadingFinished.

Inductive Frame :=
| requestWillBeSent (event : RequestWillBeSent.t)
| responseReceived (event : ResponseReceived.t)
| loadingFinished (event : LoadingFinished.t).

End Cdp.

(** ** src/tracer/network-tracker.ts *)

Module NetworkTracker.
Import State Async AsyncNotations.
Import State.NetworkTracker.

(** [new NetworkTracker(storage, bufferSize, getCurrentOpDir)]. *)
Definition new (bufferSize : Js.Number) : t := mk bufferSize [].

Definition setPending (m : JsMap.t PendingRequest.t) (n : t) : t :=
  mk (bufferSize n) m.

Definition setTracker (n : t) (w : World) : World :=
  let p := tracer w in
  mkWorld (storage w)
          (PageTracer.mk (PageTracer.config p) n (PageTracer.cdpSession p)
                         (PageTracer.stopped p) (PageTracer.currentOpDir p)
                         (PageTracer.currentMutationDir p))
          (effects w).

Definition getTracker : Prog t :=
  Get (fun w => Ret (PageTracer.networkTracker (tracer w))).

Definition modifyTracker (f : t -> t) : Prog unit :=
  Get (fun w =>
         Put (setTracker (f (PageTracer.networkTracker (tracer w))) w)
             (Ret tt)).

Definition log (eff : Effect) : Prog unit :=
  Get (fun w => Put (mkWorld (storage w) (tracer w) (effects w ++ [eff]))
                    (Ret tt)).

(** The closure [() => this.currentOpDir] the page tracer passes in. *)
Definition getCurrentOpDir : Prog (option string) :=
  Get (fun w => Ret (PageTracer.currentOpDir (tracer w))).

Definition evictIfFull (n : t) : t :=
  if Js.ge (Js.ofZ (JsMap.size (pendingRequests n))) (bufferSize n) then
    match JsMap.firstKey (pendingRequests n) with
    | Some firstKey =>
        setPending (JsMap.delete (pendingRequests n) firstKey) n
    | None => n
    end
  else n.

Definition appendToCurrentOp (event : Types.NetworkEvent) : Prog unit :=
  opDir <- getCurrentOpDir ;;
  match opDir with
  | Some dir =>
      if Js.truthy opDir then
        Fork (try_catch (Storage.appendOpNetwork dir event)
                        (fun _ => log (ConsoleError "[NetworkTracker]")))
             (Ret tt)
      else Ret tt
  | None => Ret tt
  end.

Definition orEmpty (o : option string) : string :=
  match o with Some s => s | None => "" end.

(** The entry [{ url: event.request.url, frameId: event.frameId ?? '' }]
    a request frame stores. *)
Definition pendingEntry (event : Cdp.RequestWillBeSent.t)
  : PendingRequest.t :=
  PendingRequest.mk
    (Cdp.Request.url (Cdp.RequestWillBeSent.request event))
    (orEmpty (Cdp.RequestWillBeSent.frameId event)).

Definition onRequestWillBeSent (event : Cdp.RequestWillBeSent.t)
  : Prog unit :=
  let request := Cdp.RequestWillBeSent.request event in
  modifyTracker evictIfFull ;;
  modifyTracker
    (fun n => setPending
                (JsMap.set (pendingRequests n)
                   (Cdp.RequestWillBeSent.requestId event)
                   (pendingEntry event))
                n) ;;
  s <- Storage.getStorage ;;
  Ask (fun e =>
    let tracerEvent :=
      Types.NetworkRequestEvent.mk
        (generatedEventId e)
        (SessionStorage.sessionId s)
        (orEmpty (Cdp.RequestWillBeSent.frameId event))
        (Cdp.RequestWillBeSent.timestamp event)
        (Cdp.RequestWillBeSent.requestId event)
        (Cdp.Request.url request)
        (Cdp.Request.method request)
        (Cdp.Request.headers request)
        (Cdp.Request.postData request) in
    appendToCurrentOp (Types.network_request tracerEvent)).

Definition onResponseReceived (event : Cdp.ResponseReceived.t)
  : Prog unit :=
  let response := Cdp.ResponseReceived.response event in
  s <- Storage.getStorage ;;
  Ask (fun e =>
    let tracerEvent :=
      Types.NetworkResponseEvent.mk
        (generatedEventId e)
        (SessionStorage.sessionId s)
        (orEmpty (Cdp.ResponseReceived.frameId event))
        (Cdp.ResponseReceived.timestamp event)
        (Cdp.ResponseReceived.requestId event)
        (Cdp.Response.url response)
        (Cdp.Response.status response)
        (Cdp.Response.mimeType response)
        (Cdp.Response.headers response) in
    appendToCurrentOp (Types.network_response tracerEvent)).

Definition onLoadingFinished (event : Cdp.LoadingFinished.t) : Prog unit :=
  n <- getTracker ;;
  let pending :=
    JsMap.get (pendingRequests n) (Cdp.LoadingFinished.requestId event) in
  modifyTracker
    (fun n => setPending
                (JsMap.delete (pendingRequests n)
                              (Cdp.LoadingFinished.requestId event))
                n) ;;
  s <- Storage.getStorage ;;
  Ask (fun e =>
    let tracerEvent :=
      Types.NetworkFinishedEvent.mk
        (generatedEventId e)
        (SessionStorage.sessionId s)
        (orEmpty (option_map PendingRequest.frameId pending))
        (Cdp.LoadingFinished.timestamp event)
        (Cdp.LoadingFinished.requestId event)
        (orEmpty (option_map PendingRequest.url pending))
        (Cdp.LoadingFinished.encodedDataLength event) in
    appendToCurrentOp (Types.network_finished tracerEvent)).

(** The listener [setup] registers for each frame. *)
Definition onFrame (f : Cdp.Frame) : Prog unit :=
  match f with
  | Cdp.requestWillBeSent event => onRequestWillBeSent event
  | Cdp.responseReceived event => onResponseReceived event
  | Cdp.loadingFinished event => onLoadingFinished event
  end.

(** [setup(cdpSession)]: enables the domain; the three listeners are
    registered once the command is acknowledged. *)
Definition setup : Prog unit :=
  Storage.await (CdpSend "Network.enable") ;; Ret tt.

(** The frames of [frames] handled one after the other, each in a turn
    of its own, with whatever other handlers do to the world before
    each frame. *)
Fixpoint deliver (frames : list (Cdp.Frame * Turn)) (w : World) : World :=
  match frames with
  | [] => w
  | (f, t) :: rest =>
      deliver rest (fst (run (onFrame f) (env t) (meanwhile t w)))
  end.

End NetworkTracker.

(** ** src/tracer/page-tracer.ts *)

Module PageTracer.
Import State Async AsyncNotations.
Import State.PageTracer.

(** [new PageTracer(page, storage, config)]. *)
Definition new (config : Config.TracerConfig) : t :=
  mk config (NetworkTracker.new (Config.networkBufferSize config))
     false false None None.

Definition setCdpSession (b : bool) (p : t) : t :=
  mk (config p) (networkTracker p) b (stopped p) (currentOpDir p)
     (currentMutationDir p).
Definition setStopped (b : bool) (p : t) : t :=
  mk (config p) (networkTracker p) (cdpSession p) b (currentOpDir p)
     (currentMutationDir p).
Definition setCurrentOpDir (d : option string) (p : t) : t :=
  mk (config p) (networkTracker p) (cdpSession p) (stopped p) d
     (currentMutationDir p).
Definition setCurrentMutationDir (d : option string) (p : t) : t :=
  mk (config p) (networkTracker p) (cdpSession p) (stopped p)
     (currentOpDir p) d.

Definition this : Prog t := Get (fun w => Ret (tracer w)).

Definition modifyThis (f : t -> t) : Prog unit :=
  Get (fun w => Put (mkWorld (storage w) (f (tracer w)) (effects w))
                    (Ret tt)).

(** [sleep(ms)]: a timer; it cannot reject. *)
Definition sleep (ms : Z) : Prog unit := Await (Sleep ms) (fun _ => Ret tt).

Definition nextEventId : Prog string := Storage.callNextEventId.

Definition orEmpty := NetworkTracker.orEmpty.

Definition takeScreenshot (opDir phase : string) : Prog (option string) :=
  try_catch
    (buffer <- Storage.await PageScreenshot ;;
     rel <- Storage.writeOpScreenshot opDir phase buffer ;;
     Ret (Some rel))
    (fun _ => Ret None).

Definition captureSnapshot (opDir : string) : Prog unit :=
  p <- this ;;
  if negb (cdpSession p) then Ret tt
  else
    try_catch
      (snapshot <- Storage.await (CdpSend "DOMSnapshot.captureSnapshot") ;;
       Storage.writeOpSnapshot opDir snapshot)
      (fun _ => NetworkTracker.log (ConsoleWarn "[PageTracer]")).

Definition saveUserAction (data : Types.InjectedEvent.t) : Prog unit :=
  match Types.InjectedEvent.action data with
  | None => Ret tt
  | Some action =>
    if negb (Js.truthy (Some action)) then Ret tt
    else
      eventId <- nextEventId ;;
      let frameType :=
        match Types.InjectedEvent.frameType data with
        | Some f => f
        | None => "main"
        end in
      opDir <- Storage.createOpDir eventId frameType action ;;
      let isClickLike :=
        String.eqb action "click" || String.eqb action "submit" in
      p <- this ;;
      screenshotBefore <-
        (if isClickLike && Config.screenshotEnabled (config p)
         then takeScreenshot opDir "before"
         else Ret None) ;;
      modifyThis (setCurrentMutationDir (Some opDir)) ;;
      modifyThis (setCurrentOpDir (Some opDir)) ;;
      (if isClickLike then sleep 500 else Ret tt) ;;
      p <- this ;;
      screenshotAfter <-
        (if Config.screenshotEnabled (config p)
         then takeScreenshot opDir "after"
         else Ret None) ;;
      p <- this ;;
      (if Config.fullSnapshotEnabled (config p)
       then captureSnapshot opDir
       else Ret tt) ;;
      s <- Storage.getStorage ;;
      Ask (fun e =>
        let event :=
          Types.UserActionEvent.mk
            eventId
            (SessionStorage.sessionId s)
            (mainFrameUrl e)
            (now e)
            action
            (orEmpty (Types.InjectedEvent.tagName data))
            (orEmpty (Types.InjectedEvent.elementId data))
            (orEmpty (Types.InjectedEvent.className data))
            (orEmpty (Types.InjectedEvent.value data))
            (Types.InjectedEvent.key data)
            screenshotBefore
            screenshotAfter in
        Storage.writeOpEvent opDir (Types.user_action event))
  end.

(** The [DomChange] built for one raw change in [saveMutation]. *)
Definition toDomChange (raw : MutationLevel.RawDomChange)
  : Types.DomChange.t :=
  let present := match MutationLevel.attributeName raw with
                 | Some _ => true
                 | None => false
                 end in
  Types.DomChange.mk
    (MutationLevel.mutationType raw)
    (MutationLevel.targetPath raw)
    (if Js.len (MutationLevel.addedNodes raw) >? 0
     then Some (MutationLevel.addedNodes raw) else None)
    (if Js.len (MutationLevel.removedNodes raw) >? 0
     then Some (MutationLevel.removedNodes raw) else None)
    (MutationLevel.attributeName raw)
    (if present then Some (MutationLevel.attributeValue raw) else None)
    (if present then Some (MutationLevel.oldValue raw) else None)
    (MutationLevel.characterData raw)
    (MutationLevel.computeChangeLevel raw).

(** The loop [for (const c of changes) maxLevel = Math.max(maxLevel,
    c.level)], started at 1. *)
Definition maxLevelOf (changes : list Types.DomChange.t)
  : MutationLevel.MutationLevel :=
  fold_left (fun maxLevel c => Z.max maxLevel (Types.DomChange.level c))
            changes 1.

Definition saveMutation (rawChanges : list MutationLevel.RawDomChange)
  : Prog unit :=
  p <- this ;;
  match currentMutationDir p with
  | Some targetDir =>
      if negb (Js.truthy (Some targetDir)) || (Js.len rawChanges =? 0)
      then Ret tt
      else
        let changes := map toDomChange rawChanges in
        let maxLevel := maxLevelOf changes in
        Ask (fun e =>
          let record := Types.OpMutationRecord.mk (now e) maxLevel changes in
          Storage.appendOpMutation targetDir record)
  | None => Ret tt
  end.

(** [handleInjectedEvent(eventDataStr)].  [parsed] is what
    [JSON.parse(eventDataStr)] gives, [None] when it throws. *)
Definition handleInjectedEvent (parsed : option Types.InjectedEvent.t)
  : Prog unit :=
  p <- this ;;
  if stopped p then Ret tt
  else
    match parsed with
    | None => NetworkTracker.log (ConsoleError "[PageTracer] JSON")
    | Some data =>
        if String.eqb (Types.InjectedEvent.type data) "user_action"
           && Js.truthy (Types.InjectedEvent.action data)
        then saveUserAction data
        else
          match Types.InjectedEvent.changes data with
          | Some changes =>
              if String.eqb (Types.InjectedEvent.type data) "mutation"
              then saveMutation changes
              else Ret tt
          | None => Ret tt
          end
    end.

Definition recordNavigation (url frameType : string) : Prog unit :=
  eventId <- nextEventId ;;
  opDir <- Storage.createOpDir eventId frameType "navigation" ;;
  s <- Storage.getStorage ;;
  Ask (fun e =>
    let event :=
      Types.NavigationEvent.mk eventId (SessionStorage.sessionId s)
                               url (now e) url frameType in
    Storage.writeOpEvent opDir (Types.navigation event) ;;
    if String.eqb frameType "main" then
      captureSnapshot opDir ;;
      modifyThis (setCurrentOpDir (Some opDir)) ;;
      modifyThis (setCurrentMutationDir (Some opDir))
    else Ret tt).

(** [handleNavigation(frame)]: [url] is [frame.url()] and [isMainFrame]
    is [frame === this.page.mainFrame()]. *)
Definition handleNavigation (url : string) (isMainFrame : bool)
  : Prog unit :=
  p <- this ;;
  if stopped p then Ret tt
  else if negb (Js.truthy (Some url)) || String.eqb url "about:blank"
  then Ret tt
  else
    let frameType := if isMainFrame then "main" else "iframe" in
    recordNavigation url frameType.

Definition stop : Prog unit :=
  modifyThis (setStopped true) ;;
  p <- this ;;
  if cdpSession p then
    try_catch (Storage.await CdpDetach ;; Ret tt) (fun _ => Ret tt) ;;
    modifyThis (setCdpSession false)
  else Ret tt.

(** [start()]: the session is created, the network listeners and the
    page hooks are installed, and the page already shown is recorded
    as a first navigation. *)
Definition start : Prog unit :=
  Storage.await (PageCall "createCDPSession") ;;
  modifyThis (setCdpSession true) ;;
  NetworkTracker.setup ;;
  try_catch (Storage.await (PageCall "exposeFunction") ;; Ret tt)
            (fun _ => Ret tt) ;;
  Storage.await (PageCall "evaluateOnNewDocument") ;;
  try_catch (Storage.await (PageCall "evaluate") ;; Ret tt)
            (fun _ => Ret tt) ;;
  Ask (fun e =>
    let currentUrl := mainFrameUrl e in
    if Js.truthy (Some currentUrl)
       && negb (String.eqb currentUrl "about:blank")
    then recordNavigation currentUrl "main"
    else Ret tt).

(** How the callers register the handlers: a rejection is logged with
    [console.error] and goes no further. *)
Definition logged (label : string) (p : Prog unit) : Prog unit :=
  try_catch p (fun _ => NetworkTracker.log (ConsoleError label)).

Definition onInjectedEvent (parsed : option Types.InjectedEvent.t)
  : Prog unit :=
  logged "[PageTracer] injected" (handleInjectedEvent parsed).

Definition onFrameNavigated (url : string) (isMainFrame : bool)
  : Prog unit :=
  logged "[PageTracer] navigation" (handleNavigation url isMainFrame).

(** The directory [createOpDir] makes for the identifier issued when
    the event counter stands at [count]. *)
Definition opDirFor (s : SessionStorage.t) (count : N)
           (frameType type : string) : string :=
  let eventId := Storage.eventIdOf (SessionStorage.sessionId s) count in
  let evPart := match JsString.execEvDigits eventId with
                | Some m => m
                | None => eventId
                end in
  Path.join [SessionStorage.sessionDir s; "ops";
             evPart ++ "-" ++ frameType ++ "-" ++ type].

End PageTracer.

(** ** Notions the statements below use *)

Module Spec.

(** [m] is the maximum of the numbers in [levels]. *)
Definition isMaximumOf (m : Z) (levels : list Z) : Prop :=
  In m levels /\ Forall (fun x => x <= m) levels.

(** The file a batch or a network record is appended to. *)
Definition mutationsFile (opDir : string) : string :=
  Path.join [opDir; "mutations.jsonl"].

Definition networkFile (opDir : string) : string :=
  Path.join [opDir; "network.jsonl"].

(** A turn in which the other handlers leave the network tracker
    alone: its fields are private to the class. *)
Definition leavesTracker (t : Async.Turn) : Prop :=
  forall w,
    State.PageTracer.networkTracker (State.tracer (Async.meanwhile t w))
    = State.PageTracer.networkTracker (State.tracer w).

(** A turn in which the other handlers do not clear the storage's
    flag: nothing in the sources does. *)
Definition keepsInitialized (t : Async.Turn) : Prop :=
  forall w,
    State.SessionStorage.initialized (State.storage w) = true ->
    State.SessionStorage.initialized
      (State.storage (Async.meanwhile t w)) = true.



(** The number of entries the map can reach with buffer size [b]: the
    least whole number that is no less than [b], and one at least; none
    for [NaN] and [Infinity], with which nothing is ever evicted. *)
Definition reachOf (b : Js.Number) : option Z :=
  match b with
  | Js.Finite q => Some (Z.max 1 (Qceiling q))
  | Js.NegInfinity => Some 1
  | Js.NaN | Js.Infinity => None
  end.

(** What the network tracker keeps true of its map: no more entries
    than the buffer size lets it reach, and no key twice. *)
Definition bounded (n : State.NetworkTracker.t) : Prop :=
  (forall c,
      reachOf (State.NetworkTracker.bufferSize n) = Some c ->
      JsMap.size (State.NetworkTracker.pendingRequests n) <= c)
  /\ NoDup (JsMap.keys (State.NetworkTracker.pendingRequests n)).

(** Turns in which no other handler runs, one per response. *)
Definition undisturbed (rs : list (State.Response * State.Env))
  : list Async.Turn :=
  map (fun re => Async.quiet (fst re) (snd re)) rs.

(** [data.frameType ?? 'main']. *)
Definition frameTypeOf (data : Types.InjectedEvent.t) : string :=
  match Types.InjectedEvent.frameType data with
  | Some f => f
  | None => "main"
  end.

(** The world [w] with the tab's [stopped] flag set to [b]. *)
Definition withStopped (b : bool) (w : State.World) : State.World :=
  State.mkWorld (State.storage w)
                (PageTracer.setStopped b (State.tracer w))
                (State.effects w).

(** The pending map of the tab's network tracker. *)
Definition pendingOf (w : State.World)
  : JsMap.t State.PendingRequest.t :=
  State.NetworkTracker.pendingRequests
    (State.PageTracer.networkTracker (State.tracer w)).

(** The record [onLoadingFinished] builds, given the url and the
    frame the lookup came up with. *)
Definition finishedRecord (event : Cdp.LoadingFinished.t)
           (e : State.Env) (w : State.World) (url frameUrl : string)
  : Types.NetworkFinishedEvent.t :=
  Types.NetworkFinishedEvent.mk
    (State.generatedEventId e)
    (State.SessionStorage.sessionId (State.storage w)) frameUrl
    (Cdp.LoadingFinished.timestamp event)
    (Cdp.LoadingFinished.requestId event)
    url
    (Cdp.LoadingFinished.encodedDataLength event).

End Spec.

(** ** Concrete inputs used by the examples below *)

Module Scenario.
Import MutationLevel.

Definition emptyChildList : RawDomChange :=
  mkRaw "childList" "/html[1]/body[1]/div[1]" [] [] None None None None.

Definition scriptAdded : RawDomChange :=
  mkRaw "childList" "/html[1]/body[1]" ["SCRIPT"; "#comment"] ["LINK"]
        None None None None.

Definition ariaBusy : RawDomChange :=
  mkRaw "attributes" "/html[1]/body[1]/div[2]" [] [] (Some "aria-busy")
        (Some "true") None None.

Definition classOnDocument : RawDomChange :=
  mkRaw "attributes" "" [] [] (Some "class") (Some "dark") None None.

Import State Async.

Definition config : Config.TracerConfig :=
  Config.getConfig "http://localhost:9222" "./sessions" (Js.ofZ 1000)
                   false false.

Definition env0 : Env :=
  mkEnv "2026-02-23T02:02:07.000Z" "1771812127000-k3j9x2a"
        "https://example.com/".

Definition ok : Turn := quiet (Fulfilled "") env0.

Definition metadata : Types.SessionMetadata.t :=
  Types.SessionMetadata.mk "session-20260223-020207"
                           "2026-02-23T02:02:07.000Z"
                           "http://localhost:9222".

(** A session whose storage exists and is not yet initialised. *)
Definition fresh : World :=
  mkWorld (Storage.new "/sessions" "session-20260223-020207")
          (PageTracer.new config) [].

(** The same session once [initialize] has completed. *)
Definition ready : World :=
  fst (drive (Storage.initialize metadata) [ok; ok] env0 fresh).

(** The tab once [start] has completed on a page that is already
    showing https://example.com/: the page is operation 1. *)
Definition started : World :=
  fst (drive PageTracer.start [ok; ok; ok; ok; ok; ok; ok; ok; ok]
             env0 ready).

Definition op1 : string :=
  "/sessions/session-20260223-020207/ops/ev000001-main-navigation".

Definition op2click : string :=
  "/sessions/session-20260223-020207/ops/ev000002-main-click".

Definition click : Types.InjectedEvent.t :=
  Types.InjectedEvent.mk "user_action" None (Some "click") (Some "BUTTON")
                         (Some "save") (Some "btn") (Some "") None None.


Definition finished : Cdp.LoadingFinished.t :=
  Cdp.LoadingFinished.mk "1000.7" "2026-02-23T02:02:08.000Z" 512.

(** A tab whose buffer holds two pending requests at most. *)
Definition small : World :=
  mkWorld (Storage.setInitialized
             true (Storage.new "/sessions" "session-20260223-020207"))
          (PageTracer.new
             (Config.getConfig "http://localhost:9222" "./sessions"
                               (Js.ofZ 2) false false))
          [].

Definition requestFor (requestId : string) : Cdp.Frame :=
  Cdp.requestWillBeSent
    (Cdp.RequestWillBeSent.mk
       requestId (Some "F1") "2026-02-23T02:02:07.500Z"
       (Cdp.Request.mk "https://example.com/api" "GET" [] None)).

Definition twoRequests : list (Cdp.Frame * Turn) :=
  [(requestFor "1000.1", ok); (requestFor "1000.2", ok)].

(** The turn in which the directory of the click's operation has been
    made, [stop()] having been called on the tab in the meantime. *)
Definition stopCalled : Turn :=
  mkTurn (fun w => fst (run PageTracer.stop env0 w)) (Fulfilled "") env0.

(** The record written for the click of operation 2. *)
Definition clickEvent : Types.TracerEvent :=
  Types.user_action
    (Types.UserActionEvent.mk
       "session-20260223-020207-ev000002" "session-20260223-020207"
       "https://example.com/" "2026-02-23T02:02:07.000Z"
       "click" "BUTTON" "save" "btn" "" None None None).

Definition op2iframe : string :=
  "/sessions/session-20260223-020207/ops/ev000002-iframe-navigation".

Definition op2main : string :=
  "/sessions/session-20260223-020207/ops/ev000002-main-navigation".

Definition sent : Cdp.RequestWillBeSent.t :=
  Cdp.RequestWillBeSent.mk
    "1000.7" (Some "F1") "2026-02-23T02:02:07.500Z"
    (Cdp.Request.mk "https://example.com/api" "GET" [] None).

(** A tab started with NETWORK_BUFFER_SIZE=2.5. *)
Definition fractional : World :=
  mkWorld (Storage.setInitialized
             true (Storage.new "/sessions" "session-20260223-020207"))
          (PageTracer.new
             (Config.getConfig "http://localhost:9222" "./sessions"
                               (Js.Finite (5 # 2)) false false))
          [].

Definition threeRequests : list (Cdp.Frame * Turn) :=
  [(requestFor "1000.1", ok); (requestFor "1000.2", ok);
   (requestFor "1000.3", ok)].

End Scenario.

(** ** src/injected-script.ts: the script that runs in the page

    The DOM is the browser's; a node is given by what the script reads
    from it. *)

Module Dom.

(** What the script reads from one element: its [nodeName], the
    [nodeName]s met by following [previousElementSibling] (nearest
    first), its [getAttribute] and its [textContent]. *)
Record ElementData := mkData {
  elementName : string;
  previousElementSiblings : list string;
  getAttribute : string -> option string;
  elementText : option string
}.

(** An element, with the chain its [parentElement] leads through
    (parent first, root element last). *)
Record Element := mkElement {
  self : ElementData;
  ancestors : list ElementData
}.

Definition parentElement (el : Element) : option Element :=
  match ancestors el with
  | [] => None
  | parent :: rest => Some (mkElement parent rest)
  end.

(** A node: an element, or a node of another [nodeType] (text, comment,
    document). *)
Inductive Node :=
| ElementNode (el : Element)
| OtherNode (nodeName : string) (textContent : option string).

Definition nodeName (n : Node) : string :=
  match n with
  | ElementNode el => elementName (self el)
  | OtherNode name _ => name
  end.

Definition textContent (n : Node) : option string :=
  match n with
  | ElementNode el => elementText (self el)
  | OtherNode _ text => text
  end.

(** What the handlers read from [e.target]. *)
Record EventTarget := mkTarget {
  isElementNode : bool;
  tagName : option string;
  id : option string;
  className : option string;
  type : option string;
  value : option string
}.

(** A [MutationRecord]. *)
Record MutationRecord := mkRecord {
  recordType : string;
  target : Node;
  addedNodes : list Node;
  removedNodes : list Node;
  attributeName : option string;
  oldValue : option string
}.

End Dom.

Module InjectedScript.

Definition lowerAscii (c : ascii) : ascii :=
  let n := nat_of_ascii c in
  if (65 <=? n)%nat && (n <=? 90)%nat then ascii_of_nat (n + 32) else c.

(** [String.prototype.toLowerCase] on the ASCII names DOM nodes have. *)
Fixpoint toLowerCase (s : string) : string :=
  match s with
  | EmptyString => EmptyString
  | String c rest => String (lowerAscii c) (toLowerCase rest)
  end.

(** The inner loop of [getXPath]: [index] after the previous siblings
    have been visited. *)
Definition siblingIndex (name : string) (previous : list string) : N :=
  fold_left (fun index sibling =>
               if String.eqb sibling name then (index + 1)%N else index)
            previous 1%N.

(** The step [getXPath] pushes for one element. *)
Definition step (d : Dom.ElementData) : string :=
  toLowerCase (Dom.elementName d) ++ "["
  ++ JsString.ofNumber
       (siblingIndex (Dom.elementName d) (Dom.previousElementSiblings d))
  ++ "]".

(** The outer loop of [getXPath]: [parts] once the nodes of [chain] (a
    node, its parent, and so on) have been visited, each step put in
    front ([unshift]). *)
Fixpoint climb (chain : list Dom.ElementData) (parts : list string)
  : list string :=
  match chain with
  | [] => parts
  | node :: parents => climb parents (step node :: parts)
  end.

Definition getXPath (el : option Dom.Node) : string :=
  match el with
  | Some (Dom.ElementNode e) =>
      "/" ++ String.concat "/" (climb (Dom.self e :: Dom.ancestors e) [])
  | _ => ""
  end.

(** [sendEvent(data)]: what reaches [JSON.parse] on the Node side, if
    [window.__wstEvent] is a function; [JSON.parse(JSON.stringify(data))]
    gives the fields of [data] back. *)
Definition sendEvent (exposed : bool) (data : Types.InjectedEvent.t)
  : option Types.InjectedEvent.t :=
  if exposed then Some data else None.

Definition orEmpty := NetworkTracker.orEmpty.

Definition isPassword (target : Dom.EventTarget) : bool :=
  match Dom.type target with
  | Some t => String.eqb t "password"
  | None => false
  end.

Definition userAction (action : string) (target : Dom.EventTarget)
           (value : string) (key : option string) : Types.InjectedEvent.t :=
  Types.InjectedEvent.mk
    "user_action" None (Some action)
    (Some (orEmpty (Dom.tagName target)))
    (Some (orEmpty (Dom.id target)))
    (Some (orEmpty (Dom.className target)))
    (Some value) key None.

(** The four listeners: the message each hands to [sendEvent], [None]
    when it returns without sending. *)
Definition clickHandler (target : option Dom.EventTarget)
  : option Types.InjectedEvent.t :=
  match target with
  | Some t =>
      if negb (Dom.isElementNode t) then None
      else Some (userAction "click" t "" None)
  | None => None
  end.

Definition keydownHandler (target : option Dom.EventTarget)
           (key : option string) : option Types.InjectedEvent.t :=
  match target with
  | Some t =>
      Some (userAction "keydown" t ""
              (Some (if isPassword t then "***" else orEmpty key)))
  | None => None
  end.

Definition inputHandler (target : option Dom.EventTarget)
  : option Types.InjectedEvent.t :=
  match target with
  | Some t =>
      Some (userAction "input" t
              (if isPassword t then "***" else orEmpty (Dom.value t))
              None)
  | None => None
  end.

Definition submitHandler (target : option Dom.EventTarget)
  : option Types.InjectedEvent.t :=
  match target with
  | Some t => Some (userAction "submit" t "" None)
  | None => None
  end.

(** The object the observer builds for one record; [None] when reading
    it throws ([getAttribute] on a node that is no element). *)
Definition toRawChange (m : Dom.MutationRecord)
  : option MutationLevel.RawDomChange :=
  let attributeValue :=
    if String.eqb (Dom.recordType m) "attributes"
       && Js.truthy (Dom.attributeName m)
    then match Dom.target m, Dom.attributeName m with
         | Dom.ElementNode el, Some name =>
             Some (Dom.getAttribute (Dom.self el) name)
         | _, _ => None
         end
    else Some None in
  match attributeValue with
  | Some value =>
      Some (MutationLevel.mkRaw
              (Dom.recordType m)
              (getXPath (Some (Dom.target m)))
              (map Dom.nodeName (Dom.addedNodes m))
              (map Dom.nodeName (Dom.removedNodes m))
              (Dom.attributeName m)
              value
              (Dom.oldValue m)
              (if String.eqb (Dom.recordType m) "characterData"
               then Dom.textContent (Dom.target m)
               else None))
  | None => None
  end.

Fixpoint mapAll {A B : Type} (f : A -> option B) (l : list A)
  : option (list B) :=
  match l with
  | [] => Some []
  | x :: rest =>
      match f x, mapAll f rest with
      | Some y, Some ys => Some (y :: ys)
      | _, _ => None
      end
  end.

(** The observer's callback: the message it hands to [sendEvent]. *)
Definition observerCallback (mutations : list Dom.MutationRecord)
  : option Types.InjectedEvent.t :=
  match mapAll toRawChange mutations with
  | Some changes =>
      if Js.len changes >? 0 then
        Some (Types.InjectedEvent.mk "mutation" None None None None None
                                     None None (Some changes))
      else None
  | None => None
  end.

End InjectedScript.

(** ** src/tracer/session-manager.ts: the session identifier *)

Module SessionManager.

(** What [generateSessionId] reads from [new Date()]. *)
Record Date := mkDate {
  getFullYear : N;
  getMonth : N;
  getDate : N;
  getHours : N;
  getMinutes : N;
  getSeconds : N
}.

Definition pad (n : N) : string :=
  JsString.padStart (JsString.ofNumber n) 2 "0".

Definition generateSessionId (now : Date) : string :=
  let datePart :=
    String.concat "" [JsString.ofNumber (getFullYear now);
                      pad (getMonth now + 1);
                      pad (getDate now)] in
  let timePart :=
    String.concat "" [pad (getHours now); pad (getMinutes now);
                      pad (getSeconds now)] in
  "session-" ++ datePart ++ "-" ++ timePart.

End SessionManager.

(** ** What a function keeps true of the world *)

Module Trace.
Import State Async.

(** Every world [p] puts, and every world it leaves after issuing a
    request, satisfies [I], provided every world it reads does. *)
Fixpoint keeps (I : World -> Prop) {A : Type} (p : Prog A) : Prop :=
  match p with
  | Ret _ | Throw _ => True
  | Get k => forall w, I w -> keeps I (k w)
  | Put w k => I w /\ keeps I k
  | Ask k => forall e, keeps I (k e)
  | Await r k => (forall w, I w -> I (issue r w)) /\ forall x, keeps I (k x)
  | Fork p' k => keeps I p' /\ keeps I k
  end.

(** The other handlers keep [I] too. *)
Definition undisturbing (I : World -> Prop) (turns : list Turn) : Prop :=
  Forall (fun t => forall w, I w -> I (meanwhile t w)) turns.

(** The storage has been initialised. *)
Definition initialised (w : World) : Prop :=
  SessionStorage.initialized (storage w) = true.

(** The network tracker of the tab is [n]. *)
Definition trackerIs (n : NetworkTracker.t) (w : World) : Prop :=
  PageTracer.networkTracker (tracer w) = n.

Definition isScreenshotEffect (eff : Effect) : bool :=
  match eff with
  | Issued PageScreenshot => true
  | Issued (FsWriteFile _ (CPng _)) => true
  | _ => false
  end.

(** Screenshots are disabled and none has been asked for or written. *)
Definition noScreenshots (w : World) : Prop :=
  Config.screenshotEnabled (PageTracer.config (tracer w)) = false
  /\ forallb (fun eff => negb (isScreenshotEffect eff)) (effects w) = true.

End Trace.

(** ** Further concrete inputs *)

Module Cases.
Import State Async.

Definition noAttributes : string -> option string := fun _ => None.

Definition htmlData : Dom.ElementData := Dom.mkData "HTML" [] noAttributes None.

Definition headData : Dom.ElementData := Dom.mkData "HEAD" [] noAttributes None.

Definition bodyData : Dom.ElementData :=
  Dom.mkData "BODY" ["HEAD"] noAttributes None.

Definition title : Dom.Element :=
  Dom.mkElement (Dom.mkData "TITLE" ["META"; "META"] noAttributes
                            (Some "Example"))
                [headData; htmlData].

Definition secondDiv : Dom.Element :=
  Dom.mkElement
    (Dom.mkData "DIV" ["P"; "DIV"]
                (fun name => if String.eqb name "class" then Some "open"
                             else None)
                (Some "hello"))
    [bodyData; htmlData].

Definition textInDiv : Dom.Node := Dom.OtherNode "#text" (Some "hello").

Definition passwordField : Dom.EventTarget :=
  Dom.mkTarget true (Some "INPUT") (Some "pw") (Some "field")
               (Some "password") (Some "hunter2").

Definition characterDataRecord : Dom.MutationRecord :=
  Dom.mkRecord "characterData" textInDiv [] [] None (Some "hell").

Definition newYear : SessionManager.Date :=
  SessionManager.mkDate 2026 0 1 0 0 5.

Definition keydown : Types.InjectedEvent.t :=
  Types.InjectedEvent.mk "user_action" None (Some "keydown") (Some "INPUT")
                         (Some "q") (Some "") (Some "") (Some "a") None.

Definition failed : Turn := quiet Rejected Scenario.env0.

(** A tab with screenshots enabled, as [start] leaves it. *)
Definition withScreenshots : World :=
  fst (drive PageTracer.start
             [Scenario.ok; Scenario.ok; Scenario.ok; Scenario.ok;
              Scenario.ok; Scenario.ok; Scenario.ok; Scenario.ok;
              Scenario.ok]
             Scenario.env0
             (mkWorld (storage Scenario.ready)
                      (PageTracer.new
                         (Config.getConfig "http://localhost:9222"
                                           "./sessions" (Js.ofZ 1000) true
                                           false))
                      [])).

(** A tracker built with a buffer size of zero. *)
Definition noBuffer : World :=
  mkWorld (storage Scenario.ready)
          (State.PageTracer.mk Scenario.config (NetworkTracker.new (Js.ofZ 0))
                               true false (Some Scenario.op1)
                               (Some Scenario.op1))
          [].

(** The platform values of a later stretch, the page having moved on. *)
Definition later : Env :=
  mkEnv "2026-02-23T02:02:07.600Z" "1771812127600-p0q8w1z"
        "https://example.com/saved".

Definition nextSecond : SessionManager.Date :=
  SessionManager.mkDate 2026 0 1 0 0 6.

End Cases.

(** ** Notions the further properties use *)

Module Levels.
Import MutationLevel.

(** The condition of the two level-1 rules. *)
Definition noise (raw : RawDomChange) : Prop :=
  isInHead (targetPath raw) = true
  \/ (mutationType raw = "childList"
      /\ (addedNodes raw ++ removedNodes raw)%list <> []
      /\ Forall noise_name (addedNodes raw ++ removedNodes raw)%list).

(** An attribute the classifier takes for visible. *)
Definition visible_name (name : string) : Prop :=
  In name VISIBLE_ATTRS \/ Js.startsWith name "aria-" = true.

(** A node name that is neither a resource, nor a comment, nor text. *)
Definition element_name (n : string) : Prop :=
  ~ noise_name n /\ n <> "#text".

End Levels.

Module XPath.

(** The steps of a path, each after a slash. *)
Fixpoint pathOf (steps : list string) : string :=
  match steps with
  | [] => ""
  | x :: rest => "/" ++ x ++ pathOf rest
  end.

(** The character [c] does not occur in [s]. *)
Fixpoint freeOf (c : ascii) (s : string) : bool :=
  match s with
  | EmptyString => true
  | String a rest => negb (Ascii.eqb a c) && freeOf c rest
  end.

(** An element and its ancestors, the element first. *)
Definition chainOf (el : Dom.Element) : list Dom.ElementData :=
  Dom.self el :: Dom.ancestors el.

(** A node name without a slash or an opening bracket, as the names of
    HTML elements are. *)
Definition plainName (d : Dom.ElementData) : Prop :=
  freeOf "/" (Dom.elementName d) = true
  /\ freeOf "[" (Dom.elementName d) = true.

(** An element named [head], in whatever case. *)
Definition namedHead (d : Dom.ElementData) : Prop :=
  InjectedScript.toLowerCase (Dom.elementName d) = "head".

End XPath.

Module Records.
Import State Async.

(** The record a request frame is stored as. *)
Definition requestRecord (event : Cdp.RequestWillBeSent.t) (e : Env)
           (w : World) : Types.NetworkEvent :=
  Types.network_request
    (Types.NetworkRequestEvent.mk
       (generatedEventId e)
       (SessionStorage.sessionId (storage w))
       (NetworkTracker.orEmpty (Cdp.RequestWillBeSent.frameId event))
       (Cdp.RequestWillBeSent.timestamp event)
       (Cdp.RequestWillBeSent.requestId event)
       (Cdp.Request.url (Cdp.RequestWillBeSent.request event))
       (Cdp.Request.method (Cdp.RequestWillBeSent.request event))
       (Cdp.Request.headers (Cdp.RequestWillBeSent.request event))
       (Cdp.Request.postData (Cdp.RequestWillBeSent.request event))).

(** The record a response frame is stored as. *)
Definition responseRecord (event : Cdp.ResponseReceived.t) (e : Env)
           (w : World) : Types.NetworkEvent :=
  Types.network_response
    (Types.NetworkResponseEvent.mk
       (generatedEventId e)
       (SessionStorage.sessionId (storage w))
       (NetworkTracker.orEmpty (Cdp.ResponseReceived.frameId event))
       (Cdp.ResponseReceived.timestamp event)
       (Cdp.ResponseReceived.requestId event)
       (Cdp.Response.url (Cdp.ResponseReceived.response event))
       (Cdp.Response.status (Cdp.ResponseReceived.response event))
       (Cdp.Response.mimeType (Cdp.ResponseReceived.response event))
       (Cdp.Response.headers (Cdp.ResponseReceived.response event))).

(** The tab has a current operation, [opDir], and can write to it. *)
Definition recordingTo (opDir : string) (w : World) : Prop :=
  PageTracer.currentOpDir (tracer w) = Some opDir
  /\ opDir <> ""
  /\ SessionStorage.initialized (storage w) = true.

(** The responses of [events], each handled in the turn given with it. *)
Definition responses (events : list (Cdp.ResponseReceived.t * Env))
  : list (Cdp.Frame * Turn) :=
  map (fun re => (Cdp.responseReceived (fst re),
                  quiet (Fulfilled "") (snd re))) events.

(** The pending map holds one entry at most. *)
Definition atMostOne (w : World) : Prop :=
  (List.length (Spec.pendingOf w) <= 1)%nat.

(** The [evNNNNNN] part of the identifier with counter [n]. *)
Definition evToken (n : N) : string :=
  "ev" ++ JsString.padStart (JsString.ofNumber n) 6 "0".

(** [s] is [ev] followed by one or more digits and nothing else. *)
Definition hereEv (s : string) : bool :=
  match s with
  | String "e" (String "v" (String d ds)) =>
      JsString.isDigit d && JsString.allDigits ds
  | _ => false
  end.

(** The world [w] with one more line on the console. *)
Definition logging (eff : Effect) (w : World) : World :=
  mkWorld (storage w) (tracer w) (effects w ++ [eff]).

(** The world [w] after [nextEventId] has been called once. *)
Definition afterAllocation (w : World) : World :=
  mkWorld (fst (Storage.nextEventId (storage w))) (tracer w) (effects w).

(** A message a user-action listener builds: [type] is [user_action]
    and [action] is a non-empty string. *)
Definition isUserAction (data : Types.InjectedEvent.t) (action : string)
  : Prop :=
  Types.InjectedEvent.type data = "user_action"
  /\ Types.InjectedEvent.action data = Some action
  /\ action <> "".

Definition isClickLike (action : string) : bool :=
  String.eqb action "click" || String.eqb action "submit".

(** The record [saveUserAction] writes for [data] when it takes no
    screenshot, with the identifier [eventId], in a stretch whose
    platform values are [e]. *)
Definition userActionRecord (data : Types.InjectedEvent.t) (action : string)
           (eventId sessionId : string) (e : Env)
  : Types.TracerEvent :=
  Types.user_action
    (Types.UserActionEvent.mk
       eventId sessionId (mainFrameUrl e) (now e) action
       (NetworkTracker.orEmpty (Types.InjectedEvent.tagName data))
       (NetworkTracker.orEmpty (Types.InjectedEvent.elementId data))
       (NetworkTracker.orEmpty (Types.InjectedEvent.className data))
       (NetworkTracker.orEmpty (Types.InjectedEvent.value data))
       (Types.InjectedEvent.key data)
       None None).

(** Neither screenshots nor snapshots after user actions are enabled. *)
Definition plainCapture (w : World) : Prop :=
  Config.screenshotEnabled (PageTracer.config (tracer w)) = false
  /\ Config.fullSnapshotEnabled (PageTracer.config (tracer w)) = false.

(** The tab [w] with [stopped] set, no CDP session, and [effs] more
    effects. *)
Definition halted (effs : list Effect) (w : World) : World :=
  mkWorld
    (storage w)
    (PageTracer.setCdpSession
       false (PageTracer.setStopped true (tracer w)))
    (effects w ++ effs).

(** The requests [start] issues before it looks at the page's URL. *)
Definition startRequests : list Request :=
  [PageCall "createCDPSession"; CdpSend "Network.enable";
   PageCall "exposeFunction"; PageCall "evaluateOnNewDocument";
   PageCall "evaluate"].

(** The tab [w] once the first [n] requests of [start] have been
    issued, its CDP session being [session]. *)
Definition hooking (n : nat) (session : bool) (w : World) : World :=
  mkWorld (storage w)
          (PageTracer.setCdpSession session (tracer w))
          (effects w ++ map Issued (firstn n startRequests)).

(** The page shows nothing that [start] would record. *)
Definition blankPage (e : Env) : Prop :=
  mainFrameUrl e = "" \/ mainFrameUrl e = "about:blank".

(** The ranges of what the getters of a [Date] return. *)
Definition validDate (d : SessionManager.Date) : Prop :=
  (SessionManager.getMonth d <= 11
   /\ SessionManager.getDate d <= 31
   /\ SessionManager.getHours d <= 23
   /\ SessionManager.getMinutes d <= 59
   /\ SessionManager.getSeconds d <= 59)%N.

End Records.

Module Entry.

(** The entry points of the tab-side code. *)
Inductive Call :=
| InjectedCall (parsed : option Types.InjectedEvent.t)
| NavigationCall (url : string) (isMainFrame : bool)
| StopCall
| StartCall
| InitializeCall (metadata : Types.SessionMetadata.t)
| WriteCall (c : Storage.WriteCall)
| FrameCall (f : Cdp.Frame).

Definition handlerOf (c : Call) : Async.Prog unit :=
  match c with
  | InjectedCall parsed => PageTracer.onInjectedEvent parsed
  | NavigationCall url isMainFrame =>
      PageTracer.onFrameNavigated url isMainFrame
  | StopCall => PageTracer.stop
  | StartCall => PageTracer.start
  | InitializeCall metadata => Storage.initialize metadata
  | WriteCall c => Storage.invoke c
  | FrameCall f => NetworkTracker.onFrame f
  end.

Definition isFrameCall (c : Call) : bool :=
  match c with FrameCall _ => true | _ => false end.

Definition isScreenshotCall (c : Call) : bool :=
  match c with
  | WriteCall (Storage.CallWriteOpScreenshot _ _ _) => true
  | _ => false
  end.

(** What the page hands to the Node side for a listener's message. *)
Definition received (exposed : bool) (message : option Types.InjectedEvent.t)
  : Async.Prog unit :=
  match message with
  | Some data =>
      match InjectedScript.sendEvent exposed data with
      | Some parsed => PageTracer.onInjectedEvent (Some parsed)
      | None => Async.Ret tt
      end
  | None => Async.Ret tt
  end.

(** The target [t] with [value] typed into it. *)
Definition withValue (value : option string) (t : Dom.EventTarget)
  : Dom.EventTarget :=
  Dom.mkTarget (Dom.isElementNode t) (Dom.tagName t) (Dom.id t)
               (Dom.className t) (Dom.type t) value.

End Entry.

(** * Properties *)

Section MutationLevelFacts.
Import MutationLevel.

Lemma has_In (set : list string) (x : string) :
  Js.has set x = true <-> In x set.
Proof.
  unfold Js.has. rewrite existsb_exists. split.
  - intros [y [Hy E]]. apply String.eqb_eq in E. now subst.
  - intros H. exists x. split; [assumption | apply String.eqb_refl].
Qed.

Lemma isNoiseNodes_forall (nodes : list string) :
  nodes <> [] -> Forall noise_name nodes -> isNoiseNodes nodes = true.
Proof.
  intros Hne Hall. unfold isNoiseNodes.
  apply andb_true_iff. split.
  - destruct nodes as [|n ns]; [congruence|].
    unfold Js.len. cbn [List.length]. apply Z.gtb_lt. lia.
  - apply forallb_forall. intros n Hn.
    rewrite Forall_forall in Hall. destruct (Hall n Hn) as [H | H].
    + apply orb_true_iff. left. now apply has_In.
    + subst. reflexivity.
Qed.

Lemma computeChangeLevel_range (raw : RawDomChange) :
  1 <= computeChangeLevel raw <= 3.
Proof.
  unfold computeChangeLevel, attributeLevel, childListLevel.
  repeat match goal with
         | |- context [if ?b then _ else _] => destruct b
         | |- context [match attributeName ?r with _ => _ end] =>
             destruct (attributeName r)
         end; lia.
Qed.

End MutationLevelFacts.

(** ** The classifier *)

Section Classifier.
Import MutationLevel.

Lemma isInHead_empty : isInHead "" = true.
Proof. reflexivity. Qed.

Lemma attributeLevel_visible (raw : RawDomChange) (name : string) :
  mutationType raw = "attributes" ->
  attributeName raw = Some name ->
  class_style_aria name ->
  attributeLevel raw = Some 3.
Proof.
  intros Ht Hn Hv. unfold attributeLevel. rewrite Ht, String.eqb_refl, Hn.
  destruct Hv as [-> | [-> | Haria]]; [reflexivity | reflexivity |].
  rewrite Haria. now destruct (Js.has VISIBLE_ATTRS name).
Qed.

(** The resource rule asks for a node: a childList change with no
    added and no removed node, which no observer reports, falls
    through to the default and is classified 2, as an empty change
    list should be. *)
Lemma empty_childList_is_minor :
  mutationType Scenario.emptyChildList = "childList"
  /\ Forall noise_name
            (addedNodes Scenario.emptyChildList
             ++ removedNodes Scenario.emptyChildList)%list
  /\ isInHead (targetPath Scenario.emptyChildList) = false
  /\ computeChangeLevel Scenario.emptyChildList = 2.
Proof. repeat split. constructor. Qed.

(** C4: a childList change whose added and removed nodes (there is one
    at least) are all from SCRIPT, LINK, META, STYLE, NOSCRIPT and
    #comment is classified 1; an attribute change whose name is class,
    style or starts with aria- is classified 3, unless its target path
    is in the head (or empty), in which case the head rule, which is
    tested first, classifies it 1. *)
Theorem C4_classifier_priority (raw : RawDomChange) :
  (mutationType raw = "childList" ->
   (addedNodes raw ++ removedNodes raw)%list <> [] ->
   Forall noise_name (addedNodes raw ++ removedNodes raw)%list ->
   computeChangeLevel raw = 1)
  /\ (forall name,
        mutationType raw = "attributes" ->
        attributeName raw = Some name ->
        class_style_aria name ->
        computeChangeLevel raw
        = if isInHead (targetPath raw) then 1 else 3).
Proof.
  split.
  - intros Ht Hne Hall. unfold computeChangeLevel.
    destruct (isInHead (targetPath raw)); [reflexivity|].
    cbv zeta. rewrite Ht, String.eqb_refl.
    rewrite (isNoiseNodes_forall _ Hne Hall).
    assert (Hlen : (Js.len (addedNodes raw ++ removedNodes raw)%list >? 0)
                   = true).
    { destruct (addedNodes raw ++ removedNodes raw)%list; [congruence|].
      unfold Js.len. cbn [List.length]. apply Z.gtb_lt. lia. }
    now rewrite Hlen.
  - intros name Ht Hn Hv. unfold computeChangeLevel.
    destruct (isInHead (targetPath raw)); [reflexivity|].
    cbv zeta. rewrite (attributeLevel_visible raw name Ht Hn Hv).
    rewrite Ht. reflexivity.
Qed.

Lemma C4_classifier_priority_witness :
  computeChangeLevel Scenario.scriptAdded = 1
  /\ computeChangeLevel Scenario.ariaBusy = 3.
Proof.
  split.
  - apply (proj1 (C4_classifier_priority Scenario.scriptAdded)).
    + reflexivity.
    + discriminate.
    + repeat constructor; unfold noise_name; cbn; tauto.
  - apply (proj2 (C4_classifier_priority Scenario.ariaBusy) "aria-busy").
    + reflexivity.
    + reflexivity.
    + right. right. reflexivity.
Defined.

(** C9: a raw change whose target path is the empty string is
    classified 1, whatever its mutation type, attribute name and node
    lists are. *)
Theorem C9_empty_path_is_noise (raw : RawDomChange) :
  targetPath raw = "" -> computeChangeLevel raw = 1.
Proof.
  intros H. unfold computeChangeLevel. now rewrite H, isInHead_empty.
Qed.

Lemma C9_empty_path_is_noise_witness :
  targetPath Scenario.classOnDocument = ""
  /\ computeChangeLevel Scenario.classOnDocument = 1.
Proof.
  split; [reflexivity | apply C9_empty_path_is_noise; reflexivity].
Defined.

End Classifier.

(** ** The identifier allocator *)

Section Allocator.
Import State.SessionStorage.

Lemma append_assoc (a b c : string) : (a ++ b) ++ c = a ++ b ++ c.
Proof. induction a as [|x a IH]; cbn; [reflexivity | now rewrite IH]. Qed.

Lemma dropPrefix_append (p s : string) :
  Path.dropPrefix p (p ++ s) = Some s.
Proof.
  induction p as [|x p IH]; cbn.
  - now destruct s.
  - now rewrite Ascii.eqb_refl.
Qed.

Lemma ofNumber_nonempty (n : N) : JsString.ofNumber n <> "".
Proof.
  unfold JsString.ofNumber. intros H.
  assert (Hnil : N.to_uint n = Decimal.Nil).
  { destruct (N.to_uint n); cbn in H; try discriminate. reflexivity. }
  destruct n as [|p]; [discriminate|].
  apply (f_equal N.of_uint) in Hnil.
  rewrite DecimalN.Unsigned.of_to in Hnil. discriminate.
Qed.

Lemma padStart_nonempty (s : string) (width : nat) (c : ascii) :
  s <> "" -> JsString.padStart s width c <> "".
Proof.
  unfold JsString.padStart.
  destruct (JsString.repeat c (width - String.length s)); cbn.
  - trivial.
  - discriminate.
Qed.

(** Leading zeros do not change the number a digit string denotes. *)
Lemma of_uint_leading_zeros (k : nat) (s : string) :
  option_map N.of_uint
             (NilEmpty.uint_of_string (JsString.repeat "0" k ++ s))
  = option_map N.of_uint (NilEmpty.uint_of_string s).
Proof.
  induction k as [|k IH]; [reflexivity|].
  cbn [JsString.repeat String.append NilEmpty.uint_of_string].
  rewrite <- IH.
  now destruct (NilEmpty.uint_of_string (JsString.repeat "0" k ++ s)).
Qed.

Lemma counterOf_eventIdOf (sessionId : string) (n : N) :
  Storage.counterOf sessionId (Storage.eventIdOf sessionId n) = Some n.
Proof.
  unfold Storage.counterOf, Storage.eventIdOf.
  rewrite <- append_assoc, dropPrefix_append.
  pose proof (padStart_nonempty _ 6 "0" (ofNumber_nonempty n)) as Hne.
  destruct (JsString.padStart (JsString.ofNumber n) 6 "0") eqn:E;
    [congruence|].
  rewrite <- E. unfold JsString.padStart.
  rewrite of_uint_leading_zeros. unfold JsString.ofNumber.
  now rewrite NilEmpty.usu; cbn; rewrite DecimalN.Unsigned.of_to.
Qed.

Lemma eventIdOf_inj (sessionId : string) (n m : N) :
  Storage.eventIdOf sessionId n = Storage.eventIdOf sessionId m -> n = m.
Proof.
  intros H. apply (f_equal (Storage.counterOf sessionId)) in H.
  rewrite !counterOf_eventIdOf in H. congruence.
Qed.

(** From any state, the calls hand out the next counters in order. *)
Lemma allocate_counts {Tab : Type} (callers : list Tab) (s : t) :
  let out := Storage.allocate callers s in
  map fst (fst out) = callers
  /\ map snd (fst out)
     = map (fun i => Storage.eventIdOf (sessionId s)
                                       (eventCount s + N.of_nat i)%N)
           (seq 1 (List.length callers))
  /\ eventCount (snd out)
     = (eventCount s + N.of_nat (List.length callers))%N
  /\ sessionId (snd out) = sessionId s.
Proof.
  revert s. induction callers as [|tab rest IH]; intros s.
  - cbn. repeat split. f_equal. lia.
  - cbn [Storage.allocate Storage.nextEventId].
    specialize (IH (Storage.setEventCount (eventCount s + 1) s)).
    destruct (Storage.allocate rest
                (Storage.setEventCount (eventCount s + 1) s))
      as [ids s2] eqn:E.
    cbn [fst snd] in IH |- *. destruct IH as (Hf & Hs & Hc & Hid).
    cbn [Storage.setEventCount sessionId eventCount] in Hs, Hc, Hid.
    repeat split.
    + cbn. now rewrite Hf.
    + cbn [map List.length seq Storage.setEventCount sessionId eventCount].
      rewrite Hs, <- (seq_shift (List.length rest) 1), map_map.
      f_equal. apply map_ext. intros i.
      apply (f_equal (Storage.eventIdOf (sessionId s))). lia.
    + rewrite Hc. cbn [List.length]. lia.
    + exact Hid.
Qed.

(** A tab's [nextEventId] is the storage's: it runs to its end without
    yielding and touches nothing but the shared counter. *)
Lemma tab_nextEventId (e : State.Env) (w : State.World) :
  Async.run PageTracer.nextEventId e w
  = (State.mkWorld (fst (Storage.nextEventId (State.storage w)))
                   (State.tracer w) (State.effects w),
     Async.Done (snd (Storage.nextEventId (State.storage w)))).
Proof. reflexivity. Qed.

(** C2: whatever tabs ask, and in whatever order, the n-th call of
    [nextEventId] on the one shared storage returns the identifier that
    carries counter n (counting from 1), so the counters are strictly
    increasing without gaps and no identifier is issued twice. *)
Theorem C2_allocator_gapless {Tab : Type} (callers : list Tab)
        (baseDir session : string) :
  let issued := fst (Storage.allocate callers
                                      (Storage.new baseDir session)) in
  let ids := map snd issued in
  let counters := seq 1 (List.length callers) in
  map fst issued = callers
  /\ ids = map (fun n => Storage.eventIdOf session (N.of_nat n)) counters
  /\ map (Storage.counterOf session) ids
     = map (fun n => Some (N.of_nat n)) counters
  /\ NoDup ids.
Proof.
  cbv zeta.
  destruct (allocate_counts callers (Storage.new baseDir session))
    as (Hf & Hs & _ & _).
  cbn [Storage.new sessionId eventCount] in Hs.
  assert (Hids : map snd (fst (Storage.allocate callers
                                 (Storage.new baseDir session)))
                 = map (fun n => Storage.eventIdOf session (N.of_nat n))
                       (seq 1 (List.length callers))).
  { rewrite Hs. apply map_ext. intros i. f_equal. }
  repeat split.
  - exact Hf.
  - exact Hids.
  - rewrite Hids, map_map. apply map_ext. intros n.
    apply counterOf_eventIdOf.
  - rewrite Hids. apply Injective_map_NoDup.
    + intros n m H. apply eventIdOf_inj in H. lia.
    + apply seq_NoDup.
Qed.

End Allocator.

(** ** The storage's initialisation guard *)

Section StorageGuard.
Import State Async.
Import State.SessionStorage.

Lemma quiet_keepsInitialized (r : Response) (e : Env) :
  Spec.keepsInitialized (quiet r e).
Proof. intros w H. exact H. Qed.

Lemma invoke_uninitialized (c : Storage.WriteCall) (turns : list Turn)
      (e : Env) (w : World) :
  initialized (storage w) = false ->
  drive (Storage.invoke c) turns e w = (w, Failed NotInitialized).
Proof.
  intros H. destruct c; cbn; rewrite H; reflexivity.
Qed.

Lemma invoke_initialized (c : Storage.WriteCall) (turns : list Turn)
      (e : Env) (w : World) :
  initialized (storage w) = true ->
  snd (drive (Storage.invoke c) turns e w) <> Failed NotInitialized.
Proof.
  intros H. destruct c; cbn; rewrite H; cbn;
    (destruct turns as [|t1 turns]; cbn; [discriminate|]);
    destruct (settled t1); cbn; discriminate.
Qed.

Lemma invoke_keeps_initialized (c : Storage.WriteCall)
      (turns : list Turn) (e : Env) (w : World) :
  Forall Spec.keepsInitialized turns ->
  initialized (storage w) = true ->
  initialized (storage (fst (drive (Storage.invoke c) turns e w))) = true.
Proof.
  intros Hk H.
  destruct c; cbn; rewrite H; cbn;
    (destruct turns as [|t1 turns]; cbn; [exact H|]);
    apply Forall_inv in Hk;
    pose proof (fun r => Hk (issue r w) H) as Hk';
    destruct (settled t1); cbn; apply Hk'.
Qed.

(** While [initialize] is still waiting for the platform the flag is
    untouched; it is set when both of its writes have been
    acknowledged, and only then. *)
Lemma initialize_sets_flag_last (metadata : Types.SessionMetadata.t)
      (e e1 e2 : Env) (r1 : Response) (p1 p2 : string) (w : World) :
  initialized (storage (fst (drive (Storage.initialize metadata) [] e w)))
  = initialized (storage w)
  /\ initialized
       (storage (fst (drive (Storage.initialize metadata)
                            [quiet r1 e1] e w)))
     = initialized (storage w)
  /\ drive (Storage.initialize metadata)
           [quiet (Fulfilled p1) e1; quiet (Fulfilled p2) e2] e w
     = (mkWorld (Storage.setInitialized true (storage w)) (tracer w)
                (effects w
                 ++ [Issued (FsMkdir
                               (Path.join [sessionDir (storage w); "ops"]))]
                 ++ [Issued (FsWriteFile
                               (Path.join [sessionDir (storage w);
                                           "metadata.json"])
                               (CMetadata metadata))]),
        Done tt).
Proof.
  repeat split.
  - destruct r1; reflexivity.
  - cbn. unfold issue. cbn. now rewrite <- app_assoc.
Qed.

(** C10: each of the six writing methods fails with the
    not-initialised error, and does nothing else, as long as
    [initialize] has not completed (the flag is set by its last step
    only); once the flag is set it stays set across the writing
    methods, and none of them fails with that error, at the call or
    at any later point of its execution. *)
Theorem C10_write_calls_guarded (c : Storage.WriteCall)
        (turns : list Turn) (e : Env) (w : World) :
  (initialized (storage w) = false ->
   drive (Storage.invoke c) turns e w = (w, Failed NotInitialized)
   /\ forall metadata r1 e1,
        initialized
          (storage (fst (drive (Storage.initialize metadata) [] e w)))
        = false
        /\ initialized
             (storage (fst (drive (Storage.initialize metadata)
                                  [quiet r1 e1] e w)))
           = false)
  /\ (forall metadata p1 p2 e1 e2,
        let done := drive (Storage.initialize metadata)
                          [quiet (Fulfilled p1) e1;
                           quiet (Fulfilled p2) e2] e w in
        snd done = Done tt
        /\ initialized (storage (fst done)) = true)
  /\ (initialized (storage w) = true ->
      snd (drive (Storage.invoke c) turns e w) <> Failed NotInitialized
      /\ (Forall Spec.keepsInitialized turns ->
          initialized
            (storage (fst (drive (Storage.invoke c) turns e w))) = true)).
Proof.
  split; [|split].
  - intros H. split; [now apply invoke_uninitialized|].
    intros metadata r1 e1.
    destruct (initialize_sets_flag_last metadata e e1 e1 r1 "" "" w)
      as (H0 & H1 & _).
    rewrite H0, H1. auto.
  - intros metadata p1 p2 e1 e2. cbv zeta.
    destruct (initialize_sets_flag_last metadata e e1 e2
                                        (Fulfilled p1) p1 p2 w)
      as (_ & _ & H2).
    rewrite H2. split; reflexivity.
  - intros H. split; [now apply invoke_initialized|].
    intros Hk. now apply invoke_keeps_initialized.
Qed.

End StorageGuard.

Section StorageGuardExample.
Import State Async.

Lemma C10_write_calls_guarded_witness :
  drive (Storage.invoke
           (Storage.CallWriteOpSnapshot Scenario.op1 "{}"))
        [Scenario.ok] Scenario.env0 Scenario.fresh
  = (Scenario.fresh, Failed NotInitialized)
  /\ snd (drive (Storage.invoke
                   (Storage.CallWriteOpSnapshot Scenario.op1 "{}"))
                [Scenario.ok] Scenario.env0 Scenario.ready)
     <> Failed NotInitialized.
Proof.
  split.
  - apply (proj1 (C10_write_calls_guarded
                    (Storage.CallWriteOpSnapshot Scenario.op1 "{}")
                    [Scenario.ok] Scenario.env0 Scenario.fresh)).
    reflexivity.
  - apply (proj2 (proj2 (C10_write_calls_guarded
                           (Storage.CallWriteOpSnapshot Scenario.op1 "{}")
                           [Scenario.ok] Scenario.env0 Scenario.ready))).
    reflexivity.
Defined.

End StorageGuardExample.

(** ** Mutation batches *)

Section MutationBatches.
Import State Async.
Import State.PageTracer State.SessionStorage.

Lemma fold_max_spec {A : Type} (f : A -> Z) (l : list A) (a : Z) :
  let r := fold_left (fun m c => Z.max m (f c)) l a in
  a <= r
  /\ Forall (fun c => f c <= r) l
  /\ (r = a \/ exists c, In c l /\ f c = r).
Proof.
  revert a. induction l as [|c l IH]; intros a; cbn.
  - repeat split; [lia | constructor | now left].
  - destruct (IH (Z.max a (f c))) as (Hle & Hall & Hin).
    repeat split.
    + lia.
    + constructor; [lia | exact Hall].
    + destruct Hin as [Heq | (c' & Hc' & Hf)].
      * destruct (Z.max_spec a (f c)) as [[_ Hm] | [_ Hm]].
        -- right. exists c. split; [now left | congruence].
        -- left. congruence.
      * right. exists c'. split; [now right | exact Hf].
Qed.

Lemma maxLevelOf_is_maximum (rawChanges : list MutationLevel.RawDomChange) :
  rawChanges <> [] ->
  Spec.isMaximumOf
    (PageTracer.maxLevelOf (map PageTracer.toDomChange rawChanges))
    (map MutationLevel.computeChangeLevel rawChanges)
  /\ 1 <= PageTracer.maxLevelOf (map PageTracer.toDomChange rawChanges)
     <= 3.
Proof.
  intros Hne. unfold PageTracer.maxLevelOf.
  destruct (fold_max_spec Types.DomChange.level
              (map PageTracer.toDomChange rawChanges) 1)
    as (Hle & Hall & Hin).
  set (r := fold_left _ _ _) in *.
  assert (Hmem : In r (map MutationLevel.computeChangeLevel rawChanges)).
  { destruct Hin as [Heq | (c & Hc & Hf)].
    - destruct rawChanges as [|raw rest]; [congruence|].
      apply Forall_inv in Hall.
      change (MutationLevel.computeChangeLevel raw <= r) in Hall.
      pose proof (computeChangeLevel_range raw) as Hr.
      left. unfold MutationLevel.MutationLevel in *. lia.
    - apply in_map_iff in Hc. destruct Hc as (raw & <- & Hraw).
      apply in_map_iff. exists raw. split; [exact Hf | exact Hraw]. }
  repeat split.
  - exact Hmem.
  - rewrite Forall_map in Hall |- *.
    revert Hall. apply Forall_impl. intros raw H. exact H.
  - exact Hle.
  - apply in_map_iff in Hmem. destruct Hmem as (raw & <- & _).
    apply computeChangeLevel_range.
Qed.

(** C7: a batch with zero changes is dropped, by [saveMutation] and
    by the handler that receives it, and leaves the world as it was.
    Whatever [saveMutation] hands to the sink is one record appended to
    the mutation file of the current mutation directory: its changes
    are those of the batch, which is not empty, and its [maxLevel] is
    the maximum of the levels computed for them, between 1 and 3.  A
    non-empty batch is stored whenever there is a current mutation
    directory and the storage is initialised. *)
Theorem C7_mutation_batches (rawChanges : list MutationLevel.RawDomChange)
        (e : Env) (w : World) :
  let out := run (PageTracer.saveMutation rawChanges) e w in
  (rawChanges = [] ->
   out = (w, Done tt)
   /\ forall data,
        Types.InjectedEvent.type data = "mutation" ->
        Types.InjectedEvent.changes data = Some rawChanges ->
        run (PageTracer.handleInjectedEvent (Some data)) e w = (w, Done tt))
  /\ (effects (fst out) = effects w
      \/ exists targetDir record,
           effects (fst out)
           = (effects w
              ++ [Issued (FsAppendFile (Spec.mutationsFile targetDir)
                                       (CMutation record))])%list
           /\ currentMutationDir (tracer w) = Some targetDir
           /\ rawChanges <> []
           /\ Types.OpMutationRecord.changes record
              = map PageTracer.toDomChange rawChanges
           /\ Spec.isMaximumOf
                (Types.OpMutationRecord.maxLevel record)
                (map MutationLevel.computeChangeLevel rawChanges)
           /\ 1 <= Types.OpMutationRecord.maxLevel record <= 3)
  /\ (forall targetDir,
        currentMutationDir (tracer w) = Some targetDir ->
        targetDir <> "" ->
        initialized (storage w) = true ->
        rawChanges <> [] ->
        effects (fst out)
        = (effects w
           ++ [Issued (FsAppendFile
                         (Spec.mutationsFile targetDir)
                         (CMutation
                            (Types.OpMutationRecord.mk
                               (now e)
                               (PageTracer.maxLevelOf
                                  (map PageTracer.toDomChange rawChanges))
                               (map PageTracer.toDomChange
                                    rawChanges))))])%list).
Proof.
  cbv zeta. split; [|split].
  - intros ->. split.
    + unfold run, PageTracer.saveMutation. cbn.
      destruct (currentMutationDir (tracer w)) as [d|]; cbn;
        [|reflexivity].
      now rewrite orb_true_r.
    + intros data Ht Hc. unfold run, PageTracer.handleInjectedEvent. cbn.
      destruct (stopped (tracer w)); [reflexivity|].
      rewrite Ht, Hc. cbn.
      destruct (currentMutationDir (tracer w)) as [d|]; cbn;
        [|reflexivity].
      now rewrite orb_true_r.
  - unfold run, PageTracer.saveMutation. cbn.
    destruct (currentMutationDir (tracer w)) as [d|] eqn:Hd; cbn;
      [|now left].
    destruct rawChanges as [|raw rest].
    { rewrite orb_true_r. now left. }
    destruct (String.eqb d ""); cbn; [now left|].
    destruct (initialized (storage w)); cbn; [|now left].
    right. eexists. eexists. split; [reflexivity|].
    split; [reflexivity|]. split; [discriminate|].
    split; [reflexivity|].
    apply (maxLevelOf_is_maximum (raw :: rest)). discriminate.
  - intros d Hd Hne Hinit Hraw.
    unfold run, PageTracer.saveMutation. cbn. rewrite Hd. cbn.
    apply String.eqb_neq in Hne. rewrite Hne. cbn.
    destruct rawChanges as [|raw rest]; [congruence|].
    cbn. rewrite Hinit. reflexivity.
Qed.

Lemma C7_mutation_batches_witness :
  effects (fst (run (PageTracer.saveMutation
                       [Scenario.ariaBusy; Scenario.scriptAdded])
                    Scenario.env0 Scenario.started))
  = (effects Scenario.started
     ++ [Issued (FsAppendFile
                   (Spec.mutationsFile Scenario.op1)
                   (CMutation
                      (Types.OpMutationRecord.mk
                         (now Scenario.env0) 3
                         (map PageTracer.toDomChange
                              [Scenario.ariaBusy;
                               Scenario.scriptAdded]))))])%list.
Proof.
  apply (proj2 (proj2 (C7_mutation_batches
                         [Scenario.ariaBusy; Scenario.scriptAdded]
                         Scenario.env0 Scenario.started))).
  - reflexivity.
  - discriminate.
  - reflexivity.
  - discriminate.
Defined.

End MutationBatches.

(** ** The pending-request map *)

Section JsMapFacts.
Context {V : Type}.
Implicit Types (m : JsMap.t V) (k : string) (v : V).

Lemma set_length m k v :
  (List.length (JsMap.set m k v) <= S (List.length m))%nat.
Proof.
  induction m as [|[k' v'] m IH]; cbn; [lia|].
  destruct (String.eqb k' k); cbn; lia.
Qed.

Lemma set_keys_fresh m k v :
  ~ In k (JsMap.keys m) -> JsMap.set m k v = (m ++ [(k, v)])%list.
Proof.
  induction m as [|[k' v'] m IH]; cbn; intros Hn; [reflexivity|].
  destruct (String.eqb_spec k' k) as [-> | Hne]; [tauto|].
  rewrite IH; [reflexivity | tauto].
Qed.

Lemma set_keys_present m k v :
  In k (JsMap.keys m) -> JsMap.keys (JsMap.set m k v) = JsMap.keys m.
Proof.
  induction m as [|[k' v'] m IH]; cbn; intros Hin; [tauto|].
  destruct (String.eqb_spec k' k) as [-> | Hne]; [reflexivity|].
  cbn. f_equal. apply IH. destruct Hin; [congruence | assumption].
Qed.

Lemma set_NoDup m k v :
  NoDup (JsMap.keys m) -> NoDup (JsMap.keys (JsMap.set m k v)).
Proof.
  intros Hnd. destruct (in_dec string_dec k (JsMap.keys m)) as [Hin | Hn].
  - now rewrite set_keys_present.
  - rewrite (set_keys_fresh _ _ _ Hn). unfold JsMap.keys.
    rewrite map_app. cbn.
    apply NoDup_app; [exact Hnd | repeat constructor; cbn; tauto |].
    intros x Hx [<- | []]. exact (Hn Hx).
Qed.

Lemma delete_length m k :
  (List.length (JsMap.delete m k) <= List.length m)%nat.
Proof. apply filter_length_le. Qed.

Lemma delete_keys m k :
  JsMap.keys (JsMap.delete m k)
  = filter (fun k' => negb (String.eqb k' k)) (JsMap.keys m).
Proof.
  unfold JsMap.keys, JsMap.delete.
  induction m as [|[k' v'] m IH]; cbn; [reflexivity|].
  destruct (String.eqb k' k); cbn; now rewrite IH.
Qed.

Lemma delete_NoDup m k :
  NoDup (JsMap.keys m) -> NoDup (JsMap.keys (JsMap.delete m k)).
Proof. intros H. rewrite delete_keys. now apply NoDup_filter. Qed.

Lemma delete_absent m k :
  ~ In k (JsMap.keys m) -> JsMap.delete m k = m.
Proof.
  induction m as [|[k' v'] m IH]; cbn; intros Hn; [reflexivity|].
  destruct (String.eqb_spec k' k) as [-> | Hne]; [tauto|].
  cbn. f_equal. apply IH. tauto.
Qed.

Lemma get_delete m k : JsMap.get (JsMap.delete m k) k = None.
Proof.
  induction m as [|[k' v'] m IH]; cbn; [reflexivity|].
  destruct (String.eqb k' k) eqn:E; cbn; [exact IH|].
  now rewrite E.
Qed.

(** Deleting the first key of a map without repeated keys removes the
    first entry and nothing else. *)
Lemma delete_first k v m :
  NoDup (JsMap.keys ((k, v) :: m)) -> JsMap.delete ((k, v) :: m) k = m.
Proof.
  intros Hnd. cbn. rewrite String.eqb_refl. cbn.
  apply delete_absent. now inversion Hnd.
Qed.

End JsMapFacts.

Section NetworkHandlers.
Import State Async.
Import State.NetworkTracker State.PageTracer State.SessionStorage.

Lemma requestWillBeSent_tracker (event : Cdp.RequestWillBeSent.t)
      (e : Env) (w : World) :
  networkTracker
    (tracer (fst (run (NetworkTracker.onRequestWillBeSent event) e w)))
  = let n := NetworkTracker.evictIfFull (networkTracker (tracer w)) in
    NetworkTracker.setPending
      (JsMap.set (pendingRequests n)
                 (Cdp.RequestWillBeSent.requestId event)
                 (NetworkTracker.pendingEntry event))
      n.
Proof.
  unfold run, NetworkTracker.onRequestWillBeSent. cbn.
  destruct (currentOpDir (tracer w)) as [d|]; cbn; [|reflexivity].
  destruct (String.eqb d ""); cbn; [reflexivity|].
  destruct (initialized (storage w)); reflexivity.
Qed.

Lemma responseReceived_tracker (event : Cdp.ResponseReceived.t)
      (e : Env) (w : World) :
  networkTracker
    (tracer (fst (run (NetworkTracker.onResponseReceived event) e w)))
  = networkTracker (tracer w).
Proof.
  unfold run, NetworkTracker.onResponseReceived. cbn.
  destruct (currentOpDir (tracer w)) as [d|]; cbn; [|reflexivity].
  destruct (String.eqb d ""); cbn; [reflexivity|].
  destruct (initialized (storage w)); reflexivity.
Qed.

Lemma loadingFinished_tracker (event : Cdp.LoadingFinished.t)
      (e : Env) (w : World) :
  networkTracker
    (tracer (fst (run (NetworkTracker.onLoadingFinished event) e w)))
  = NetworkTracker.setPending
      (JsMap.delete (pendingRequests (networkTracker (tracer w)))
                    (Cdp.LoadingFinished.requestId event))
      (networkTracker (tracer w)).
Proof.
  unfold run, NetworkTracker.onLoadingFinished. cbn.
  destruct (currentOpDir (tracer w)) as [d|]; cbn; [|reflexivity].
  destruct (String.eqb d ""); cbn; [reflexivity|].
  destruct (initialized (storage w)); reflexivity.
Qed.

Lemma below_ceiling (q : Q) (z : Z) :
  Qle_bool q (inject_Z z) = false -> z + 1 <= Qceiling q.
Proof.
  intros H.
  assert (Hlt : (inject_Z z < q)%Q).
  { apply Qnot_le_lt. intros Hle. apply Qle_bool_iff in Hle. congruence. }
  pose proof (Qle_ceiling q) as Hc.
  pose proof (Qlt_le_trans _ _ _ Hlt Hc) as Hz.
  rewrite <- Zlt_Qlt in Hz. lia.
Qed.

Lemma reachOf_positive (b : Js.Number) (c : Z) :
  Spec.reachOf b = Some c -> 1 <= c.
Proof.
  destruct b; cbn; intros H; inversion H; lia.
Qed.

Lemma evictIfFull_room (n : NetworkTracker.t) :
  Spec.bounded n ->
  (forall c,
      Spec.reachOf (bufferSize n) = Some c ->
      JsMap.size (pendingRequests (NetworkTracker.evictIfFull n)) <= c - 1)
  /\ NoDup (JsMap.keys (pendingRequests (NetworkTracker.evictIfFull n)))
  /\ bufferSize (NetworkTracker.evictIfFull n) = bufferSize n.
Proof.
  intros [Hsize Hnd]. unfold NetworkTracker.evictIfFull.
  destruct (Js.ge (Js.ofZ (JsMap.size (pendingRequests n))) (bufferSize n))
    eqn:G.
  - destruct (pendingRequests n) as [|[k v] rest] eqn:E; cbn [JsMap.firstKey].
    + rewrite E. repeat split; [|constructor].
      intros c Hc. apply reachOf_positive in Hc.
      unfold JsMap.size, Js.len. cbn. lia.
    + cbn [pendingRequests NetworkTracker.setPending bufferSize].
      rewrite (delete_first k v rest Hnd).
      repeat split; [|now inversion Hnd].
      intros c Hc. specialize (Hsize c Hc).
      unfold JsMap.size, Js.len in *. cbn [List.length] in Hsize. lia.
  - repeat split; [|exact Hnd].
    intros c Hc. unfold Js.ge, Js.ofZ in G.
    destruct (bufferSize n) as [| |q|]; cbn in Hc, G; try discriminate.
    inversion Hc; subst c. apply below_ceiling in G. lia.
Qed.

Lemma onFrame_bounded (f : Cdp.Frame) (e : Env) (w : World) :
  Spec.bounded (networkTracker (tracer w)) ->
  Spec.bounded
    (networkTracker (tracer (fst (run (NetworkTracker.onFrame f) e w))))
  /\ bufferSize
       (networkTracker (tracer (fst (run (NetworkTracker.onFrame f) e w))))
     = bufferSize (networkTracker (tracer w)).
Proof.
  intros Hb. destruct f as [event | event | event];
    cbn [NetworkTracker.onFrame].
  - rewrite requestWillBeSent_tracker. cbv zeta.
    destruct (evictIfFull_room _ Hb) as (Hsize & Hnd & Hbuf).
    unfold Spec.bounded.
    cbn [NetworkTracker.setPending pendingRequests bufferSize].
    repeat split.
    + intros c Hc. rewrite Hbuf in Hc. specialize (Hsize c Hc).
      pose proof (set_length
                    (pendingRequests
                       (NetworkTracker.evictIfFull
                          (networkTracker (tracer w))))
                    (Cdp.RequestWillBeSent.requestId event)
                    (NetworkTracker.pendingEntry event)) as Hlen.
      unfold JsMap.size, Js.len in *. lia.
    + now apply set_NoDup.
    + exact Hbuf.
  - rewrite responseReceived_tracker. now split.
  - rewrite loadingFinished_tracker. unfold Spec.bounded.
    cbn [NetworkTracker.setPending pendingRequests bufferSize].
    destruct Hb as [Hsize Hnd]. repeat split.
    + intros c Hc. specialize (Hsize c Hc).
      pose proof (delete_length
                    (pendingRequests (networkTracker (tracer w)))
                    (Cdp.LoadingFinished.requestId event)) as Hlen.
      unfold JsMap.size, Js.len in *. lia.
    + now apply delete_NoDup.
Qed.

Lemma deliver_bounded (frames : list (Cdp.Frame * Turn)) (w : World) :
  Forall (fun ft => Spec.leavesTracker (snd ft)) frames ->
  Spec.bounded (networkTracker (tracer w)) ->
  Spec.bounded (networkTracker (tracer (NetworkTracker.deliver frames w)))
  /\ bufferSize (networkTracker (tracer (NetworkTracker.deliver frames w)))
     = bufferSize (networkTracker (tracer w)).
Proof.
  revert w. induction frames as [|[f t] rest IH]; intros w Hpriv Hb.
  - now split.
  - cbn [NetworkTracker.deliver].
    pose proof (Forall_inv Hpriv) as Ht. cbn [snd] in Ht.
    apply Forall_inv_tail in Hpriv.
    specialize (Ht w).
    destruct (onFrame_bounded f (env t) (meanwhile t w)) as [Hb' Hbuf'].
    { now rewrite Ht. }
    rewrite Ht in Hbuf'.
    destruct (IH (fst (run (NetworkTracker.onFrame f) (env t)
                           (meanwhile t w))) Hpriv Hb') as [Hb'' Hbuf''].
    split; [exact Hb'' | congruence].
Qed.

(** What [getConfig] lets through: a finite size above zero, or
    [Infinity]. *)
Lemma bufferSizeOf_cases (raw : Config.JsNumber) :
  Config.bufferSizeOf raw = Js.Infinity
  \/ exists q, Config.bufferSizeOf raw = Js.Finite q /\ (0 < q)%Q.
Proof.
  unfold Config.bufferSizeOf.
  destruct raw as [| |q|]; cbn;
    [right; exists (inject_Z 1000); now split
    |right; exists (inject_Z 1000); now split | | now left].
  destruct (Qle_bool q (inject_Z 0)) eqn:E.
  - right. exists (inject_Z 1000). now split.
  - right. exists q. split; [reflexivity|].
    apply Qnot_le_lt. intros Hle. apply Qle_bool_iff in Hle.
    change (inject_Z 0) with 0%Q in E. congruence.
Qed.

(** With the buffer size the configuration yields, whatever frames
    arrive and whatever else happens in between, the pending map never
    holds more entries than the least whole number that is no less than
    that size: the size itself when it is a whole number.  When a
    request frame finds the map holding at least that size, the entry
    at the front of the map (the one inserted longest ago; looking
    entries up does not move them) is the one removed, all others stay
    in their order, and the new entry is then set; with fewer entries
    nothing is removed. *)
Lemma pending_bounded_fifo (raw : Config.JsNumber)
      (frames : list (Cdp.Frame * Turn)) (w0 : World) :
  networkTracker (tracer w0)
  = NetworkTracker.new (Config.bufferSizeOf raw) ->
  Forall (fun ft => Spec.leavesTracker (snd ft)) frames ->
  let capacity := Config.bufferSizeOf raw in
  let w := NetworkTracker.deliver frames w0 in
  (forall q, capacity = Js.Finite q ->
             JsMap.size (Spec.pendingOf w) <= Qceiling q)
  /\ (forall N, capacity = Js.ofZ N -> JsMap.size (Spec.pendingOf w) <= N)
  /\ forall event e,
       let after :=
         Spec.pendingOf
           (fst (run (NetworkTracker.onRequestWillBeSent event) e w)) in
       (Js.ge (Js.ofZ (JsMap.size (Spec.pendingOf w))) capacity = true ->
        exists oldest rest,
          Spec.pendingOf w = oldest :: rest
          /\ ~ In (fst oldest) (JsMap.keys rest)
          /\ after = JsMap.set rest (Cdp.RequestWillBeSent.requestId event)
                               (NetworkTracker.pendingEntry event))
       /\ (Js.ge (Js.ofZ (JsMap.size (Spec.pendingOf w))) capacity = false ->
           after = JsMap.set (Spec.pendingOf w)
                             (Cdp.RequestWillBeSent.requestId event)
                             (NetworkTracker.pendingEntry event)).
Proof.
  intros Hnew Hpriv. cbv zeta.
  destruct (deliver_bounded frames w0 Hpriv) as [[Hsize Hnd] Hbuf].
  { rewrite Hnew. split; [|constructor].
    intros c Hc. apply reachOf_positive in Hc. cbn. lia. }
  rewrite Hnew in Hbuf. cbn [NetworkTracker.new bufferSize] in Hbuf.
  rewrite Hbuf in Hsize. unfold Spec.pendingOf.
  assert (Hceil : forall q,
             Config.bufferSizeOf raw = Js.Finite q ->
             JsMap.size
               (pendingRequests
                  (networkTracker
                     (tracer (NetworkTracker.deliver frames w0))))
             <= Qceiling q).
  { intros q Hq.
    destruct (bufferSizeOf_cases raw) as [Hinf | (q' & Hq' & Hpos)];
      [congruence|].
    assert (q' = q) by congruence. subst q'.
    specialize (Hsize (Z.max 1 (Qceiling q))). rewrite Hq in Hsize.
    specialize (Hsize eq_refl).
    pose proof (Qlt_le_trans _ _ _ Hpos (Qle_ceiling q)) as Hz.
    change 0%Q with (inject_Z 0) in Hz. rewrite <- Zlt_Qlt in Hz. lia. }
  split; [exact Hceil | split].
  { intros N HN. specialize (Hceil (inject_Z N) HN).
    now rewrite Qceiling_Z in Hceil. }
  intros event e. rewrite requestWillBeSent_tracker. cbv zeta.
  cbn [NetworkTracker.setPending pendingRequests].
  unfold NetworkTracker.evictIfFull. rewrite Hbuf.
  split.
  - intros Hfull. rewrite Hfull.
    destruct (pendingRequests
                (networkTracker (tracer (NetworkTracker.deliver frames w0))))
      as [|[k v] rest] eqn:E.
    + exfalso.
      destruct (bufferSizeOf_cases raw) as [Hinf | (q & Hq & Hpos)].
      * rewrite Hinf in Hfull. discriminate.
      * rewrite Hq in Hfull. unfold Js.ge, Js.ofZ, Js.le in Hfull.
        apply Qle_bool_iff in Hfull.
        apply (Qlt_irrefl 0). eapply Qlt_le_trans; [exact Hpos|].
        exact Hfull.
    + exists (k, v), rest. cbn [JsMap.firstKey fst].
      cbn [NetworkTracker.setPending pendingRequests].
      rewrite (delete_first k v rest Hnd).
      repeat split. now inversion Hnd.
  - intros Hroom. now rewrite Hroom.
Qed.

End NetworkHandlers.

Section NetworkExamples.
Import State Async.
Import State.NetworkTracker State.PageTracer State.SessionStorage.

Lemma quiet_leavesTracker (r : Response) (e : Env) :
  Spec.leavesTracker (quiet r e).
Proof. intros w. reflexivity. Qed.

Lemma pending_bounded_fifo_example :
  let w := NetworkTracker.deliver Scenario.twoRequests Scenario.small in
  JsMap.size (Spec.pendingOf w) <= 2
  /\ exists oldest rest,
       Spec.pendingOf w = oldest :: rest
       /\ ~ In (fst oldest) (JsMap.keys rest)
       /\ Spec.pendingOf
            (fst (run (NetworkTracker.onRequestWillBeSent Scenario.sent)
                      Scenario.env0 w))
          = JsMap.set rest "1000.7"
                      (NetworkTracker.pendingEntry Scenario.sent).
Proof.
  assert (Hquiet : Forall (fun ft => Spec.leavesTracker (snd ft))
                          Scenario.twoRequests).
  { repeat constructor; apply quiet_leavesTracker. }
  destruct (pending_bounded_fifo (Js.ofZ 2) Scenario.twoRequests
                                 Scenario.small eq_refl Hquiet)
    as (_ & Hsize & Hinsert).
  split; [exact (Hsize 2 eq_refl)|].
  apply (proj1 (Hinsert Scenario.sent Scenario.env0)). reflexivity.
Qed.

(** C3, at a size the configuration accepts: started with
    NETWORK_BUFFER_SIZE=2.5, which [getConfig] lets through unchanged,
    the tracker holds three pending requests after three request
    frames.  The map is taken for full only when its size has reached
    the buffer size, which a size of two has not, and three entries are
    more than the configured 2.5: the bound of the claim, which the
    sources document as the maximum number of pending requests, is
    exceeded. *)
Theorem C3_fractional_size_overflows :
  let w := NetworkTracker.deliver Scenario.threeRequests
                                  Scenario.fractional in
  bufferSize (networkTracker (tracer Scenario.fractional))
  = Js.Finite (5 # 2)
  /\ Spec.pendingOf Scenario.fractional = []
  /\ JsMap.size (Spec.pendingOf w) = 3
  /\ Js.le (Js.ofZ (JsMap.size (Spec.pendingOf w)))
           (bufferSize (networkTracker (tracer w))) = false.
Proof. repeat split. Qed.

(** C6, as stated, fails: before the tab has a current operation a
    finished frame for an unknown request is handled without error,
    and no record is emitted for it. *)
Lemma C6_counterexample :
  JsMap.get (Spec.pendingOf Scenario.ready)
            (Cdp.LoadingFinished.requestId Scenario.finished) = None
  /\ currentOpDir (tracer Scenario.ready) = None
  /\ run (NetworkTracker.onLoadingFinished Scenario.finished)
         Scenario.env0 Scenario.ready
     = (Scenario.ready, Done tt).
Proof. repeat split. Qed.

(** C6 (amended): a finished frame never raises an error, and the
    entry of its request, if there is one, is removed from the pending
    map.  When the tab has a current operation (and the storage is
    initialised) exactly one finished record is appended to that
    operation's network file: with the url and frame of the pending
    entry when there was one, with both empty when there was none.
    When the tab has no current operation, nothing is emitted. *)
Theorem C6_finished_frame (event : Cdp.LoadingFinished.t) (e : Env)
        (w : World) :
  let out := run (NetworkTracker.onLoadingFinished event) e w in
  let requestId := Cdp.LoadingFinished.requestId event in
  snd out = Done tt
  /\ Spec.pendingOf (fst out) = JsMap.delete (Spec.pendingOf w) requestId
  /\ JsMap.get (Spec.pendingOf (fst out)) requestId = None
  /\ (forall opDir,
        currentOpDir (tracer w) = Some opDir ->
        opDir <> "" ->
        initialized (storage w) = true ->
        (JsMap.get (Spec.pendingOf w) requestId = None ->
         effects (fst out)
         = (effects w
            ++ [Issued (FsAppendFile
                          (Spec.networkFile opDir)
                          (CNetwork (Types.network_finished
                                       (Spec.finishedRecord
                                          event e w "" ""))))])
           %list)
        /\ (forall pending,
              JsMap.get (Spec.pendingOf w) requestId = Some pending ->
              effects (fst out)
              = (effects w
                 ++ [Issued (FsAppendFile
                               (Spec.networkFile opDir)
                               (CNetwork
                                  (Types.network_finished
                                     (Spec.finishedRecord
                                        event e w
                                        (PendingRequest.url pending)
                                        (PendingRequest.frameId pending)))))])
                %list))
  /\ (currentOpDir (tracer w) = None -> effects (fst out) = effects w).
Proof.
  cbv zeta. unfold Spec.pendingOf.
  rewrite loadingFinished_tracker.
  cbn [NetworkTracker.setPending pendingRequests].
  split; [|split; [reflexivity | split; [apply get_delete|]]].
  - unfold run, NetworkTracker.onLoadingFinished. cbn.
    destruct (currentOpDir (tracer w)) as [d|]; cbn; [|reflexivity].
    destruct (String.eqb d ""); cbn; [reflexivity|].
    destruct (initialized (storage w)); reflexivity.
  - split.
    + intros opDir Hd Hne Hinit.
      apply String.eqb_neq in Hne.
      unfold run, NetworkTracker.onLoadingFinished. cbn.
      rewrite Hd. cbn. rewrite Hne. cbn. rewrite Hinit. cbn.
      split.
      * intros ->. reflexivity.
      * intros pending ->. reflexivity.
    + intros Hd. unfold run, NetworkTracker.onLoadingFinished. cbn.
      rewrite Hd. reflexivity.
Qed.

End NetworkExamples.

(** ** Symbolic execution of handlers *)

Section AsyncFacts.
Import State Async.

Lemma neverSleeps_drive {A : Type} (p : Prog A) :
  neverSleeps p ->
  forall turns e w w' ms k,
    drive p turns e w <> (w', Suspended (Sleep ms) k).
Proof.
  induction p as [A a | A err | A k IH | A w0 k IH | A k IH | A r k IH
                  | A p' _ k IH];
    cbn; intros Hn turns e w w' ms k'; try discriminate.
  - apply IH, Hn.
  - now apply IH.
  - apply IH, Hn.
  - destruct Hn as [Hr Hk]. destruct turns as [|t rest].
    + intros E. inversion E. subst. now apply (Hr ms).
    + apply IH, Hk.
  - now apply IH.
Qed.

Lemma neverSleeps_bind {A B : Type} (p : Prog A) (f : A -> Prog B) :
  neverSleeps p -> (forall a, neverSleeps (f a)) -> neverSleeps (bind p f).
Proof.
  intros Hp Hf.
  induction p as [A a | A err | A k IH | A w0 k IH | A k IH | A r k IH
                  | A p' _ k IH]; cbn in *; auto.
  destruct Hp as [Hr Hk]. split; auto.
Qed.

Lemma neverSleeps_try_catch {A : Type} (p : Prog A)
      (h : Error -> Prog A) :
  neverSleeps p -> (forall err, neverSleeps (h err)) ->
  neverSleeps (try_catch p h).
Proof.
  intros Hp Hh.
  induction p as [A a | A err | A k IH | A w0 k IH | A k IH | A r k IH
                  | A p' _ k IH]; cbn in *; auto.
  destruct Hp as [Hr Hk]. split; auto.
Qed.

End AsyncFacts.

Ltac never_sleeps :=
  repeat first
    [ exact I
    | discriminate
    | progress intros
    | split
    | apply neverSleeps_bind
    | apply neverSleeps_try_catch
    | match goal with
      | |- Async.neverSleeps (if ?b then _ else _) => destruct b
      | |- Async.neverSleeps (match ?x with _ => _ end) => destruct x
      end
    | progress cbn ].

(** Evaluation that leaves directory names as the source spells them. *)
Ltac sym_in H :=
  cbn -[Path.join JsString.execEvDigits Storage.eventIdOf String.append] in H.

Ltac sym_goal :=
  cbn -[Path.join JsString.execEvDigits Storage.eventIdOf String.append].

(** Follows a handler through every way its run can go: the turns that
    are left, how each promise settles, and each test of the code. *)
Ltac crunch H :=
  sym_in H;
  first
    [ discriminate H
    | solve [ inversion H; subst; clear H; sym_goal; auto ]
    | solve [ exfalso; revert H; apply neverSleeps_drive; never_sleeps ]
    | match type of H with
      | context [match ?turns with [] => _ | _ :: _ => _ end] =>
          is_var turns; destruct turns as [|? turns]; crunch H
      | context [Async.settled ?t] => destruct (Async.settled t); crunch H
      | context [if ?b then _ else _] => destruct b eqn:?; crunch H
      end ].

Section PathFacts.



End PathFacts.

(** ** User actions and the settle window *)

Section UserActions.
Import State Async.
Import State.PageTracer State.SessionStorage.











End UserActions.

(** ** Navigations *)

Section Navigations.
Import State Async.
Import State.PageTracer State.SessionStorage.

Lemma handleNavigation_neverSleeps (url : string) (isMainFrame : bool) :
  neverSleeps (PageTracer.handleNavigation url isMainFrame).
Proof.
  unfold PageTracer.handleNavigation, PageTracer.recordNavigation.
  never_sleeps.
Qed.

(** When the handler of a main-frame navigation has run to its end,
    both fields name the operation it created. *)
Lemma navigation_targets (url : string) (turns : list Turn) (e : Env)
      (w w' : World) :
  stopped (tracer w) = false ->
  url <> "" -> url <> "about:blank" ->
  drive (PageTracer.handleNavigation url true) turns e w = (w', Done tt) ->
  let opDir := PageTracer.opDirFor (storage w) (eventCount (storage w) + 1)
                                   "main" "navigation" in
  currentOpDir (tracer w') = Some opDir
  /\ currentMutationDir (tracer w') = Some opDir.
Proof.
  intros Hs Hne Hb H. cbv zeta.
  apply String.eqb_neq in Hne, Hb.
  unfold PageTracer.handleNavigation, PageTracer.recordNavigation,
    PageTracer.captureSnapshot, PageTracer.opDirFor in *.
  sym_in H. rewrite Hs in H. sym_in H. rewrite Hne, Hb in H.
  crunch H.
Qed.

(** The first stretch of a navigation handler allocates an identifier
    and asks for the directory of the new operation. *)
Lemma navigation_creates (url : string) (isMainFrame : bool) (e : Env)
      (w : World) :
  stopped (tracer w) = false ->
  initialized (storage w) = true ->
  url <> "" -> url <> "about:blank" ->
  let w' := fst (run (PageTracer.handleNavigation url isMainFrame) e w) in
  eventCount (storage w') = (eventCount (storage w) + 1)%N
  /\ effects w'
     = (effects w
        ++ [Issued (FsMkdir
                      (PageTracer.opDirFor
                         (storage w) (eventCount (storage w) + 1)
                         (if isMainFrame then "main" else "iframe")
                         "navigation"))])%list.
Proof.
  intros Hs Hi Hne Hb. cbv zeta.
  apply String.eqb_neq in Hne, Hb.
  unfold run, PageTracer.handleNavigation, PageTracer.recordNavigation,
    PageTracer.opDirFor.
  sym_goal. rewrite Hs. sym_goal. rewrite Hne, Hb. sym_goal.
  rewrite Hi. sym_goal. split; reflexivity.
Qed.

(** The handler of an iframe navigation never assigns the fields. *)
Lemma iframe_targets (url : string) (rs : list (Response * Env))
      (e : Env) (w : World) :
  let w' := fst (drive (PageTracer.handleNavigation url false)
                       (Spec.undisturbed rs) e w) in
  currentOpDir (tracer w') = currentOpDir (tracer w)
  /\ currentMutationDir (tracer w') = currentMutationDir (tracer w).
Proof.
  cbv zeta.
  unfold PageTracer.handleNavigation, PageTracer.recordNavigation.
  sym_goal.
  destruct (stopped (tracer w)); sym_goal; [now split|].
  destruct (negb (negb (String.eqb url "")) || String.eqb url "about:blank");
    sym_goal; [now split|].
  destruct (initialized (storage w)) eqn:Hi; sym_goal; [|now split].
  destruct rs as [|[r1 e1] rs]; sym_goal; [now split|].
  destruct r1; sym_goal; [|now split].
  rewrite Hi. sym_goal.
  destruct rs as [|[r2 e2] rs]; sym_goal; [now split|].
  destruct r2; sym_goal; now split.
Qed.

(** C5, as stated, fails: for the navigation of an iframe the handler
    creates operation 2 and writes its event, runs to its end, and
    both fields still name operation 1. *)
Lemma C5_counterexample :
  let out := drive (PageTracer.onFrameNavigated
                      "https://ads.example.net/frame" false)
                   [Scenario.ok; Scenario.ok] Scenario.env0
                   Scenario.started in
  snd out = Done tt
  /\ In (Issued (FsMkdir Scenario.op2iframe)) (effects (fst out))
  /\ currentOpDir (tracer (fst out)) = Some Scenario.op1
  /\ currentMutationDir (tracer (fst out)) = Some Scenario.op1
  /\ Scenario.op1 <> Scenario.op2iframe.
Proof.
  repeat split; [|discriminate].
  vm_compute. tauto.
Qed.

(** C5 (amended): a navigation of a frame with a non-empty url other
    than about:blank, observed while the tab is not stopped, creates a
    new operation, and its handler never waits on a settle timer.  For
    the main frame, once the handler has run to its end (the directory
    made, the event written, the snapshot attempted) [currentOpDir]
    and [currentMutationDir] both name the new operation; for an
    iframe the handler leaves both fields as they are. *)
Theorem C5_navigation_targets (url : string) (turns : list Turn)
        (e : Env) (w w' : World) :
  stopped (tracer w) = false ->
  url <> "" -> url <> "about:blank" ->
  (drive (PageTracer.handleNavigation url true) turns e w = (w', Done tt) ->
   let opDir := PageTracer.opDirFor (storage w) (eventCount (storage w) + 1)
                                    "main" "navigation" in
   currentOpDir (tracer w') = Some opDir
   /\ currentMutationDir (tracer w') = Some opDir)
  /\ (forall isMainFrame,
        initialized (storage w) = true ->
        let w1 := fst (run (PageTracer.handleNavigation url isMainFrame)
                           e w) in
        eventCount (storage w1) = (eventCount (storage w) + 1)%N
        /\ effects w1
           = (effects w
              ++ [Issued (FsMkdir
                            (PageTracer.opDirFor
                               (storage w) (eventCount (storage w) + 1)
                               (if isMainFrame then "main" else "iframe")
                               "navigation"))])%list)
  /\ (forall isMainFrame ms k,
        drive (PageTracer.handleNavigation url isMainFrame) turns e w
        <> (w', Suspended (Sleep ms) k))
  /\ (forall rs,
        let w2 := fst (drive (PageTracer.handleNavigation url false)
                             (Spec.undisturbed rs) e w) in
        currentOpDir (tracer w2) = currentOpDir (tracer w)
        /\ currentMutationDir (tracer w2) = currentMutationDir (tracer w)).
Proof.
  intros Hs Hne Hb. split; [|split; [|split]].
  - intros H. now apply (navigation_targets url turns e w w').
  - intros isMainFrame Hi. now apply navigation_creates.
  - intros isMainFrame ms k.
    apply neverSleeps_drive, handleNavigation_neverSleeps.
  - intros rs. apply iframe_targets.
Qed.

Lemma C5_navigation_targets_witness :
  currentOpDir
    (tracer (fst (drive (PageTracer.handleNavigation
                           "https://example.com/next" true)
                        [Scenario.ok; Scenario.ok; Scenario.ok;
                         Scenario.ok]
                        Scenario.env0 Scenario.started)))
  = Some Scenario.op2main.
Proof.
  apply (proj1
           (proj1
              (C5_navigation_targets
                 "https://example.com/next"
                 [Scenario.ok; Scenario.ok; Scenario.ok; Scenario.ok]
                 Scenario.env0 Scenario.started
                 (fst (drive (PageTracer.handleNavigation
                                "https://example.com/next" true)
                             [Scenario.ok; Scenario.ok; Scenario.ok;
                              Scenario.ok]
                             Scenario.env0 Scenario.started))
                 eq_refl ltac:(discriminate) ltac:(discriminate))
              eq_refl)).
Defined.

End Navigations.

(** ** Stopping a tab *)

Section Stopping.
Import State Async.
Import State.PageTracer State.SessionStorage.

(** C8, as stated, fails.  The click of operation 2 is delivered and
    its handler waits for the directory; [stop()] is called; the
    handler then resumes, sets both fields to operation 2, waits out
    the settle delay and writes the click's event: a record is written
    after [stop()], and the router's state has changed. *)
Lemma C8_counterexample :
  let inFlight := fst (run (PageTracer.onInjectedEvent (Some Scenario.click))
                           Scenario.env0 Scenario.started) in
  let stopped_ := fst (run PageTracer.stop Scenario.env0 inFlight) in
  let later := fst (drive (PageTracer.onInjectedEvent (Some Scenario.click))
                          [Scenario.stopCalled; Scenario.ok]
                          Scenario.env0 Scenario.started) in
  stopped (tracer stopped_) = true
  /\ currentOpDir (tracer stopped_) = Some Scenario.op1
  /\ stopped (tracer later) = true
  /\ currentOpDir (tracer later) = Some Scenario.op2click
  /\ currentMutationDir (tracer later) = Some Scenario.op2click
  /\ effects later
     = (effects stopped_
        ++ [Issued (Sleep 500);
            Issued (FsWriteFile
                      (Path.join [Scenario.op2click; "event.json"])
                      (CEvent Scenario.clickEvent))])%list.
Proof. repeat split. Qed.

(** The network listeners do not look at the flag: a frame delivered
    to a stopped tab that has a current operation is still recorded. *)
Lemma network_frame_after_stop :
  let stopped_ := fst (run PageTracer.stop Scenario.env0 Scenario.started) in
  stopped (tracer stopped_) = true
  /\ effects (fst (run (NetworkTracker.onLoadingFinished Scenario.finished)
                       Scenario.env0 stopped_))
     = (effects stopped_
        ++ [Issued (FsAppendFile
                      (Spec.networkFile Scenario.op1)
                      (CNetwork
                         (Types.network_finished
                            (Spec.finishedRecord
                               Scenario.finished Scenario.env0
                               stopped_ "" ""))))])%list.
Proof. repeat split. Qed.

Lemma network_ignores_stopped (frame : Cdp.Frame) (b : bool) (e : Env)
      (w : World) :
  fst (run (NetworkTracker.onFrame frame) e (Spec.withStopped b w))
  = Spec.withStopped b (fst (run (NetworkTracker.onFrame frame) e w)).
Proof.
  destruct frame as [event | event | event];
    unfold run, Spec.withStopped, NetworkTracker.onFrame,
      NetworkTracker.onRequestWillBeSent, NetworkTracker.onResponseReceived,
      NetworkTracker.onLoadingFinished; cbn;
    (destruct (currentOpDir (tracer w)) as [d|]; cbn; [|reflexivity]);
    (destruct (String.eqb d ""); cbn; [reflexivity|]);
    destruct (initialized (storage w)); reflexivity.
Qed.

Lemma stopped_injected (parsed : option Types.InjectedEvent.t)
      (turns : list Turn) (e : Env) (w : World) :
  stopped (tracer w) = true ->
  drive (PageTracer.handleInjectedEvent parsed) turns e w = (w, Done tt).
Proof.
  intros H. unfold PageTracer.handleInjectedEvent. cbn. now rewrite H.
Qed.

Lemma stopped_navigation (url : string) (isMainFrame : bool)
      (turns : list Turn) (e : Env) (w : World) :
  stopped (tracer w) = true ->
  drive (PageTracer.handleNavigation url isMainFrame) turns e w
  = (w, Done tt).
Proof.
  intros H. unfold PageTracer.handleNavigation. cbn. now rewrite H.
Qed.

(** C8 (amended): once the flag of [stop()] is set, every injected
    event (user action or mutation batch) and every navigation notice
    that arrives is dropped on entry: the handler returns at once and
    the world is exactly as before, so nothing is written, no
    identifier is allocated and the router's state is retained.
    [stop()] itself sets the flag at once and leaves the two
    attribution fields and the storage as they are; when the session
    has been detached it clears [cdpSession] and nothing else.  The
    network listeners do not read the flag: what they do to a stopped
    tab is what they do to a running one. *)
Theorem C8_stopped_router_drops_events (w : World) (e : Env) :
  (stopped (tracer w) = true ->
   forall parsed url isMainFrame turns,
     drive (PageTracer.handleInjectedEvent parsed) turns e w = (w, Done tt)
     /\ drive (PageTracer.handleNavigation url isMainFrame) turns e w
        = (w, Done tt))
  /\ (let w1 := fst (run PageTracer.stop e w) in
      stopped (tracer w1) = true
      /\ currentOpDir (tracer w1) = currentOpDir (tracer w)
      /\ currentMutationDir (tracer w1) = currentMutationDir (tracer w)
      /\ storage w1 = storage w)
  /\ (forall r e1,
        let out := drive PageTracer.stop [quiet r e1] e w in
        snd out = Done tt
        /\ tracer (fst out)
           = PageTracer.setCdpSession
               false (PageTracer.setStopped true (tracer w))
        /\ storage (fst out) = storage w)
  /\ (forall frame b,
        fst (run (NetworkTracker.onFrame frame) e (Spec.withStopped b w))
        = Spec.withStopped b (fst (run (NetworkTracker.onFrame frame) e w))).
Proof.
  split; [|split; [|split]]; cycle 3.
  { intros frame b. apply network_ignores_stopped. }
  - intros H parsed url isMainFrame turns. split.
    + now apply stopped_injected.
    + now apply stopped_navigation.
  - cbv zeta. unfold run, PageTracer.stop. cbn.
    destruct (cdpSession (tracer w)); cbn; repeat split.
  - intros r e1. cbv zeta. unfold PageTracer.stop. cbn.
    destruct (cdpSession (tracer w)) eqn:Hc; cbn.
    + destruct r; cbn; repeat split.
    + repeat split. unfold PageTracer.setCdpSession, PageTracer.setStopped.
      cbn. now rewrite Hc.
Qed.

Lemma C8_stopped_router_drops_events_witness :
  let stopped_ := fst (run PageTracer.stop Scenario.env0 Scenario.started) in
  drive (PageTracer.handleInjectedEvent (Some Scenario.click))
        [Scenario.ok] Scenario.env0 stopped_
  = (stopped_, Done tt)
  /\ drive (PageTracer.handleNavigation "https://example.com/next" true)
           [Scenario.ok] Scenario.env0 stopped_
     = (stopped_, Done tt).
Proof.
  apply (proj1 (C8_stopped_router_drops_events
                  (fst (run PageTracer.stop Scenario.env0 Scenario.started))
                  Scenario.env0)).
  reflexivity.
Defined.

Lemma C6_finished_frame_witness :
  effects (fst (run (NetworkTracker.onLoadingFinished Scenario.finished)
                    Scenario.env0 Scenario.started))
  = (effects Scenario.started
     ++ [Issued (FsAppendFile
                   (Spec.networkFile Scenario.op1)
                   (CNetwork
                      (Types.network_finished
                         (Spec.finishedRecord
                            Scenario.finished Scenario.env0
                            Scenario.started "" ""))))])%list.
Proof.
  apply (proj1
           (proj1
              (proj2 (proj2 (proj2 (C6_finished_frame
                                      Scenario.finished Scenario.env0
                                      Scenario.started))))
              Scenario.op1 eq_refl ltac:(discriminate) eq_refl)).
  reflexivity.
Defined.

End Stopping.

(** * Further properties *)

Section ClassifierTable.
Import Levels.
Import MutationLevel.

Lemma len_positive {A : Type} (l : list A) : (Js.len l >? 0) = true <-> l <> [].
Proof.
  unfold Js.len. destruct l as [|x l]; cbn [List.length].
  - split; [discriminate | congruence].
  - split; [discriminate | intros _; apply Z.gtb_lt; lia].
Qed.

Lemma isNoiseNodes_iff (nodes : list string) :
  isNoiseNodes nodes = true <-> nodes <> [] /\ Forall noise_name nodes.
Proof.
  split.
  - unfold isNoiseNodes. intros H. apply andb_true_iff in H.
    destruct H as [Hlen Hall]. split; [now apply len_positive|].
    apply Forall_forall. intros n Hn.
    rewrite forallb_forall in Hall. specialize (Hall n Hn).
    apply orb_true_iff in Hall. destruct Hall as [H | H].
    + left. now apply has_In.
    + right. now apply String.eqb_eq.
  - intros [Hne Hall]. now apply isNoiseNodes_forall.
Qed.

Lemma attributeLevel_cases (raw : RawDomChange) :
  attributeLevel raw = Some 3 \/ attributeLevel raw = None.
Proof.
  unfold attributeLevel.
  destruct (String.eqb (mutationType raw) "attributes"); [|now right].
  destruct (attributeName raw) as [name|]; [|now right].
  destruct (Js.has VISIBLE_ATTRS name); [now left|].
  destruct (Js.startsWith name "aria-"); [now left | now right].
Qed.

Lemma childListLevel_cases (raw : RawDomChange) (nodes : list string) :
  childListLevel raw nodes = Some 2 \/ childListLevel raw nodes = Some 3
  \/ childListLevel raw nodes = None.
Proof.
  unfold childListLevel.
  destruct (String.eqb (mutationType raw) "childList"); [|tauto].
  destruct (isTextOnlyNodes nodes); [tauto|].
  destruct (existsb _ nodes); tauto.
Qed.

(** X1: a change is classified 1 exactly when its target path is in the
    head (contains [/head[] or is empty), or it is a childList change
    with at least one added or removed node, all of them resource nodes
    or comments.  Nothing else is noise. *)
Theorem X1_level1_iff_noise (raw : RawDomChange) :
  computeChangeLevel raw = 1 <-> noise raw.
Proof.
  unfold computeChangeLevel, noise.
  destruct (isInHead (targetPath raw)); [split; auto|].
  cbv zeta.
  set (nodes := (addedNodes raw ++ removedNodes raw)%list).
  destruct (String.eqb_spec (mutationType raw) "childList") as [Ht | Ht];
    cbn [andb].
  - destruct (Js.len nodes >? 0) eqn:Hlen; cbn [andb].
    + destruct (isNoiseNodes nodes) eqn:Hn.
      * apply isNoiseNodes_iff in Hn. split; auto.
      * split.
        -- destruct (attributeLevel_cases raw) as [-> | ->];
             [discriminate|].
           destruct (childListLevel_cases raw nodes) as [-> | [-> | ->]];
             discriminate.
        -- intros [H | (_ & Hne & Hall)]; [discriminate|].
           assert (isNoiseNodes nodes = true) by now apply isNoiseNodes_iff.
           congruence.
    + split.
      * destruct (attributeLevel_cases raw) as [-> | ->]; [discriminate|].
        destruct (childListLevel_cases raw nodes) as [-> | [-> | ->]];
          discriminate.
      * intros [H | (_ & Hne & _)]; [discriminate|].
        apply len_positive in Hne. congruence.
  - split.
    + destruct (attributeLevel_cases raw) as [-> | ->]; [discriminate|].
      destruct (childListLevel_cases raw nodes) as [-> | [-> | ->]];
        discriminate.
    + intros [H | (H & _)]; [discriminate | contradiction].
Qed.

Lemma attributeLevel_iff (raw : RawDomChange) :
  attributeLevel raw = Some 3
  <-> mutationType raw = "attributes"
      /\ exists name, attributeName raw = Some name /\ visible_name name.
Proof.
  unfold attributeLevel, visible_name.
  destruct (String.eqb_spec (mutationType raw) "attributes") as [Ht | Ht].
  - destruct (attributeName raw) as [name|].
    + destruct (Js.has VISIBLE_ATTRS name) eqn:Hh.
      * apply has_In in Hh. split; [|reflexivity].
        intros _. split; [exact Ht|]. exists name. auto.
      * destruct (Js.startsWith name "aria-") eqn:Ha.
        -- split; [|reflexivity]. intros _. split; [exact Ht|].
           exists name. auto.
        -- split; [discriminate|].
           intros (_ & name' & E & [Hin | Hs]); inversion E; subst name'.
           ++ apply has_In in Hin. congruence.
           ++ congruence.
    + split; [discriminate|]. intros (_ & name & E & _). discriminate.
  - split; [discriminate|]. intros (H & _). contradiction.
Qed.

Lemma existsb_element (nodes : list string) :
  existsb (fun n => negb (Js.has RESOURCE_NODES n)
                    && negb (String.eqb n "#comment")
                    && negb (String.eqb n "#text")) nodes = true
  <-> exists n, In n nodes /\ element_name n.
Proof.
  rewrite existsb_exists. unfold element_name, noise_name.
  split; intros (n & Hin & H); exists n; (split; [exact Hin|]).
  - apply andb_true_iff in H. destruct H as [H Htext].
    apply andb_true_iff in H. destruct H as [Hres Hcom].
    apply negb_true_iff in Hres, Hcom, Htext.
    apply String.eqb_neq in Hcom, Htext.
    split; [|exact Htext].
    intros [Hr | Hc]; [|contradiction].
    apply has_In in Hr. congruence.
  - destruct H as [Hn Htext].
    apply andb_true_iff. split; [apply andb_true_iff; split|].
    + apply negb_true_iff.
      destruct (Js.has RESOURCE_NODES n) eqn:E; [|reflexivity].
      apply has_In in E. tauto.
    + apply negb_true_iff. apply String.eqb_neq. tauto.
    + apply negb_true_iff. now apply String.eqb_neq.
Qed.

Lemma textOnly_no_element (nodes : list string) :
  isTextOnlyNodes nodes = true ->
  ~ exists n, In n nodes /\ element_name n.
Proof.
  unfold isTextOnlyNodes. intros H (n & Hin & _ & Hne).
  apply andb_true_iff in H. destruct H as [_ H].
  rewrite forallb_forall in H. specialize (H n Hin).
  apply String.eqb_eq in H. contradiction.
Qed.

(** X2: a change is classified 3 exactly when its target path is outside
    the head and it is either an attribute change of a visible
    attribute (one of the listed names, or any name starting with
    [aria-]), or a childList change among whose added and removed nodes
    there is one that is neither a resource node, nor a comment, nor
    text.  A childList change that carries a resource node next to an
    element is not excluded by the resource rule and is classified 3. *)
Theorem X2_level3_iff_significant (raw : RawDomChange) :
  computeChangeLevel raw = 3
  <-> isInHead (targetPath raw) = false
      /\ ((mutationType raw = "attributes"
           /\ exists name, attributeName raw = Some name /\ visible_name name)
          \/ (mutationType raw = "childList"
              /\ exists n, In n (addedNodes raw ++ removedNodes raw)%list
                           /\ element_name n)).
Proof.
  unfold computeChangeLevel.
  destruct (isInHead (targetPath raw)).
  { split; [discriminate | intros [H _]; discriminate]. }
  cbv zeta. set (nodes := (addedNodes raw ++ removedNodes raw)%list).
  destruct (String.eqb_spec (mutationType raw) "childList") as [Ht | Ht];
    cbn [andb].
  - assert (Hattr : attributeLevel raw = None).
    { unfold attributeLevel. now rewrite Ht. }
    destruct ((Js.len nodes >? 0) && isNoiseNodes nodes) eqn:Hnoise.
    + split; [discriminate|].
      intros (_ & [(H & _) | (_ & n & Hin & Hn & _)]); [congruence|].
      apply andb_true_iff in Hnoise. destruct Hnoise as [_ Hnoise].
      apply isNoiseNodes_iff in Hnoise. destruct Hnoise as [_ Hall].
      rewrite Forall_forall in Hall. destruct (Hn (Hall n Hin)).
    + rewrite Hattr. unfold childListLevel. rewrite Ht, String.eqb_refl.
      destruct (isTextOnlyNodes nodes) eqn:Htext.
      * split; [discriminate|].
        intros (_ & [(H & _) | (_ & Hex)]); [congruence|].
        destruct (textOnly_no_element nodes Htext Hex).
      * destruct (existsb _ nodes) eqn:Hex.
        -- apply existsb_element in Hex. split; auto.
        -- split; [discriminate|].
           intros (_ & [(H & _) | (_ & Hex')]); [congruence|].
           apply existsb_element in Hex'. congruence.
  - assert (Hchild : childListLevel raw nodes = None).
    { unfold childListLevel.
      destruct (String.eqb_spec (mutationType raw) "childList");
        [contradiction | reflexivity]. }
    rewrite Hchild.
    destruct (attributeLevel raw) as [l|] eqn:Hattr.
    + destruct (attributeLevel_cases raw) as [H3 | Hn]; [|congruence].
      assert (l = 3) by congruence. subst l.
      apply attributeLevel_iff in Hattr. split; auto.
    + split; [discriminate|].
      intros (_ & [H | (H & _)]); [|contradiction].
      apply attributeLevel_iff in H. congruence.
Qed.

End ClassifierTable.

Section XPathFacts.
Import XPath.
Import InjectedScript.

Lemma climb_app (chain : list Dom.ElementData) (parts : list string) :
  climb chain parts = (climb chain [] ++ parts)%list.
Proof.
  revert parts. induction chain as [|d chain IH]; intros parts; cbn.
  - reflexivity.
  - rewrite (IH (step d :: parts)), (IH [step d]).
    now rewrite <- app_assoc.
Qed.

Lemma climb_rev (chain : list Dom.ElementData) :
  climb chain [] = rev (map step chain).
Proof.
  induction chain as [|d chain IH]; cbn; [reflexivity|].
  now rewrite climb_app, IH.
Qed.

Lemma append_empty_r (s : string) : s ++ "" = s.
Proof. induction s as [|a s IH]; cbn; [reflexivity | now rewrite IH]. Qed.

Lemma concat_pathOf (steps : list string) :
  steps <> [] -> "/" ++ String.concat "/" steps = pathOf steps.
Proof.
  induction steps as [|x rest IH]; [congruence|]. intros _.
  destruct rest as [|y rest].
  - cbn [String.concat pathOf]. now rewrite append_empty_r.
  - change (pathOf (x :: y :: rest)) with ("/" ++ x ++ pathOf (y :: rest)).
    rewrite <- IH by discriminate. reflexivity.
Qed.

Lemma pathOf_app (a b : list string) :
  pathOf (a ++ b) = pathOf a ++ pathOf b.
Proof.
  induction a as [|x a IH]; cbn; [reflexivity|].
  rewrite IH. f_equal. now rewrite append_assoc.
Qed.

Lemma getXPath_pathOf (el : Dom.Element) :
  getXPath (Some (Dom.ElementNode el)) = pathOf (rev (map step (chainOf el))).
Proof.
  unfold getXPath, chainOf. rewrite climb_rev. apply concat_pathOf.
  cbn. destruct (rev (map step (Dom.ancestors el))); discriminate.
Qed.

(** X3: the path [getXPath] gives for an element is the path of its
    parent element followed by a slash and the element's own step (its
    lower-cased name and its 1-based index among the preceding siblings
    of the same name); for an element without a parent element it is a
    slash and that step. *)
Theorem X3_getXPath_child (d parent : Dom.ElementData)
        (rest : list Dom.ElementData) :
  getXPath (Some (Dom.ElementNode (Dom.mkElement d (parent :: rest))))
  = getXPath (Some (Dom.ElementNode (Dom.mkElement parent rest)))
    ++ "/" ++ step d
  /\ getXPath (Some (Dom.ElementNode (Dom.mkElement d []))) = "/" ++ step d.
Proof.
  split.
  - rewrite !getXPath_pathOf. unfold chainOf. cbn [Dom.self Dom.ancestors].
    cbn [map rev]. rewrite pathOf_app. cbn [pathOf].
    now rewrite append_empty_r.
  - rewrite getXPath_pathOf. cbn [chainOf Dom.self Dom.ancestors map rev app
                                  pathOf].
    now rewrite append_empty_r.
Qed.

Lemma prefix_append (p s : string) : String.prefix p (p ++ s) = true.
Proof.
  induction p as [|a p IH]; cbn; [now destruct s|].
  destruct (ascii_dec a a); [exact IH | congruence].
Qed.

Lemma includes_unfold (s sub : string) :
  Js.includes s sub
  = String.prefix sub s
    || match s with
       | EmptyString => false
       | String _ rest => Js.includes rest sub
       end.
Proof. destruct s; reflexivity. Qed.

Lemma includes_skip_free (c : ascii) (x t sub : string) :
  freeOf c x = true ->
  Js.includes (x ++ t) (String c sub) = Js.includes t (String c sub).
Proof.
  induction x as [|a x IH]; cbn [String.append freeOf]; [reflexivity|].
  intros H. apply andb_true_iff in H. destruct H as [Ha Hx].
  rewrite includes_unfold. cbn [String.prefix].
  destruct (ascii_dec c a) as [-> | _].
  - rewrite Ascii.eqb_refl in Ha. discriminate.
  - cbn [orb]. now apply IH.
Qed.

Lemma prefix_name (p n tail : string) (c : ascii) :
  freeOf c p = true -> freeOf c n = true ->
  String.prefix (p ++ String c "") (n ++ String c tail) = true <-> n = p.
Proof.
  revert n. induction p as [|a p IH]; intros n Hp Hn.
  - destruct n as [|b n]; cbn.
    + destruct (ascii_dec c c); [|congruence]. destruct tail; cbn; tauto.
    + cbn in Hn. apply andb_true_iff in Hn. destruct Hn as [Hb _].
      destruct (ascii_dec c b) as [-> | _].
      * rewrite Ascii.eqb_refl in Hb. discriminate.
      * split; discriminate.
  - cbn in Hp. apply andb_true_iff in Hp. destruct Hp as [Ha Hp].
    destruct n as [|b n]; cbn.
    + destruct (ascii_dec a c) as [-> | _].
      * rewrite Ascii.eqb_refl in Ha. discriminate.
      * split; discriminate.
    + cbn in Hn. apply andb_true_iff in Hn. destruct Hn as [_ Hn].
      destruct (ascii_dec a b) as [-> | Hne].
      * rewrite (IH n Hp Hn). split; congruence.
      * split; [discriminate | congruence].
Qed.

Lemma lowerAscii_keeps (c a : ascii) :
  (nat_of_ascii c < 65 \/ 122 < nat_of_ascii c
   \/ (90 < nat_of_ascii c < 97))%nat ->
  Ascii.eqb (lowerAscii a) c = Ascii.eqb a c.
Proof.
  intros Hc. unfold lowerAscii.
  destruct ((65 <=? nat_of_ascii a)%nat && (nat_of_ascii a <=? 90)%nat)
    eqn:E; [|reflexivity].
  apply andb_true_iff in E. destruct E as [E1 E2].
  apply Nat.leb_le in E1, E2.
  destruct (Ascii.eqb_spec a c) as [-> | Hne]; [lia|].
  apply Ascii.eqb_neq. intros H.
  apply (f_equal nat_of_ascii) in H.
  rewrite nat_ascii_embedding in H by lia. lia.
Qed.

Lemma toLowerCase_free (c : ascii) (s : string) :
  (nat_of_ascii c < 65 \/ 122 < nat_of_ascii c
   \/ (90 < nat_of_ascii c < 97))%nat ->
  freeOf c (toLowerCase s) = freeOf c s.
Proof.
  intros Hc. induction s as [|a s IH]; cbn; [reflexivity|].
  now rewrite IH, lowerAscii_keeps.
Qed.

Lemma step_prefix_head (d : Dom.ElementData) (t : string) :
  plainName d ->
  String.prefix "head[" (step d ++ t) = true <-> namedHead d.
Proof.
  intros [_ Hb]. unfold step, namedHead.
  rewrite !append_assoc.
  apply (prefix_name "head" (toLowerCase (Dom.elementName d)) _ "[").
  - reflexivity.
  - rewrite toLowerCase_free; [exact Hb | cbn; lia].
Qed.

Lemma freeOf_append (c : ascii) (a b : string) :
  freeOf c (a ++ b) = freeOf c a && freeOf c b.
Proof.
  induction a as [|x a IH]; cbn; [reflexivity|].
  now rewrite IH, andb_assoc.
Qed.

Lemma ofNumber_digits (n : N) : JsString.allDigits (JsString.ofNumber n) = true.
Proof.
  unfold JsString.ofNumber. induction (N.to_uint n); cbn; auto.
Qed.

Lemma digits_free (c : ascii) (s : string) :
  JsString.isDigit c = false -> JsString.allDigits s = true ->
  freeOf c s = true.
Proof.
  intros Hc. induction s as [|a s IH]; cbn; [reflexivity|].
  intros H. apply andb_true_iff in H. destruct H as [Ha Hs].
  rewrite IH by assumption.
  destruct (Ascii.eqb_spec a c) as [-> | _]; [congruence | reflexivity].
Qed.

Lemma step_free_slash (d : Dom.ElementData) :
  plainName d -> freeOf "/" (step d) = true.
Proof.
  intros [Hs _]. unfold step. rewrite !freeOf_append.
  rewrite toLowerCase_free by (cbn; lia). rewrite Hs.
  rewrite (digits_free "/" _ eq_refl (ofNumber_digits _)). reflexivity.
Qed.

Lemma includes_pathOf (chain : list Dom.ElementData) :
  Forall plainName chain ->
  Js.includes (pathOf (map step chain)) "/head[" = true
  <-> Exists namedHead chain.
Proof.
  induction chain as [|d chain IH]; intros Hall.
  - cbn. split; [discriminate | intros H; inversion H].
  - pose proof (Forall_inv Hall) as Hd. apply Forall_inv_tail in Hall.
    cbn [map pathOf]. rewrite includes_unfold.
    change (String.prefix "/head[" ("/" ++ step d ++ pathOf (map step chain)))
      with (String.prefix "head[" (step d ++ pathOf (map step chain))).
    change (match "/" ++ step d ++ pathOf (map step chain) with
            | "" => false
            | String _ rest => Js.includes rest "/head["
            end)
      with (Js.includes (step d ++ pathOf (map step chain)) "/head[").
    rewrite (includes_skip_free "/" (step d) _ "head[" (step_free_slash d Hd)).
    rewrite orb_true_iff, (step_prefix_head d _ Hd), (IH Hall).
    split.
    + intros [H | H]; [now left | now right].
    + intros H. inversion H; subst; [now left | now right].
Qed.

(** X4: for an element whose name, and whose ancestors' names, hold no
    slash and no opening bracket, the classifier takes the path
    [getXPath] gives for in the head exactly when the element or one
    of its ancestors is named head (in any case). *)
Theorem X4_isInHead_getXPath (el : Dom.Element) :
  Forall plainName (chainOf el) ->
  MutationLevel.isInHead (getXPath (Some (Dom.ElementNode el))) = true
  <-> Exists namedHead (chainOf el).
Proof.
  intros Hall. rewrite getXPath_pathOf, <- map_rev.
  unfold MutationLevel.isInHead.
  assert (Hne : pathOf (map step (rev (chainOf el))) <> "").
  { unfold chainOf. cbn [rev].
    destruct (rev (Dom.ancestors el)); cbn; discriminate. }
  apply String.eqb_neq in Hne. rewrite Hne, orb_false_r.
  rewrite includes_pathOf by now apply Forall_rev.
  rewrite !Exists_exists. split; intros (d & Hin & H); exists d;
    (split; [|exact H]); [now apply in_rev | now apply in_rev in Hin].
Qed.

Lemma X4_isInHead_getXPath_witness :
  Forall plainName (chainOf Cases.title)
  /\ (MutationLevel.isInHead
        (getXPath (Some (Dom.ElementNode Cases.title))) = true
      <-> Exists namedHead (chainOf Cases.title)).
Proof.
  assert (H : Forall plainName (chainOf Cases.title))
    by (repeat constructor).
  split; [exact H | exact (X4_isInHead_getXPath Cases.title H)].
Defined.
End XPathFacts.

Section Observer.
Import State Async.
Import Records Entry.

(** X5: for a mutation record whose target is not an element (the text
    node of every characterData record, for one) the observer sends the
    empty target path, so the change is classified 1 and stored with
    level 1, whatever its type and its nodes are. *)
Theorem X5_non_element_target_is_noise
        (m : Dom.MutationRecord) (raw : MutationLevel.RawDomChange)
        (name : string) (text : option string) :
  Dom.target m = Dom.OtherNode name text ->
  InjectedScript.toRawChange m = Some raw ->
  MutationLevel.targetPath raw = ""
  /\ MutationLevel.computeChangeLevel raw = 1
  /\ Types.DomChange.level (PageTracer.toDomChange raw) = 1.
Proof.
  intros Ht H. unfold InjectedScript.toRawChange in H. rewrite Ht in H.
  assert (Hp : MutationLevel.targetPath raw = "").
  { destruct (String.eqb (Dom.recordType m) "attributes"
              && Js.truthy (Dom.attributeName m)); [discriminate|].
    injection H as <-. reflexivity. }
  assert (Hl : MutationLevel.computeChangeLevel raw = 1).
  { unfold MutationLevel.computeChangeLevel. rewrite Hp.
    now rewrite isInHead_empty. }
  now repeat split.
Qed.

Lemma X5_non_element_target_is_noise_witness :
  InjectedScript.toRawChange Cases.characterDataRecord
  = Some (MutationLevel.mkRaw "characterData" "" [] [] None None
                              (Some "hell") (Some "hello"))
  /\ MutationLevel.computeChangeLevel
       (MutationLevel.mkRaw "characterData" "" [] [] None None
                            (Some "hell") (Some "hello")) = 1.
Proof.
  split; [reflexivity|].
  exact (proj1 (proj2 (X5_non_element_target_is_noise
                         Cases.characterDataRecord _ "#text" (Some "hello")
                         eq_refl eq_refl))).
Defined.

(** X6: on a target whose [type] is [password], what handling a keydown
    does is the same whatever key was pressed, and what handling an
    input event does is the same whatever the field holds: the message
    carries [***] for the key, respectively for the value. *)
Theorem X6_password_input_is_masked
        (t : Dom.EventTarget) (exposed : bool)
        (key key' value value' : option string)
        (turns : list Turn) (e : Env) (w : World) :
  Dom.type t = Some "password" ->
  drive (received exposed (InjectedScript.keydownHandler (Some t) key))
        turns e w
  = drive (received exposed (InjectedScript.keydownHandler (Some t) key'))
          turns e w
  /\ drive (received exposed
              (InjectedScript.inputHandler (Some (withValue value t))))
           turns e w
     = drive (received exposed
                (InjectedScript.inputHandler (Some (withValue value' t))))
             turns e w
  /\ option_map Types.InjectedEvent.key
                (InjectedScript.keydownHandler (Some t) key)
     = Some (Some "***")
  /\ option_map Types.InjectedEvent.value
                (InjectedScript.inputHandler (Some (withValue value t)))
     = Some (Some "***").
Proof.
  intros H.
  unfold InjectedScript.keydownHandler, InjectedScript.inputHandler,
    InjectedScript.isPassword, withValue.
  cbn [Dom.type]. rewrite H. cbn [String.eqb Ascii.eqb Bool.eqb].
  repeat split.
Qed.

Lemma X6_password_input_is_masked_witness :
  option_map Types.InjectedEvent.key
             (InjectedScript.keydownHandler (Some Cases.passwordField)
                                            (Some "h"))
  = Some (Some "***").
Proof.
  exact (proj1 (proj2 (proj2 (X6_password_input_is_masked
                                Cases.passwordField true (Some "h") None
                                None None [] Scenario.env0
                                Scenario.started eq_refl)))).
Defined.

End Observer.

Section NetworkRecords.
Import Records.
Import State Async.
Import State.NetworkTracker State.PageTracer State.SessionStorage.

Lemma get_set_same {V : Type} (m : JsMap.t V) (k : string) (v : V) :
  JsMap.get (JsMap.set m k v) k = Some v.
Proof.
  induction m as [|[k' v'] m IH]; cbn.
  - now rewrite String.eqb_refl.
  - destruct (String.eqb k' k) eqn:E; cbn; rewrite E; [reflexivity | exact IH].
Qed.

Lemma appendToCurrentOp_run (event : Types.NetworkEvent) (e : Env) (w : World) :
  run (NetworkTracker.appendToCurrentOp event) e w
  = (match currentOpDir (tracer w) with
     | Some dir =>
         if String.eqb dir "" then w
         else if initialized (storage w)
              then issue (FsAppendFile (Spec.networkFile dir)
                                       (CNetwork event)) w
              else mkWorld (storage w) (tracer w)
                           (effects w ++ [ConsoleError "[NetworkTracker]"])
     | None => w
     end, Done tt).
Proof.
  unfold run, NetworkTracker.appendToCurrentOp. cbn.
  destruct (currentOpDir (tracer w)) as [d|]; cbn; [|reflexivity].
  destruct (String.eqb d ""); cbn; [reflexivity|].
  destruct (initialized (storage w)); cbn; [reflexivity|].
  now destruct w.
Qed.

(** X7: while the tab has a current operation and the storage is
    initialised, a request frame and a response frame are each appended,
    in the synchronous stretch that handles the frame, to the network
    file of that operation, with the fields of the frame (a missing
    frame id becomes the empty string); while the tab has no current
    operation nothing is written for them. *)
Theorem X7_network_records_attributed (e : Env) (w : World) :
  (forall opDir, recordingTo opDir w ->
     (forall event,
        effects (fst (run (NetworkTracker.onRequestWillBeSent event) e w))
        = (effects w
           ++ [Issued (FsAppendFile (Spec.networkFile opDir)
                                    (CNetwork (requestRecord event e w)))])
          %list)
     /\ (forall event,
           fst (run (NetworkTracker.onResponseReceived event) e w)
           = issue (FsAppendFile (Spec.networkFile opDir)
                                 (CNetwork (responseRecord event e w))) w))
  /\ (currentOpDir (tracer w) = None ->
      (forall event,
         effects (fst (run (NetworkTracker.onRequestWillBeSent event) e w))
         = effects w)
      /\ (forall event,
            fst (run (NetworkTracker.onResponseReceived event) e w) = w)).
Proof.
  split.
  - intros opDir (Hd & Hne & Hi). apply String.eqb_neq in Hne.
    split; intros event.
    + unfold run, NetworkTracker.onRequestWillBeSent. cbn.
      rewrite Hd. cbn. rewrite Hne. cbn. rewrite Hi. reflexivity.
    + unfold run, NetworkTracker.onResponseReceived. cbn.
      rewrite Hd. cbn. rewrite Hne. cbn. rewrite Hi. reflexivity.
  - intros Hd. split; intros event.
    + unfold run, NetworkTracker.onRequestWillBeSent. cbn.
      rewrite Hd. reflexivity.
    + unfold run, NetworkTracker.onResponseReceived. cbn.
      rewrite Hd. reflexivity.
Qed.

Lemma X7_network_records_attributed_witness :
  effects (fst (run (NetworkTracker.onRequestWillBeSent Scenario.sent)
                    Scenario.env0 Scenario.started))
  = (effects Scenario.started
     ++ [Issued (FsAppendFile
                   (Spec.networkFile Scenario.op1)
                   (CNetwork (requestRecord Scenario.sent Scenario.env0
                                            Scenario.started)))])%list.
Proof.
  assert (H : recordingTo Scenario.op1 Scenario.started).
  { split; [reflexivity | split; [discriminate | reflexivity]]. }
  exact (proj1 (proj1 (X7_network_records_attributed
                         Scenario.env0 Scenario.started)
                      Scenario.op1 H)
               Scenario.sent).
Defined.

Lemma onFrame_rest (f : Cdp.Frame) (e : Env) (w : World) :
  let w' := fst (run (NetworkTracker.onFrame f) e w) in
  storage w' = storage w
  /\ currentOpDir (tracer w') = currentOpDir (tracer w)
  /\ currentMutationDir (tracer w') = currentMutationDir (tracer w)
  /\ stopped (tracer w') = stopped (tracer w)
  /\ config (tracer w') = config (tracer w).
Proof.
  cbv zeta.
  destruct f as [event | event | event];
    unfold run, NetworkTracker.onFrame, NetworkTracker.onRequestWillBeSent,
      NetworkTracker.onResponseReceived, NetworkTracker.onLoadingFinished;
    cbn;
    (destruct (currentOpDir (tracer w)) as [d|] eqn:Hd; cbn;
     [|rewrite ?Hd; repeat split]);
    (destruct (String.eqb d ""); cbn; [rewrite ?Hd; repeat split|]);
    destruct (initialized (storage w)); cbn; rewrite ?Hd; repeat split.
Qed.

Lemma responses_keep (events : list (Cdp.ResponseReceived.t * Env))
      (w : World) :
  let w' := NetworkTracker.deliver (responses events) w in
  networkTracker (tracer w') = networkTracker (tracer w)
  /\ storage w' = storage w
  /\ currentOpDir (tracer w') = currentOpDir (tracer w).
Proof.
  cbv zeta. revert w. induction events as [|[r e1] events IH]; intros w.
  - repeat split.
  - cbn [responses map NetworkTracker.deliver fst snd quiet meanwhile env].
    destruct (IH (fst (run (NetworkTracker.onFrame (Cdp.responseReceived r))
                           e1 w))) as (H1 & H2 & H3).
    fold (responses events). rewrite H1, H2, H3.
    destruct (onFrame_rest (Cdp.responseReceived r) e1 w) as (Hs & Ho & _).
    rewrite Hs, Ho. cbn [NetworkTracker.onFrame].
    now rewrite responseReceived_tracker.
Qed.

Lemma loadingFinished_effects (event : Cdp.LoadingFinished.t) (e : Env)
      (w : World) (opDir : string) :
  recordingTo opDir w ->
  let pending := JsMap.get (Spec.pendingOf w)
                           (Cdp.LoadingFinished.requestId event) in
  effects (fst (run (NetworkTracker.onLoadingFinished event) e w))
  = (effects w
     ++ [Issued (FsAppendFile
                   (Spec.networkFile opDir)
                   (CNetwork
                      (Types.network_finished
                         (Spec.finishedRecord
                            event e w
                            (NetworkTracker.orEmpty
                               (option_map PendingRequest.url pending))
                            (NetworkTracker.orEmpty
                               (option_map PendingRequest.frameId
                                           pending))))))])%list.
Proof.
  intros (Hd & Hne & Hi). apply String.eqb_neq in Hne. cbv zeta.
  unfold run, NetworkTracker.onLoadingFinished. cbn.
  rewrite Hd. cbn. rewrite Hne. cbn. rewrite Hi. reflexivity.
Qed.

(** X8: a request frame followed, after any number of response frames,
    by the finished frame of the same request id gives a finished
    record that carries the url and the frame id of the request; it
    uses the entry up, so a second finished frame for that id gives a
    record with both fields empty.  Holds for every buffer size. *)
Theorem X8_request_finished_round_trip
        (sent : Cdp.RequestWillBeSent.t)
        (between : list (Cdp.ResponseReceived.t * Env))
        (done : Cdp.LoadingFinished.t) (e1 e2 e3 : Env) (w : World)
        (opDir : string) :
  Cdp.LoadingFinished.requestId done = Cdp.RequestWillBeSent.requestId sent ->
  recordingTo opDir w ->
  let w1 := fst (run (NetworkTracker.onRequestWillBeSent sent) e1 w) in
  let w2 := NetworkTracker.deliver (responses between) w1 in
  let w3 := fst (run (NetworkTracker.onLoadingFinished done) e2 w2) in
  let w4 := fst (run (NetworkTracker.onLoadingFinished done) e3 w3) in
  JsMap.get (Spec.pendingOf w2) (Cdp.RequestWillBeSent.requestId sent)
  = Some (NetworkTracker.pendingEntry sent)
  /\ effects w3
     = (effects w2
        ++ [Issued (FsAppendFile
                      (Spec.networkFile opDir)
                      (CNetwork
                         (Types.network_finished
                            (Spec.finishedRecord
                               done e2 w
                               (Cdp.Request.url
                                  (Cdp.RequestWillBeSent.request sent))
                               (NetworkTracker.orEmpty
                                  (Cdp.RequestWillBeSent.frameId sent))))))])
       %list
  /\ effects w4
     = (effects w3
        ++ [Issued (FsAppendFile
                      (Spec.networkFile opDir)
                      (CNetwork
                         (Types.network_finished
                            (Spec.finishedRecord done e3 w "" ""))))])%list.
Proof.
  intros Hid (Hd & Hne & Hi). cbv zeta.
  set (w1 := fst (run (NetworkTracker.onRequestWillBeSent sent) e1 w)).
  set (w2 := NetworkTracker.deliver (responses between) w1).
  set (w3 := fst (run (NetworkTracker.onLoadingFinished done) e2 w2)).
  pose proof (onFrame_rest (Cdp.requestWillBeSent sent) e1 w) as H1.
  cbn [NetworkTracker.onFrame] in H1. destruct H1 as (Hs1 & Ho1 & _).
  destruct (responses_keep between w1) as (Ht2 & Hs2 & Ho2).
  fold w1 in Hs1, Ho1. fold w2 in Ht2, Hs2, Ho2.
  assert (Hget : JsMap.get (Spec.pendingOf w2)
                           (Cdp.RequestWillBeSent.requestId sent)
                 = Some (NetworkTracker.pendingEntry sent)).
  { unfold Spec.pendingOf. rewrite Ht2. unfold w1.
    rewrite requestWillBeSent_tracker. cbv zeta.
    cbn [NetworkTracker.setPending pendingRequests]. apply get_set_same. }
  assert (Hrec2 : recordingTo opDir w2).
  { unfold recordingTo. rewrite Ho2, Ho1, Hs2, Hs1. auto. }
  pose proof (onFrame_rest (Cdp.loadingFinished done) e2 w2) as H3.
  cbn [NetworkTracker.onFrame] in H3. destruct H3 as (Hs3 & Ho3 & _).
  fold w3 in Hs3, Ho3.
  assert (Hsid : forall e' url frame,
            Spec.finishedRecord done e' w2 url frame
            = Spec.finishedRecord done e' w url frame).
  { intros. unfold Spec.finishedRecord. now rewrite Hs2, Hs1. }
  split; [exact Hget | split].
  - unfold w3. rewrite (loadingFinished_effects done e2 w2 opDir Hrec2).
    cbv zeta. rewrite Hid, Hget, Hsid. reflexivity.
  - assert (Hrec3 : recordingTo opDir w3).
    { destruct Hrec2 as (Hd2 & Hne2 & Hi2).
      unfold recordingTo. rewrite Ho3, Hs3. auto. }
    assert (Hnone : JsMap.get (Spec.pendingOf w3)
                              (Cdp.LoadingFinished.requestId done) = None).
    { unfold w3, Spec.pendingOf. rewrite loadingFinished_tracker.
      cbn [NetworkTracker.setPending pendingRequests]. apply get_delete. }
    rewrite (loadingFinished_effects done e3 w3 opDir Hrec3). cbv zeta.
    rewrite Hnone. cbn [option_map NetworkTracker.orEmpty].
    unfold Spec.finishedRecord. now rewrite Hs3, Hs2, Hs1.
Qed.

Lemma X8_request_finished_round_trip_witness :
  let w1 := fst (run (NetworkTracker.onRequestWillBeSent Scenario.sent)
                     Scenario.env0 Scenario.started) in
  let w2 := NetworkTracker.deliver (responses []) w1 in
  JsMap.get (Spec.pendingOf w2)
            (Cdp.RequestWillBeSent.requestId Scenario.sent)
  = Some (NetworkTracker.pendingEntry Scenario.sent).
Proof.
  assert (H : recordingTo Scenario.op1 Scenario.started).
  { split; [reflexivity | split; [discriminate | reflexivity]]. }
  exact (proj1 (X8_request_finished_round_trip
                  Scenario.sent [] Scenario.finished Scenario.env0
                  Scenario.env0 Scenario.env0 Scenario.started
                  Scenario.op1 eq_refl H)).
Defined.

(** A size of zero or less is reached by every map. *)
Lemma nonpositive_always_full (b : Js.Number) (z : Z) :
  Js.le b (Js.ofZ 0) = true -> 0 <= z -> Js.ge (Js.ofZ z) b = true.
Proof.
  intros Hb Hz. unfold Js.ge, Js.ofZ in *.
  destruct b as [| |q|]; cbn in *; try discriminate; [reflexivity|].
  apply Qle_bool_iff in Hb. apply Qle_bool_iff.
  eapply Qle_trans; [exact Hb|]. now rewrite <- Zle_Qle.
Qed.

(** X9: a tracker built with a buffer size of zero or less never holds
    more than one pending request: every request frame finds the map
    full, evicts what is there, and leaves its own entry as the only
    one. *)
Theorem X9_unbuffered_tracker_keeps_one (frames : list (Cdp.Frame * Turn))
        (w0 : World) :
  Js.le (bufferSize (networkTracker (tracer w0))) (Js.ofZ 0) = true ->
  Spec.pendingOf w0 = [] ->
  Forall (fun ft => Spec.leavesTracker (snd ft)) frames ->
  let w := NetworkTracker.deliver frames w0 in
  atMostOne w
  /\ forall event e,
       Spec.pendingOf
         (fst (run (NetworkTracker.onRequestWillBeSent event) e w))
       = [(Cdp.RequestWillBeSent.requestId event,
           NetworkTracker.pendingEntry event)].
Proof.
  intros Hbuf Hempty Hpriv. cbv zeta.
  assert (Hstep : forall w,
            Js.le (bufferSize (networkTracker (tracer w))) (Js.ofZ 0)
            = true ->
            atMostOne w ->
            forall event e,
              Spec.pendingOf
                (fst (run (NetworkTracker.onRequestWillBeSent event) e w))
              = [(Cdp.RequestWillBeSent.requestId event,
                  NetworkTracker.pendingEntry event)]).
  { intros w Hb Hone event e. unfold Spec.pendingOf, atMostOne in *.
    rewrite requestWillBeSent_tracker. cbv zeta.
    cbn [NetworkTracker.setPending pendingRequests].
    unfold NetworkTracker.evictIfFull.
    rewrite (nonpositive_always_full _ _ Hb)
      by (unfold JsMap.size, Js.len; lia).
    unfold Spec.pendingOf in Hone.
    destruct (pendingRequests (networkTracker (tracer w)))
      as [|[k v] [|kv rest]] eqn:E.
    - cbn [JsMap.firstKey]. rewrite E. reflexivity.
    - cbn. rewrite String.eqb_refl. reflexivity.
    - cbn in Hone. lia. }
  assert (Hinv : forall frames w,
            Forall (fun ft => Spec.leavesTracker (snd ft)) frames ->
            Js.le (bufferSize (networkTracker (tracer w))) (Js.ofZ 0)
            = true ->
            atMostOne w ->
            Js.le (bufferSize
                     (networkTracker
                        (tracer (NetworkTracker.deliver frames w))))
                  (Js.ofZ 0) = true
            /\ atMostOne (NetworkTracker.deliver frames w)).
  { clear frames Hpriv. induction frames as [|[f t] frames IH];
      intros w Hpriv Hb Hone; [now split|].
    cbn [NetworkTracker.deliver].
    pose proof (Forall_inv Hpriv w) as Ht. cbn [snd] in Ht.
    apply Forall_inv_tail in Hpriv.
    apply IH; [exact Hpriv | |].
    - destruct f as [event | event | event]; cbn [NetworkTracker.onFrame].
      + rewrite requestWillBeSent_tracker. cbv zeta.
        cbn [NetworkTracker.setPending bufferSize].
        unfold NetworkTracker.evictIfFull.
        destruct (Js.ge _ _); [|now rewrite Ht].
        destruct (JsMap.firstKey _); cbn; now rewrite Ht.
      + rewrite responseReceived_tracker. now rewrite Ht.
      + rewrite loadingFinished_tracker. cbn. now rewrite Ht.
    - assert (Hone' : atMostOne (meanwhile t w)).
      { unfold atMostOne, Spec.pendingOf in *. now rewrite Ht. }
      assert (Hb' : Js.le (bufferSize
                             (networkTracker (tracer (meanwhile t w))))
                          (Js.ofZ 0) = true)
        by now rewrite Ht.
      destruct f as [event | event | event]; cbn [NetworkTracker.onFrame].
      + unfold atMostOne. rewrite (Hstep _ Hb' Hone'). cbn. lia.
      + unfold atMostOne, Spec.pendingOf in *.
        now rewrite responseReceived_tracker.
      + unfold atMostOne, Spec.pendingOf in *.
        rewrite loadingFinished_tracker.
        cbn [NetworkTracker.setPending pendingRequests].
        pose proof (delete_length
                      (pendingRequests
                         (networkTracker (tracer (meanwhile t w))))
                      (Cdp.LoadingFinished.requestId event)). lia. }
  destruct (Hinv frames w0 Hpriv Hbuf) as [Hb Hone].
  { unfold atMostOne. rewrite Hempty. cbn. lia. }
  split; [exact Hone|]. intros event e. now apply Hstep.
Qed.

Lemma X9_unbuffered_tracker_keeps_one_witness :
  atMostOne (NetworkTracker.deliver Scenario.twoRequests Cases.noBuffer).
Proof.
  assert (Hquiet : Forall (fun ft => Spec.leavesTracker (snd ft))
                          Scenario.twoRequests).
  { repeat constructor; apply quiet_leavesTracker. }
  exact (proj1 (X9_unbuffered_tracker_keeps_one
                  Scenario.twoRequests Cases.noBuffer
                  eq_refl eq_refl Hquiet)).
Defined.

End NetworkRecords.

Section StorageDirectories.
Import Records XPath.
Import State Async.
Import State.SessionStorage.

Lemma allDigits_append (a b : string) :
  JsString.allDigits (a ++ b) = JsString.allDigits a && JsString.allDigits b.
Proof.
  induction a as [|c a IH]; cbn; [reflexivity|].
  now rewrite IH, andb_assoc.
Qed.

Lemma repeat_zero_digits (k : nat) :
  JsString.allDigits (JsString.repeat "0" k) = true.
Proof. induction k as [|k IH]; cbn; auto. Qed.

Lemma padStart_digits (n : N) (width : nat) :
  JsString.allDigits (JsString.padStart (JsString.ofNumber n) width "0")
  = true.
Proof.
  unfold JsString.padStart.
  now rewrite allDigits_append, repeat_zero_digits, ofNumber_digits.
Qed.

Lemma padStart_inj (n m : N) (width : nat) :
  JsString.padStart (JsString.ofNumber n) width "0"
  = JsString.padStart (JsString.ofNumber m) width "0" ->
  n = m.
Proof.
  intros H.
  apply (f_equal (fun s => option_map N.of_uint (NilEmpty.uint_of_string s)))
    in H.
  unfold JsString.padStart in H. rewrite !of_uint_leading_zeros in H.
  unfold JsString.ofNumber in H. rewrite !NilEmpty.usu in H. cbn in H.
  rewrite !DecimalN.Unsigned.of_to in H. congruence.
Qed.

Lemma execEvDigits_unfold (s : string) :
  JsString.execEvDigits s
  = if hereEv s then Some s
    else match s with
         | EmptyString => None
         | String _ rest => JsString.execEvDigits rest
         end.
Proof. destruct s; reflexivity. Qed.

Lemma hereEv_cons (c : ascii) (rest : string) :
  hereEv (String c rest)
  = Ascii.eqb c "e"
    && match rest with
       | String c2 r => Ascii.eqb c2 "v" && negb (String.eqb r "")
                        && JsString.allDigits r
       | EmptyString => false
       end.
Proof.
  destruct c as [[] [] [] [] [] [] [] []]; try reflexivity.
  destruct rest as [|c2 r]; [reflexivity|].
  destruct c2 as [[] [] [] [] [] [] [] []]; try reflexivity.
  destruct r; reflexivity.
Qed.

Lemma allDigits_dash (t x : string) :
  JsString.allDigits (t ++ String "-" x) = false.
Proof.
  rewrite allDigits_append. cbn. apply andb_false_r.
Qed.

Lemma hereEv_before_dash (t x : string) :
  hereEv (t ++ String "-" x) = false.
Proof.
  destruct t as [|c t]; [reflexivity|].
  cbn [String.append]. rewrite hereEv_cons.
  destruct t as [|c2 t]; cbn [String.append].
  - now rewrite andb_false_r.
  - rewrite allDigits_dash. now rewrite !andb_false_r.
Qed.

Lemma execEvDigits_token (prefix digits : string) :
  digits <> "" -> JsString.allDigits digits = true ->
  JsString.execEvDigits (prefix ++ "-ev" ++ digits) = Some ("ev" ++ digits).
Proof.
  intros Hne Hd. induction prefix as [|c prefix IH].
  - cbn [String.append]. rewrite execEvDigits_unfold.
    change (hereEv (String "-" (String "e" (String "v" digits)))) with false.
    cbv iota. rewrite execEvDigits_unfold.
    destruct digits as [|d ds]; [congruence|].
    cbn in Hd. cbn [hereEv]. now rewrite Hd.
  - pose proof (hereEv_before_dash (String c prefix) ("ev" ++ digits)) as Hh.
    cbn [String.append] in Hh, IH |- *.
    rewrite execEvDigits_unfold, Hh. exact IH.
Qed.

Lemma split_nonempty (s : string) : Path.split s <> [].
Proof.
  destruct s as [|c s]; cbn; [discriminate|].
  destruct (Ascii.eqb c "/"); [discriminate|].
  destruct (Path.split s); discriminate.
Qed.

Lemma split_free (d : string) : freeOf "/" d = true -> Path.split d = [d].
Proof.
  induction d as [|c d IH]; cbn; [reflexivity|].
  intros H. apply andb_true_iff in H. destruct H as [Hc Hd].
  apply negb_true_iff in Hc. rewrite Hc, (IH Hd). reflexivity.
Qed.

Lemma split_append (p q : string) :
  Path.split (p ++ String "/" q) = (Path.split p ++ Path.split q)%list.
Proof.
  induction p as [|c p IH]; cbn [String.append Path.split].
  - reflexivity.
  - rewrite IH. destruct (Ascii.eqb c "/"); [reflexivity|].
    pose proof (split_nonempty p) as Hne.
    destruct (Path.split p) as [|piece pieces]; [congruence | reflexivity].
Qed.

Lemma kept_snoc (p d : string) (a : bool) :
  d <> "" -> d <> "." -> d <> ".." -> freeOf "/" d = true ->
  Path.kept (p ++ String "/" d) a = d :: Path.kept p a.
Proof.
  intros H0 H1 H2 Hf. unfold Path.kept.
  rewrite split_append, fold_left_app, (split_free d Hf).
  cbn [fold_left]. unfold Path.visit.
  apply String.eqb_neq in H0, H1, H2. now rewrite H0, H1, H2.
Qed.

Lemma visit_segments (a : bool) (res : list string) (segment : string) :
  Forall (fun s => s <> "") res ->
  Forall (fun s => s <> "") (Path.visit a res segment).
Proof.
  intros H. unfold Path.visit.
  destruct (String.eqb_spec segment "") as [-> | Hne]; [exact H|].
  cbn [orb]. destruct (String.eqb segment "."); [exact H|].
  destruct (String.eqb segment "..").
  - destruct res as [|last before].
    + destruct a; repeat constructor. discriminate.
    + destruct (String.eqb last "..").
      * destruct a; [constructor; [discriminate | exact H] | exact H].
      * now apply Forall_inv_tail in H.
  - now constructor.
Qed.

Lemma kept_segments (p : string) (a : bool) :
  Forall (fun s => s <> "") (Path.kept p a).
Proof.
  unfold Path.kept.
  assert (H : forall segments res,
             Forall (fun s => s <> "") res ->
             Forall (fun s => s <> "")
                    (fold_left (Path.visit a) segments res)).
  { induction segments as [|x xs IH]; intros res Hres; [exact Hres|].
    cbn. apply IH. now apply visit_segments. }
  apply H. constructor.
Qed.

Lemma concat_snoc (l : list string) (d : string) :
  l <> [] ->
  String.concat "/" (l ++ [d]) = String.concat "/" l ++ "/" ++ d.
Proof.
  induction l as [|x l IH]; [congruence|]. intros _.
  destruct l as [|y l].
  - reflexivity.
  - change (String.concat "/" ((x :: y :: l) ++ [d]))
      with (x ++ "/" ++ String.concat "/" ((y :: l) ++ [d])).
    rewrite IH by discriminate.
    change (String.concat "/" (x :: y :: l))
      with (x ++ "/" ++ String.concat "/" (y :: l)).
    now rewrite !append_assoc.
Qed.

Lemma concat_segments (l : list string) :
  l <> [] -> Forall (fun s => s <> "") l -> String.concat "/" l <> "".
Proof.
  intros Hne Hall. destruct l as [|x l]; [congruence|].
  pose proof (Forall_inv Hall) as Hx.
  destruct x as [|c x]; [congruence|].
  destruct l; discriminate.
Qed.

Lemma endsWithSlash_append (p q : string) :
  q <> "" -> Path.endsWithSlash (p ++ q) = Path.endsWithSlash q.
Proof.
  intros Hq. induction p as [|c p IH]; [reflexivity|].
  cbn [String.append]. rewrite <- IH.
  destruct (p ++ q) as [|c' r] eqn:E; [|reflexivity].
  destruct p; cbn in E; [congruence | discriminate].
Qed.

Lemma endsWithSlash_free (d : string) :
  freeOf "/" d = true -> Path.endsWithSlash d = false.
Proof.
  induction d as [|c d IH]; [reflexivity|].
  cbn [freeOf]. intros H. apply andb_true_iff in H. destruct H as [Hc Hd].
  apply negb_true_iff in Hc.
  destruct d as [|c' d]; [exact Hc | exact (IH Hd)].
Qed.

(** Joining one more plain segment to a path that keeps a segment
    puts it after a slash. *)
Lemma normalize_snoc (p d : string) :
  p <> "" -> d <> "" -> d <> "." -> d <> ".." -> freeOf "/" d = true ->
  Path.kept p (negb (Path.isAbsolute p)) <> [] ->
  Path.endsWithSlash p = false ->
  Path.normalize (p ++ String "/" d) = Path.normalize p ++ String "/" d.
Proof.
  intros Hp H0 H1 H2 Hf Hk He. unfold Path.normalize. cbv zeta.
  assert (Habs : Path.isAbsolute (p ++ String "/" d) = Path.isAbsolute p).
  { destruct p; [congruence | reflexivity]. }
  assert (Hne : String.eqb (p ++ String "/" d) "" = false).
  { destruct p; [congruence | reflexivity]. }
  apply String.eqb_neq in Hp. rewrite Hne, Hp, Habs.
  rewrite endsWithSlash_append by discriminate.
  change (Path.endsWithSlash (String "/" d))
    with (Path.endsWithSlash ("/" ++ d)).
  rewrite endsWithSlash_append, (endsWithSlash_free d Hf), He by exact H0.
  unfold Path.normalizeString. rewrite kept_snoc by assumption.
  cbn [rev].
  set (st := Path.kept p (negb (Path.isAbsolute p))) in *.
  assert (Hrev : rev st <> []).
  { destruct st; [congruence|]. cbn. destruct (rev st); discriminate. }
  rewrite concat_snoc by exact Hrev.
  assert (Hc : String.concat "/" (rev st) <> "").
  { apply concat_segments; [exact Hrev|].
    apply Forall_rev. apply kept_segments. }
  apply String.eqb_neq in Hc. rewrite Hc.
  assert (Hc' : String.eqb (String.concat "/" (rev st) ++ "/" ++ d) ""
                = false).
  { apply String.eqb_neq. destruct (String.concat "/" (rev st));
      discriminate. }
  rewrite Hc'.
  destruct (Path.isAbsolute p); cbn [String.append]; [f_equal|];
    now rewrite ?append_assoc.
Qed.

(** A directory joined below [ops] in a session directory. *)
Lemma join_below_ops (dir d : string) :
  d <> "" -> d <> "." -> d <> ".." -> freeOf "/" d = true ->
  Path.join [dir; "ops"; d] = Path.join [dir; "ops"] ++ String "/" d.
Proof.
  intros H0 H1 H2 Hf. unfold Path.join. cbv zeta. cbn [filter].
  pose proof H0 as H0'. apply String.eqb_neq in H0'. rewrite H0'.
  cbn [negb String.eqb Ascii.eqb Bool.eqb andb].
  destruct (String.eqb_spec dir "") as [-> | Hdir]; cbn [negb].
  - cbn [String.concat].
    change ("ops" ++ "/" ++ d) with ("ops" ++ String "/" d).
    rewrite (normalize_snoc "ops" d); try assumption;
      try discriminate; reflexivity.
  - cbn [String.concat].
    assert (E2 : String.eqb (dir ++ "/" ++ "ops") "" = false).
    { destruct dir; [congruence | reflexivity]. }
    assert (E3 : String.eqb (dir ++ "/" ++ "ops" ++ "/" ++ d) "" = false).
    { destruct dir; [congruence | reflexivity]. }
    rewrite E2, E3.
    change (dir ++ "/" ++ "ops" ++ "/" ++ d)
      with (dir ++ "/" ++ "ops" ++ String "/" d).
    rewrite <- (append_assoc "/" "ops"), <- append_assoc.
    apply normalize_snoc; try assumption.
    + destruct dir; [congruence | discriminate].
    + assert (Ha : Path.isAbsolute (dir ++ "/" ++ "ops")
                   = Path.isAbsolute dir).
      { destruct dir; [congruence | reflexivity]. }
      rewrite Ha.
      change (dir ++ "/" ++ "ops") with (dir ++ String "/" "ops").
      rewrite kept_snoc; try discriminate. reflexivity.
    + rewrite endsWithSlash_append by discriminate. reflexivity.
Qed.

Lemma dirName_plain (n : N) (frameType type : string) :
  freeOf "/" frameType = true -> freeOf "/" type = true ->
  let d := evToken n ++ "-" ++ frameType ++ "-" ++ type in
  d <> "" /\ d <> "." /\ d <> ".." /\ freeOf "/" d = true.
Proof.
  intros Hf Ht. cbv zeta. unfold evToken.
  repeat split; try discriminate.
  rewrite !freeOf_append, Hf, Ht.
  rewrite (digits_free "/" _ eq_refl (padStart_digits n 6)). reflexivity.
Qed.

Lemma opDirFor_spelled (s : SessionStorage.t) (n : N)
      (frameType type : string) :
  freeOf "/" frameType = true -> freeOf "/" type = true ->
  PageTracer.opDirFor s n frameType type
  = Path.join [sessionDir s; "ops"]
    ++ "/" ++ evToken n ++ "-" ++ frameType ++ "-" ++ type.
Proof.
  intros Hf Ht.
  destruct (dirName_plain n frameType type Hf Ht) as (H0 & H1 & H2 & Hd).
  unfold PageTracer.opDirFor, Storage.eventIdOf. cbv zeta.
  rewrite execEvDigits_token.
  - fold (evToken n). now apply join_below_ops.
  - apply padStart_nonempty, ofNumber_nonempty.
  - apply padStart_digits.
Qed.

Lemma append_inv_head (a b c : string) : a ++ b = a ++ c -> b = c.
Proof.
  induction a as [|x a IH]; cbn; [trivial|].
  intros H. inversion H. auto.
Qed.

Lemma digits_span (a b x y : string) :
  JsString.allDigits a = true -> JsString.allDigits b = true ->
  a ++ String "-" x = b ++ String "-" y -> a = b.
Proof.
  revert b. induction a as [|c a IH]; intros b Ha Hb H.
  - destruct b as [|d b]; [reflexivity|].
    cbn in H, Hb. inversion H; subst d. discriminate.
  - destruct b as [|d b].
    + cbn in H, Ha. inversion H; subst c. discriminate.
    + cbn in H, Ha, Hb. inversion H; subst d.
      apply andb_true_iff in Ha, Hb. f_equal.
      apply (IH b); tauto.
Qed.

(** X10: for a frame type and an operation type that hold no slash,
    the directory made for the identifier with counter [n] is the one
    named [ev<n, six digits at least>-<frameType>-<type>] right below
    [ops] in the session directory, whatever the session id looks
    like; two such directories of one session are equal only if their
    counters are, so operations with different identifiers never share
    a directory. *)
Theorem X10_directories_follow_counters (s : SessionStorage.t) (n m : N)
        (frameType frameType' type type' : string) :
  freeOf "/" frameType = true -> freeOf "/" type = true ->
  freeOf "/" frameType' = true -> freeOf "/" type' = true ->
  PageTracer.opDirFor s n frameType type
  = Path.join [sessionDir s; "ops"]
    ++ "/" ++ evToken n ++ "-" ++ frameType ++ "-" ++ type
  /\ (PageTracer.opDirFor s n frameType type
      = PageTracer.opDirFor s m frameType' type' -> n = m).
Proof.
  intros Hf Ht Hf' Ht'. split; [now apply opDirFor_spelled|].
  rewrite !opDirFor_spelled by assumption. intros H.
  apply append_inv_head in H. apply (append_inv_head "/") in H.
  unfold evToken in H. apply (append_inv_head "ev") in H.
  rewrite <- !append_assoc in H.
  change ("-" ++ ?x) with (String "-" x) in H.
  apply (padStart_inj n m 6).
  eapply digits_span; [apply padStart_digits | apply padStart_digits |].
  rewrite !append_assoc in H. exact H.
Qed.

Lemma X10_directories_follow_counters_witness :
  PageTracer.opDirFor (storage Scenario.started) 2 "main" "click"
  = Path.join [sessionDir (storage Scenario.started); "ops"]
    ++ "/" ++ evToken 2 ++ "-" ++ "main" ++ "-" ++ "click".
Proof.
  exact (proj1 (X10_directories_follow_counters
                  (storage Scenario.started) 2 3 "main" "main" "click"
                  "click" eq_refl eq_refl eq_refl eq_refl)).
Defined.

(** X11: on an initialised storage [createOpDir] asks for the directory
    in its first stretch; when the platform has made it, the call
    returns its path and the operation count is one more than it then
    is; when the platform refuses, the call fails with the I/O error
    and the count is left as it is. *)
Theorem X11_createOpDir_outcomes (n : N) (frameType type : string) (t : Turn)
        (e : Env) (w : World) :
  initialized (storage w) = true ->
  let call := Storage.createOpDir (Storage.eventIdOf (sessionId (storage w)) n)
                                  frameType type in
  let opDir := PageTracer.opDirFor (storage w) n frameType type in
  let waiting := meanwhile t (issue (FsMkdir opDir) w) in
  fst (run call e w) = issue (FsMkdir opDir) w
  /\ (forall payload, settled t = Fulfilled payload ->
        drive call [t] e w
        = (mkWorld (Storage.setOpCount (opCount (storage waiting) + 1)
                                       (storage waiting))
                   (tracer waiting) (effects waiting),
           Done opDir))
  /\ (settled t = Rejected ->
      drive call [t] e w = (waiting, Failed IoError)).
Proof.
  intros Hi. cbv zeta. unfold run, Storage.createOpDir, PageTracer.opDirFor.
  sym_goal. rewrite Hi. sym_goal. repeat split.
  - intros payload ->. reflexivity.
  - intros ->. reflexivity.
Qed.

Lemma X11_createOpDir_outcomes_witness :
  fst (run (Storage.createOpDir
              (Storage.eventIdOf
                 (sessionId (storage Scenario.ready)) 1)
              "main" "navigation")
           Scenario.env0 Scenario.ready)
  = issue (FsMkdir (PageTracer.opDirFor (storage Scenario.ready) 1
                                        "main" "navigation"))
          Scenario.ready.
Proof.
  exact (proj1 (X11_createOpDir_outcomes
                  1 "main" "navigation" Scenario.ok Scenario.env0
                  Scenario.ready eq_refl)).
Defined.

End StorageDirectories.

Section Keeps.
Import State Async Trace.

Lemma keeps_drive (I : World -> Prop) {A : Type} (p : Prog A) :
  keeps I p ->
  forall turns e w,
    I w -> undisturbing I turns -> I (fst (drive p turns e w)).
Proof.
  induction p as [A a | A err | A k IH | A w0 k IH | A k IH | A r k IH
                  | A p' IHp k IH];
    cbn [keeps drive]; intros Hk turns e w Hw Hturns.
  - exact Hw.
  - exact Hw.
  - apply IH; auto.
  - destruct Hk as [H0 Hk]. apply IH; auto.
  - apply IH; auto.
  - destruct Hk as [Hr Hk]. destruct turns as [|t rest]; cbn [fst].
    + auto.
    + apply IH; [apply Hk | | now apply Forall_inv_tail in Hturns].
      apply (Forall_inv Hturns). auto.
  - destruct Hk as [Hp Hk]. apply IH; auto.
    apply IHp; auto. constructor.
Qed.

Lemma keeps_bind (I : World -> Prop) {A B : Type} (p : Prog A)
      (f : A -> Prog B) :
  keeps I p -> (forall a, keeps I (f a)) -> keeps I (bind p f).
Proof.
  intros Hp Hf.
  induction p as [A a | A err | A k IH | A w0 k IH | A k IH | A r k IH
                  | A p' _ k IH]; cbn in *; auto.
  - destruct Hp. split; auto.
  - destruct Hp as [Hr Hk]. split; auto.
  - destruct Hp. split; auto.
Qed.

Lemma keeps_try_catch (I : World -> Prop) {A : Type} (p : Prog A)
      (h : Error -> Prog A) :
  keeps I p -> (forall err, keeps I (h err)) -> keeps I (try_catch p h).
Proof.
  intros Hp Hh.
  induction p as [A a | A err | A k IH | A w0 k IH | A k IH | A r k IH
                  | A p' _ k IH]; cbn in *; auto.
  - destruct Hp. split; auto.
  - destruct Hp as [Hr Hk]. split; auto.
  - destruct Hp. split; auto.
Qed.

End Keeps.

Ltac keeps_step solve_inv :=
  first
    [ exact I
    | apply keeps_bind
    | apply keeps_try_catch
    | match goal with
      | |- Trace.keeps _ (if ?b then _ else _) => destruct b eqn:?
      | |- Trace.keeps _ (match ?x with _ => _ end) => destruct x eqn:?
      | |- Trace.keeps _ _ => progress cbn [Trace.keeps]
      | |- Trace.keeps _ _ => progress cbn
      | |- _ /\ _ => split
      | |- forall _, _ => intro
      end
    | solve_inv ].

Section Invariants.
Import Entry.
Import State Async Trace.
Import State.PageTracer State.SessionStorage.

Ltac inv_initialised :=
  idtac;
  match goal with
  | |- initialised _ =>
      unfold initialised in *; cbn; first [assumption | reflexivity]
  end.

Ltac unfold_handlers :=
  unfold handlerOf, PageTracer.onInjectedEvent, PageTracer.onFrameNavigated,
    PageTracer.logged, PageTracer.handleInjectedEvent,
    PageTracer.handleNavigation, PageTracer.recordNavigation,
    PageTracer.saveUserAction, PageTracer.saveMutation,
    PageTracer.takeScreenshot, PageTracer.captureSnapshot, PageTracer.stop,
    PageTracer.start, NetworkTracker.setup, NetworkTracker.onFrame,
    NetworkTracker.onRequestWillBeSent, NetworkTracker.onResponseReceived,
    NetworkTracker.onLoadingFinished, NetworkTracker.appendToCurrentOp,
    Storage.invoke, Storage.initialize, Storage.createOpDir,
    Storage.writeOpEvent, Storage.writeOpSnapshot, Storage.appendOpMutation,
    Storage.appendOpNetwork, Storage.writeOpScreenshot.

Lemma handlers_keep_initialised (c : Call) : keeps initialised (handlerOf c).
Proof.
  destruct c as [parsed | url m | | | metadata | c | f];
    [ | | | | | destruct c | destruct f ];
    unfold_handlers; repeat keeps_step ltac:(inv_initialised).
Qed.

Ltac inv_tracker :=
  idtac;
  match goal with
  | |- trackerIs _ _ => unfold trackerIs in *; cbn; assumption
  end.

Lemma handlers_keep_tracker (n : NetworkTracker.t) (c : Call) :
  isFrameCall c = false -> keeps (trackerIs n) (handlerOf c).
Proof.
  destruct c as [parsed | url m | | | metadata | c | f];
    [ | | | | | destruct c | discriminate ]; intros _;
    unfold_handlers; repeat keeps_step ltac:(inv_tracker).
Qed.

Ltac inv_noshots :=
  idtac;
  match goal with
  | H : noScreenshots _ |- noScreenshots _ =>
      let Hc := fresh in
      let Hf := fresh in
      destruct H as [Hc Hf]; split;
      [ cbn; exact Hc
      | cbn; rewrite ?forallb_app, Hf; reflexivity ]
  end.

Ltac noshots_step :=
  first
    [ match goal with
      | H : noScreenshots ?w
        |- context [Config.screenshotEnabled (config (tracer ?w))] =>
          rewrite (proj1 H), ?andb_false_r
      | |- Trace.keeps _ _ => progress cbn
      end
    | keeps_step ltac:(inv_noshots) ].

Lemma handlers_take_no_screenshots (c : Call) :
  isScreenshotCall c = false -> keeps noScreenshots (handlerOf c).
Proof.
  destruct c as [parsed | url m | | | metadata | c | f];
    [ | | | | | destruct c | destruct f ]; try discriminate; intros _;
    unfold_handlers; repeat noshots_step.
Qed.

(** X12: no entry point of the tab-side code (the handlers of injected
    events, navigations and network frames, [start], [stop],
    [initialize] and the writing methods) ever clears the storage's
    initialised flag, however far it runs and whatever it is
    interleaved with, as long as what it is interleaved with does not
    clear it either; so each of them, run as far as one likes, is
    itself something the others can be interleaved with. *)
Theorem X12_entry_points_keep_initialised (c : Call) (turns : list Turn)
        (e : Env) (w : World) :
  initialised w -> undisturbing initialised turns ->
  initialised (fst (drive (handlerOf c) turns e w))
  /\ forall r e',
       Spec.keepsInitialized
         (mkTurn (fun w0 => fst (drive (handlerOf c) turns e w0)) r e').
Proof.
  intros Hw Hturns. split.
  - now apply keeps_drive; [apply handlers_keep_initialised | |].
  - intros r e' w0 H0. cbn [meanwhile].
    now apply (keeps_drive initialised);
      [apply handlers_keep_initialised | |].
Qed.

Lemma X12_entry_points_keep_initialised_witness :
  initialised
    (fst (drive (handlerOf (InjectedCall (Some Scenario.click)))
                [Scenario.ok] Scenario.env0 Scenario.started)).
Proof.
  assert (Hturns : undisturbing initialised [Scenario.ok]).
  { constructor; [intros w H; exact H | constructor]. }
  exact (proj1 (X12_entry_points_keep_initialised
                  (InjectedCall (Some Scenario.click)) [Scenario.ok]
                  Scenario.env0 Scenario.started eq_refl Hturns)).
Defined.

(** X13: only the three network listeners change the network tracker:
    every other entry point, run as far as one likes, leaves the
    pending map and the buffer size as they were. *)
Theorem X13_entry_points_leave_tracker (c : Call) (turns : list Turn)
        (e : Env) (w : World) :
  isFrameCall c = false ->
  Forall Spec.leavesTracker turns ->
  networkTracker (tracer (fst (drive (handlerOf c) turns e w)))
  = networkTracker (tracer w).
Proof.
  intros Hc Hturns.
  apply (keeps_drive (trackerIs (networkTracker (tracer w)))).
  - now apply handlers_keep_tracker.
  - reflexivity.
  - unfold undisturbing. revert Hturns. apply Forall_impl.
    intros t Ht w0 H0. unfold trackerIs in *. now rewrite Ht.
Qed.

Lemma X13_entry_points_leave_tracker_witness :
  networkTracker
    (tracer (fst (drive (handlerOf (InjectedCall (Some Scenario.click)))
                        [Scenario.ok] Scenario.env0 Scenario.started)))
  = networkTracker (tracer Scenario.started).
Proof.
  assert (Hturns : Forall Spec.leavesTracker [Scenario.ok]).
  { constructor; [apply quiet_leavesTracker | constructor]. }
  exact (X13_entry_points_leave_tracker
           (InjectedCall (Some Scenario.click)) [Scenario.ok]
           Scenario.env0 Scenario.started eq_refl Hturns).
Defined.

(** X14: with screenshots disabled in the configuration, no entry point
    other than a direct call of [writeOpScreenshot] ever asks the page
    for a screenshot or writes a PNG, however far it runs. *)
Theorem X14_disabled_screenshots_never_taken (c : Call) (turns : list Turn)
        (e : Env) (w : World) :
  isScreenshotCall c = false ->
  noScreenshots w -> undisturbing noScreenshots turns ->
  noScreenshots (fst (drive (handlerOf c) turns e w)).
Proof.
  intros Hc Hw Hturns.
  now apply keeps_drive; [apply handlers_take_no_screenshots | |].
Qed.

Lemma X14_disabled_screenshots_never_taken_witness :
  noScreenshots
    (fst (drive (handlerOf (InjectedCall (Some Scenario.click)))
                [Scenario.ok; Scenario.ok; Scenario.ok] Scenario.env0
                Scenario.started)).
Proof.
  assert (Hw : noScreenshots Scenario.started).
  { split; reflexivity. }
  assert (Hturns : undisturbing noScreenshots
                                [Scenario.ok; Scenario.ok; Scenario.ok]).
  { unfold undisturbing. repeat apply Forall_cons; try apply Forall_nil;
      intros w H; exact H. }
  exact (X14_disabled_screenshots_never_taken
           (InjectedCall (Some Scenario.click))
           [Scenario.ok; Scenario.ok; Scenario.ok]
           Scenario.env0 Scenario.started eq_refl Hw Hturns).
Defined.

End Invariants.

(** Explores every way the run in the goal can go. *)
Ltac explore :=
  repeat (sym_goal;
          match goal with
          | |- context [match ?turns with [] => _ | _ :: _ => _ end] =>
              is_var turns; destruct turns as [|? turns]
          | |- context [Async.settled ?t] => destruct (Async.settled t)
          | |- context [if ?b then _ else _] => destruct b eqn:?
          end).

Section BestEffort.
Import State Async.
Import State.PageTracer State.SessionStorage.

(** X15: [takeScreenshot] and [captureSnapshot] never fail, whatever
    the page, the CDP session and the file system answer and whatever
    state the storage is in: a screenshot that cannot be taken yields
    no path, and without a CDP session [captureSnapshot] returns at
    once and asks for nothing. *)
Theorem X15_captures_never_fail (opDir phase : string) (turns : list Turn)
        (e : Env) (w : World) (err : Error) :
  snd (drive (PageTracer.takeScreenshot opDir phase) turns e w) <> Failed err
  /\ snd (drive (PageTracer.captureSnapshot opDir) turns e w) <> Failed err
  /\ (cdpSession (tracer w) = false ->
      drive (PageTracer.captureSnapshot opDir) turns e w = (w, Done tt))
  /\ (forall t rest,
        settled t = Rejected ->
        snd (drive (PageTracer.takeScreenshot opDir phase) (t :: rest) e w)
        = Done None).
Proof.
  repeat split.
  - unfold PageTracer.takeScreenshot, Storage.writeOpScreenshot.
    explore; discriminate.
  - unfold PageTracer.captureSnapshot, Storage.writeOpSnapshot.
    explore; discriminate.
  - intros H. unfold PageTracer.captureSnapshot. sym_goal. now rewrite H.
  - intros t rest H. unfold PageTracer.takeScreenshot. sym_goal.
    now rewrite H.
Qed.

End BestEffort.

Section Handlers.
Import Records Entry.
Import State Async.
Import State.PageTracer State.SessionStorage.

(** X16: on a tab that is not stopped, a message that does not parse
    is answered by one line on the error console and nothing else; a
    message without an action that is no mutation batch, a message
    that is no user action and has no changes, and a navigation to the
    empty URL or to about:blank are dropped: the world is left exactly
    as it was, and no identifier is used up. *)
Theorem X16_malformed_input_is_dropped (e : Env) (w : World)
        (turns : list Turn) :
  stopped (tracer w) = false ->
  drive (PageTracer.onInjectedEvent None) turns e w
  = (logging (ConsoleError "[PageTracer] JSON") w, Done tt)
  /\ (forall data,
        Js.truthy (Types.InjectedEvent.action data) = false ->
        Types.InjectedEvent.type data <> "mutation" ->
        drive (PageTracer.onInjectedEvent (Some data)) turns e w
        = (w, Done tt))
  /\ (forall data,
        Types.InjectedEvent.type data <> "user_action" ->
        Types.InjectedEvent.changes data = None ->
        drive (PageTracer.onInjectedEvent (Some data)) turns e w
        = (w, Done tt))
  /\ (forall url isMainFrame,
        url = "" \/ url = "about:blank" ->
        drive (PageTracer.onFrameNavigated url isMainFrame) turns e w
        = (w, Done tt)).
Proof.
  intros Hs. repeat split.
  - unfold PageTracer.onInjectedEvent, PageTracer.logged,
      PageTracer.handleInjectedEvent, logging. cbn. now rewrite Hs.
  - intros data Ha Ht. apply String.eqb_neq in Ht.
    unfold PageTracer.onInjectedEvent, PageTracer.logged,
      PageTracer.handleInjectedEvent. cbn. rewrite Hs, Ha, andb_false_r, Ht.
    now destruct (Types.InjectedEvent.changes data).
  - intros data Ht Hc. apply String.eqb_neq in Ht.
    unfold PageTracer.onInjectedEvent, PageTracer.logged,
      PageTracer.handleInjectedEvent. cbn. now rewrite Hs, Ht, Hc.
  - intros url m [-> | ->];
      unfold PageTracer.onFrameNavigated, PageTracer.logged,
        PageTracer.handleNavigation; cbn; now rewrite Hs.
Qed.

Lemma X16_malformed_input_is_dropped_witness :
  drive (PageTracer.onInjectedEvent None) [] Scenario.env0 Scenario.started
  = (logging (ConsoleError "[PageTracer] JSON") Scenario.started, Done tt).
Proof.
  exact (proj1 (X16_malformed_input_is_dropped
                  Scenario.env0 Scenario.started [] eq_refl)).
Defined.

(** X17: when the operation of a user action cannot be created, because
    the storage is not initialised or because the platform refuses the
    directory, the handler registered for injected events ends
    normally with one line on the error console; the identifier it took
    stays used up, so the directories of the session skip that
    counter, and the tab's current operation is left as it was. *)
Theorem X17_sink_failure_is_logged (data : Types.InjectedEvent.t)
        (action : string) (e e1 : Env) (w : World) :
  stopped (tracer w) = false ->
  isUserAction data action ->
  let opDir := PageTracer.opDirFor (storage w) (eventCount (storage w) + 1)
                                   (Spec.frameTypeOf data) action in
  (initialized (storage w) = false ->
   run (PageTracer.onInjectedEvent (Some data)) e w
   = (logging (ConsoleError "[PageTracer] injected") (afterAllocation w),
      Done tt))
  /\ (initialized (storage w) = true ->
      drive (PageTracer.onInjectedEvent (Some data)) [quiet Rejected e1] e w
      = (logging (ConsoleError "[PageTracer] injected")
                 (issue (FsMkdir opDir) (afterAllocation w)),
         Done tt)).
Proof.
  intros Hs (Ht & Ha & Hne). cbv zeta. apply String.eqb_neq in Hne.
  unfold run, PageTracer.onInjectedEvent, PageTracer.logged,
    PageTracer.handleInjectedEvent, PageTracer.saveUserAction,
    PageTracer.opDirFor, Spec.frameTypeOf, logging, afterAllocation.
  split; intros Hi; sym_goal; rewrite Hs, Ht, Ha; sym_goal; rewrite Hne;
    sym_goal; rewrite Hi; reflexivity.
Qed.

Lemma X17_sink_failure_is_logged_witness :
  run (PageTracer.onInjectedEvent (Some Scenario.click)) Scenario.env0
      Scenario.fresh
  = (logging (ConsoleError "[PageTracer] injected")
             (afterAllocation Scenario.fresh),
     Done tt).
Proof.
  assert (H : isUserAction Scenario.click "click").
  { split; [reflexivity | split; [reflexivity | discriminate]]. }
  exact (proj1 (X17_sink_failure_is_logged
                  Scenario.click "click" Scenario.env0 Scenario.env0
                  Scenario.fresh eq_refl H)
               eq_refl).
Defined.

(** X18: whenever the handler of an injected event is waiting on a
    timer, the timer runs for 500 ms and the event is a user action
    whose action is click or submit: keydown, input, any other action
    and mutation batches are never delayed. *)
Theorem X18_only_click_like_actions_wait
        (parsed : option Types.InjectedEvent.t) (turns : list Turn)
        (e : Env) (w w' : World) (ms : Z) (k : Response -> Prog unit) :
  drive (PageTracer.onInjectedEvent parsed) turns e w
  = (w', Suspended (Sleep ms) k) ->
  ms = 500
  /\ exists data action,
       parsed = Some data
       /\ Types.InjectedEvent.action data = Some action
       /\ isClickLike action = true.
Proof.
  intros H.
  unfold PageTracer.onInjectedEvent, PageTracer.logged,
    PageTracer.handleInjectedEvent, PageTracer.saveUserAction,
    PageTracer.saveMutation in H.
  destruct parsed as [data|]; [|crunch H].
  destruct (Types.InjectedEvent.action data) as [action|] eqn:Ea.
  - destruct (isClickLike action) eqn:Ec.
    + split; [|now exists data, action].
      unfold isClickLike in Ec.
      destruct (Types.InjectedEvent.changes data) as [changes|];
        try destruct (currentMutationDir (tracer w)) eqn:?;
        crunch H.
    + exfalso. unfold isClickLike in Ec.
      destruct (Types.InjectedEvent.changes data) as [changes|];
        try destruct (currentMutationDir (tracer w)) eqn:?;
        crunch H.
  - exfalso.
    destruct (Types.InjectedEvent.changes data) as [changes|];
        try destruct (currentMutationDir (tracer w)) eqn:?;
        crunch H.
Qed.

Lemma X18_only_click_like_actions_wait_witness :
  500 = 500
  /\ exists data action,
       Some Scenario.click = Some data
       /\ Types.InjectedEvent.action data = Some action
       /\ isClickLike action = true.
Proof.
  eapply (X18_only_click_like_actions_wait
            (Some Scenario.click) [Scenario.ok] Scenario.env0
            Scenario.started).
  reflexivity.
Defined.

(** X19: with screenshots and snapshots after user actions disabled,
    the record written for a user action carries the identifier taken
    when the handler started, and the timestamp and main-frame URL read
    in the stretch that writes it: for click and submit that is the
    stretch after the settle delay, for the other actions the one in
    which the directory has been made.  The frame URL is that of the
    tab's main frame also for an event from an iframe. *)
Theorem X19_user_action_record
        (data : Types.InjectedEvent.t) (action p1 : string) (r2 : Response)
        (e e1 e2 : Env) (w : World) :
  stopped (tracer w) = false ->
  initialized (storage w) = true ->
  isUserAction data action ->
  plainCapture w ->
  let count := (eventCount (storage w) + 1)%N in
  let opDir :=
    PageTracer.opDirFor (storage w) count (Spec.frameTypeOf data) action in
  let turns := if isClickLike action
               then [quiet (Fulfilled p1) e1; quiet r2 e2]
               else [quiet (Fulfilled p1) e1] in
  let written := if isClickLike action then e2 else e1 in
  exists w' k,
    drive (PageTracer.onInjectedEvent (Some data)) turns e w
    = (w',
       Suspended
         (FsWriteFile
            (Path.join [opDir; "event.json"])
            (CEvent (userActionRecord
                       data action
                       (Storage.eventIdOf (sessionId (storage w)) count)
                       (sessionId (storage w)) written)))
         k).
Proof.
  intros Hs Hi (Ht & Ha & Hne) (Hshot & Hsnap). cbv zeta.
  apply String.eqb_neq in Hne.
  unfold PageTracer.onInjectedEvent, PageTracer.logged,
    PageTracer.handleInjectedEvent, PageTracer.saveUserAction,
    PageTracer.opDirFor, Spec.frameTypeOf, userActionRecord, isClickLike.
  sym_goal. rewrite Hs, Ht, Ha. sym_goal. rewrite Hne. sym_goal.
  rewrite Hi. sym_goal.
  destruct (String.eqb action "click" || String.eqb action "submit");
    repeat (progress (sym_goal; rewrite ?Hshot, ?Hsnap, ?Hi));
    eexists; eexists; reflexivity.
Qed.

Lemma X19_user_action_record_witness :
  exists w' k,
    drive (PageTracer.onInjectedEvent (Some Scenario.click))
          [quiet (Fulfilled "") Scenario.env0;
           quiet (Fulfilled "") Cases.later]
          Scenario.env0 Scenario.started
    = (w',
       Suspended
         (FsWriteFile
            (Path.join
               [PageTracer.opDirFor
                  (storage Scenario.started)
                  (eventCount (storage Scenario.started) + 1)
                  (Spec.frameTypeOf Scenario.click) "click";
                "event.json"])
            (CEvent
               (userActionRecord
                  Scenario.click "click"
                  (Storage.eventIdOf
                     (sessionId (storage Scenario.started))
                     (eventCount (storage Scenario.started) + 1))
                  (sessionId (storage Scenario.started))
                  Cases.later)))
         k).
Proof.
  assert (H : isUserAction Scenario.click "click").
  { split; [reflexivity | split; [reflexivity | discriminate]]. }
  assert (Hc : plainCapture Scenario.started).
  { split; reflexivity. }
  exact (X19_user_action_record
           Scenario.click "click" "" (Fulfilled "") Scenario.env0
           Scenario.env0 Cases.later Scenario.started
           eq_refl eq_refl H Hc).
Defined.

(** X20: [stop] sets the stopped flag in its first stretch, before it
    waits for anything; it detaches the CDP session if there is one and
    forgets it whether detaching succeeded or not; a tab without a
    session is stopped without any request; and stopping a stopped tab
    again changes nothing and asks for nothing. *)
Theorem X20_stop_is_final (e e1 e2 : Env) (r : Response) (w : World)
        (turns : list Turn) :
  stopped (tracer (fst (run PageTracer.stop e w))) = true
  /\ (cdpSession (tracer w) = true ->
      drive PageTracer.stop [quiet r e1] e w
      = (halted [Issued CdpDetach] w, Done tt))
  /\ (cdpSession (tracer w) = false ->
      drive PageTracer.stop turns e w = (halted [] w, Done tt))
  /\ drive PageTracer.stop turns e2 (halted [Issued CdpDetach] w)
     = (halted [Issued CdpDetach] w, Done tt).
Proof.
  unfold run, PageTracer.stop, halted.
  split; [|split; [|split]].
  - cbn. destruct (cdpSession (tracer w)); reflexivity.
  - intros Hc. cbn. rewrite Hc. cbn. destruct r; reflexivity.
  - intros Hc. cbn. rewrite Hc. cbn. rewrite app_nil_r.
    destruct w as [s [c n cs st o m] effs]. cbn in *. now subst.
  - cbn. reflexivity.
Qed.

(** X21: [start] goes on when exposing the receiving function or
    evaluating the script in the current document is refused, and on a
    blank page it completes after its fifth request without recording
    a navigation; when creating the CDP session, enabling the network
    domain or registering the script for new documents is refused, it
    fails with the I/O error, the session being kept if it had been
    created. *)
Theorem X21_start_tolerates_hook_failures
        (p1 p2 p4 : string) (r3 r5 : Response) (e e1 e2 e3 e4 e5 : Env)
        (w : World) (rest : list Turn) :
  (blankPage e5 ->
   drive PageTracer.start
         [quiet (Fulfilled p1) e1; quiet (Fulfilled p2) e2; quiet r3 e3;
          quiet (Fulfilled p4) e4; quiet r5 e5] e w
   = (hooking 5 true w, Done tt))
  /\ drive PageTracer.start (quiet Rejected e1 :: rest) e w
     = (hooking 1 (cdpSession (tracer w)) w, Failed IoError)
  /\ drive PageTracer.start
           (quiet (Fulfilled p1) e1 :: quiet Rejected e2 :: rest) e w
     = (hooking 2 true w, Failed IoError)
  /\ drive PageTracer.start
           (quiet (Fulfilled p1) e1 :: quiet (Fulfilled p2) e2
            :: quiet r3 e3 :: quiet Rejected e4 :: rest) e w
     = (hooking 4 true w, Failed IoError).
Proof.
  unfold PageTracer.start, NetworkTracker.setup, hooking, blankPage.
  split; [|split; [|split]].
  - intros [H | H]; destruct r3, r5; cbn; rewrite H; cbn;
      unfold issue; cbn; now rewrite <- !app_assoc.
  - cbn. destruct w as [s [c n cs st o m] effs]. reflexivity.
  - cbn. unfold issue; cbn. now rewrite <- !app_assoc.
  - destruct r3; cbn; unfold issue; cbn; now rewrite <- !app_assoc.
Qed.

End Handlers.

Section SessionIds.
Import Records.
Import SessionManager.

Lemma length_append (a b : string) :
  String.length (a ++ b) = (String.length a + String.length b)%nat.
Proof. induction a as [|c a IH]; cbn; [reflexivity | now rewrite IH]. Qed.

Lemma append_inv_length (a b x y : string) :
  String.length a = String.length b -> a ++ x = b ++ y -> a = b /\ x = y.
Proof.
  revert b. induction a as [|c a IH]; intros [|d b] Hl H; cbn in *;
    try discriminate.
  - now split.
  - inversion H; subst d. destruct (IH b) as [-> ->]; auto.
Qed.

Lemma append_inv_tail (a b x y : string) :
  String.length x = String.length y -> a ++ x = b ++ y -> a = b /\ x = y.
Proof.
  intros Hl H. apply append_inv_length; [|exact H].
  apply (f_equal String.length) in H. rewrite !length_append in H. lia.
Qed.

Lemma pad_length (n : N) : (n < 100)%N -> String.length (pad n) = 2%nat.
Proof.
  intros H.
  assert (Hall : forallb (fun k => Nat.eqb (String.length (pad (N.of_nat k))) 2)
                         (seq 0 100) = true) by (vm_compute; reflexivity).
  rewrite forallb_forall in Hall.
  specialize (Hall (N.to_nat n)). rewrite N2Nat.id in Hall.
  apply Nat.eqb_eq, Hall, in_seq. lia.
Qed.

Lemma pad_digits (n : N) : JsString.allDigits (pad n) = true.
Proof. apply padStart_digits. Qed.

Lemma pad_inj (n m : N) : pad n = pad m -> n = m.
Proof. apply padStart_inj. Qed.

Lemma ofNumber_inj (n m : N) :
  JsString.ofNumber n = JsString.ofNumber m -> n = m.
Proof. apply (padStart_inj n m 0). Qed.

Lemma generateSessionId_inj (a b : Date) :
  validDate a -> validDate b ->
  generateSessionId a = generateSessionId b -> a = b.
Proof.
  intros (Ha1 & Ha2 & Ha3 & Ha4 & Ha5) (Hb1 & Hb2 & Hb3 & Hb4 & Hb5) H.
  unfold generateSessionId in H. cbn [String.concat] in H.
  apply append_inv_head in H.
  change ("-" ++ ?x) with (String "-" x) in H.
  assert (Hd : forall d : Date,
             JsString.allDigits
               (JsString.ofNumber (getFullYear d) ++ "" ++
                pad (getMonth d + 1) ++ "" ++ pad (getDate d)) = true).
  { intros d. cbn [String.append].
    now rewrite !allDigits_append, ofNumber_digits, !pad_digits. }
  pose proof (digits_span _ _ _ _ (Hd a) (Hd b) H) as Hdate.
  rewrite Hdate in H. apply append_inv_head in H. injection H as Htime.
  cbn [String.append] in Hdate, Htime.
  apply append_inv_tail in Hdate;
    [|rewrite !length_append, !pad_length; lia].
  destruct Hdate as [Hy Hmd].
  apply append_inv_length in Hmd; [|rewrite !pad_length; lia].
  destruct Hmd as [Hm Hday].
  apply append_inv_length in Htime; [|rewrite !pad_length; lia].
  destruct Htime as [Hh Hms].
  apply append_inv_length in Hms; [|rewrite !pad_length; lia].
  destruct Hms as [Hmin Hsec].
  apply ofNumber_inj in Hy. apply pad_inj in Hm, Hday, Hh, Hmin, Hsec.
  destruct a, b; cbn in *. f_equal; lia.
Qed.

(** X22: two dates whose month, day, hour, minute and second are in the
    ranges the getters of a date return, and which differ in year,
    month, day, hour, minute or second, get different session
    identifiers: sessions started in different seconds never share an
    identifier, whatever the number of digits of the year. *)
Theorem X22_session_ids_differ_by_second (a b : Date) :
  validDate a -> validDate b -> a <> b ->
  generateSessionId a <> generateSessionId b.
Proof.
  intros Ha Hb Hne H. apply Hne. now apply generateSessionId_inj.
Qed.

Lemma X22_session_ids_differ_by_second_witness :
  generateSessionId Cases.newYear <> generateSessionId Cases.nextSecond.
Proof.
  assert (H : validDate Cases.newYear).
  { unfold validDate. cbn. lia. }
  assert (H' : validDate Cases.nextSecond).
  { unfold validDate. cbn. lia. }
  exact (X22_session_ids_differ_by_second
           Cases.newYear Cases.nextSecond H H' ltac:(discriminate)).
Defined.

End SessionIds.
